(* ===== verification/_CoqProject ===== *)
-Q . S2P
Prelude.v
PyValue.v
Frame.v
Dataset.v
Plotly.v
Loader.v
Layout.v
Pie.v
Scatter.v
App.v
Host.v
AsyncHost.v
Examples.v
