(* ===== verification/Prelude.v ===== *)
(** * A verification development for the SpaceX launch-records dashboard

    The program ([src/spacex_dash_app.py], 147 lines of Python) loads a CSV of
    launch records into a pandas data frame at import time, builds a Dash page
    (a site drop-down, a pie chart, a payload range slider, a scatter chart)
    and registers two callbacks that the Dash host re-runs whenever the
    drop-down or the slider changes: [get_pie_chart] and [get_scatter_chart].
    Both are pure functions of the callback inputs and of the module-level
    frame [spacex_df], which is assigned once and never mutated.

    ** Layout of the library

    - [Prelude] (this file): the exception type [pyexc] and the error monad
      [result] in which every fallible Python expression is modelled, with
      the tactic [simplify_result] and the hint database [frame]; generic
      list functions shared by the components (boolean-mask selection
      [select], first-seen de-duplication [nub], counting [count_occ_of] and
      [tally], extrema by a boolean order [max_by], element-wise application
      of a fallible function [traverse]) and their lemmas.
    - [PyValue]: the Python scalars that occur as data-frame cells and as
      callback inputs ([pyval]): [None], [bool], [int], finite [float] (an
      exact rational, [Qc]), [nan] and [str]; Python's [==], the ordered
      comparisons with their [TypeError], [isinstance(v, (int, float))],
      [pd.notna], dictionary lookup and f-string interpolation.
    - [Frame]: the part of pandas the program calls, modelled from its
      documented behaviour: a [DataFrame] is an ordered association list
      from column names to [Series] (lists of cells); [df_get] is
      [df[name]] with its [KeyError], [df_take] is boolean indexing
      [df[mask]], plus [series_eq], [series_ge], [series_le] (a column
      against a scalar: [cell_cmp] answers [False] for a missing cell or a
      missing scalar without comparing, and compares as Python does
      otherwise), [mask_and], [series_unique], [series_max], [series_min],
      [series_map], [value_counts], [reset_index], [set_columns], [df_copy].
    - [Dataset]: the specification's view of the data: a [launch] record
      (payload, site, outcome class, booster category) and the relation
      [represents df d] between a frame and the sequence of records its four
      columns hold, with the conversions [rows_of] and [frame_of].
    - [Plotly]: the chart descriptions the callbacks return ([figure]):
      [px_pie] and [px_scatter] with their [ValueError] on a missing
      column, and the renderer's aggregation of a pie into [slices].
    - [Loader]: lines 12-25 of the source: [load] (the [try]/[except
      FileNotFoundError] around [pd.read_csv]), the placeholder frame
      [fallback_df], and [init_data], which also computes [max_payload] and
      [min_payload] (the record [module_data] holds the module variables and
      the lines printed).
    - [Layout]: lines 28-74: the component tree [app_layout] as a value of
      the inductive type [component], built from one definition per
      component of the source ([title], [site_dropdown], [pie_graph],
      [payload_slider], [scatter_graph], assembled by [page_of]), with the
      computed parts [site_options], [slider_marks] (over [py_range], the
      values of [range(0, 10001, 1000)]) and [slider_value]; [dropdown_value],
      [dropdown_options], [slider_value_of], [component_properties] and
      [component_ids] read a page by identifier, as the host does;
      [startup] is [init_data] followed by [app_layout], that is the module
      up to the callbacks.
    - [Pie]: lines 81-103, the callback [get_pie_chart], with the local
      table [status_counts] and the mapping [status_dict]; [compute_pie] is
      the same chart computed from launch records.
    - [Scatter]: lines 111-143, the callback [get_scatter_chart], with
      [unpack2] (line 112), [payload_mask] (lines 124-125) and
      [filter_by_payload] (lines 120-125); [compute_scatter] is the same
      result, chart or exception, computed from launch records, and
      [comparable] is the condition under which the comparisons of lines
      124-125 do not raise.
    - [App]: the callbacks as the host calls them, closed over the module
      variables ([pie_callback], [scatter_callback], lines 80-81 and
      110-111), their first calls ([initial_pie], [initial_scatter]) and the
      theorems that need start-up and a callback together.
    - [Host]: the registrations of the callbacks (lines 77-80, 106-110),
      the application object and the module as a whole ([dash_app],
      [run_module]: lines 28 and 146-147, with [__name__] as an argument),
      and the reactive host of the specification as a transition system:
      [page_state] holds the value of the drop-down, the value of the slider
      and the figure each graph shows; an [event] is a choice in the
      drop-down or a move of the slider; [step] stores the new value and
      calls the callbacks registered on the changed property ([triggers]);
      [load_page] reads the
      initial values off the component tree and calls every callback once;
      [reachable] is the set of states.  The host sees the program through
      the interface [callbacks], with the law [TotalCallbacks]; callbacks
      that agree on every input are equivalent ([≡]), and the host respects
      the equivalence ([Proper] instances).
    - [AsyncHost]: the concurrency model of the specification.  An
      interaction sends a [request] for every callback it triggers
      ([interact], [issue]); answers arrive later and in any order
      ([deliver]); an answer is displayed only if its request is still the
      latest for its graph ([fresh]) and is dropped otherwise.  [async_run]
      executes a list of [label]s (interactions and deliveries);
      [async_reachable] is the set of states, [async_inv] the invariant.
    - [Examples]: the example of the specification, the dashboard on the
      placeholder dataset and short runs of the two hosts, evaluated on the
      definitions.

    ** Correspondence with the code

    Every Python expression that can raise is a [result]; sequencing is the
    monadic bind [x ← e; k], so the order in which the code evaluates its
    sub-expressions is the order in which the model can fail.  A callback
    takes the frame as an explicit first argument (the code reads the global
    [spacex_df]); the drop-down value is a [pyval] (Dash sends [None] when the
    selection is cleared) and the slider value is a [list pyval] (the JSON
    array), unpacked by [low, high = payload_range] with its [ValueError].
    [pd.read_csv] is an argument of [load]: the frame it parsed, or the
    exception it raised.  Local variables keep the names of the source.

    ** What the theorems show

    - [Prelude], [PyValue], [Frame], [Plotly]: the laws of the library
      operations the components rely on.  Boolean indexing is [filter] and
      keeps a frame well formed ([df_wf]: distinct names, columns of one
      length); [value_counts] has one entry per distinct non-missing cell,
      sorted by descending count, with counts that add up to the number of
      non-missing cells; [series_max] and [series_min] bound every numeric
      cell and are attained; the [slices] of a pie have distinct labels and
      sizes that add up to the weights of its rows.
    - [Dataset]: [represents] is functional in both directions and is
      preserved by boolean indexing, which acts as [filter] on the records;
      the sites of a dataset partition every part of it.
    - [Loader]: a missing file never fails start-up and yields the one-row,
      four-column placeholder; any other exception propagates; a frame
      without the payload column fails at line 24; the payload bounds
      bracket every numeric payload.
    - [Layout]: the options are ['ALL'] followed by the distinct sites in
      first-seen order, and their values are distinct unless a site is itself
      called ['ALL']; the slider marks are exactly the positions the slider
      can take between its minimum and its maximum; what the code puts into
      the page is what a lookup by identifier reads back, and the
      identifiers are distinct; the [KeyError] of line 43.
    - [Pie]: on the all-sites view there is one slice per site with a
      successful launch, sized by its number of successes, and the slices add
      up to the number of successes; on a site view the labels are among
      Success/Failure, each slice counts the site's rows of that class,
      slices come by descending size, and the sizes add up to the site's
      launches when the outcome column is binary (a row whose class is
      neither 0 nor 1 is dropped, which the specification does not say);
      the exact condition under which the callback raises, and which
      exception; the slices do not depend on the order of the rows of the
      dataset, up to a permutation ([Proper] instances for [nub], [tally] and
      [value_counts] carry the rewriting); on a frame that holds launch
      records the callback is [compute_pie] of the records; the slice of a
      site on the all-sites view is the Success slice of the view of that
      site.
    - [Scatter]: for a valid interval the points are exactly the records in
      the closed interval (and at the selected site); a site view is a
      sublist of the all-sites view; widening the interval only adds points;
      a bound that is not a number switches the filter off; the exceptions
      ([ValueError] of the unpacking, [TypeError] of a comparison of a text
      cell with a bound that is not [nan]), with the exact condition for
      each; a missing cell ([None] or [nan]) never raises and is never
      plotted for a valid interval; on a frame that holds launch records the
      callback is [compute_scatter] of the records, on every branch.
    - [App]: the missing-column guard of line 115 cannot fire once start-up
      has succeeded, because line 24 has already read that column; the first
      scatter chart shows every launch with a numeric payload; the sites the
      drop-down offers partition the all-sites scatter chart; while the
      slider is on its initial interval the pie chart of a site counts the
      launches the scatter chart plots for it; the page that comes up when
      the CSV is missing.
    - [Host]: the decorators name only properties of components that the
      layout has; for any total callbacks ([TotalCallbacks]) every reachable
      state is [consistent] (both graphs show the charts of the current
      selection), by induction on [reachable]; the callbacks of the program
      are total on launch records with numeric payloads, so the dashboard
      always shows what is selected, whatever the sequence of interactions;
      an interaction that reports the same value again changes nothing; two
      frames that hold the same launch records
      (whatever other columns they have, in whatever order) give the same
      page and the same charts after any sequence of interactions.
    - [AsyncHost]: [async_inv] holds in every reachable state (for each
      graph, the latest request carries the current selection, and once it
      has been answered the graph shows the chart of the current selection);
      the pending answers can arrive in any order, all are accepted, and
      deliveries cannot go on for ever ([delivers_sn]: the number of requests
      in flight decreases); when no request is in flight the page is the one
      the synchronous host of [Host] shows after the same interactions, so
      delay, reordering and the dropping of superseded answers are invisible
      once the page has settled.

    Theorems with a claim identifier (C1, C2, …) in their comment are the
    main properties of the development, numbered by importance; each one
    that has hypotheses is followed by a witness that instantiates it on the
    example of the specification ([example_launches]: two launches at site
    A, one at B), on a frame with irregular cells ([odd_launches]) or on a
    payload column read as text ([text_launches]).  The lemmas before them
    are shared: a property is never used to prove another one.

    ** Bounds and numbers

    The program has no loop of its own: its iterations are comprehensions
    over finite sequences (lines 44 and 66), so no definition takes fuel.
    [py_range] gives the values of [range(start, stop, step)] in closed form;
    every other function is structurally recursive (or a stdpp [merge_sort])
    and total.  The runs of the hosts are finite lists of events or labels.
    Python [int]s are
    unbounded ([Z]); a finite [float] is the rational it denotes ([Qc],
    canonical, so Leibniz equality is numeric equality); comparisons of
    finite floats agree with comparisons of rationals, and [nan] is a
    separate constructor that compares false with everything.  Infinities
    and float rounding do not occur: the program never does arithmetic on
    cells.

    ** Not modelled

    Every statement of the source is modelled; the lines the development
    does not map are the imports, the comments and the blank lines.  What
    is left out belongs to the libraries the program calls, and neither the
    source nor the specification says enough about it to model it
    faithfully:

    - CSV parsing: [pd.read_csv] is represented by its outcome, the parsed
      frame or the exception raised.
    - The HTTP server and the browser: of [dash.Dash] and [app.run] the
      model keeps the application object and the decision to start the
      server; the transport is represented by the order in which answers
      arrive.
    - Chart rendering beyond the aggregation of pie slices: colours, axes,
      and the grouping of scatter points into traces.
    - The text of a float inside a chart title ([py_str] is partial there):
      it depends on the binary representation, and floats are rationals
      here.
    - pandas index labels: a filtered frame keeps its rows in order, and the
      program never reads a label.
    - pandas dtypes: a column is the list of its cells, compared as pandas
      compares a column of Python objects with a scalar ([cell_cmp]); on a
      numeric column this agrees with the vectorised comparison, and a
      column that holds text raises [TypeError] (at the first text cell
      here, for the column as a whole in pandas).
    - What the host does with a callback that raises: neither the source
      nor the specification says.  [update] keeps the figure the graph had,
      which is what Dash does; the properties of the hosts that name a
      chart are stated for callbacks that do not raise ([TotalCallbacks]).
    - A slider value that is not a sequence: [payload_range] is a list of
      scalars, as the slider sends it, so the [TypeError] of unpacking
      [None] or a number has no counterpart.
    - The order in which a pie is drawn: [slices] lists the aggregated
      sectors by first appearance of their label; the properties about
      [slices] are about labels and sizes (and, for a site view, about the
      order of the rows [value_counts] returns), never about the order on
      screen.  Among values of equal count [value_counts] keeps the order
      of first appearance; pandas does not promise an order there and no
      property depends on it.
    - Several pages open at once: the specification says that overlapping
      invocations are independent and share only the read-only dataset; the
      callbacks are functions of their inputs and of that dataset, which is
      all the program contributes to it, so each page is an instance of the
      hosts above and no separate model of several pages is given. *)

From stdpp Require Export base tactics option list sets strings numbers sorting pretty relations.

(** The solvers of stdpp clear hypotheses that an earlier step may already
    have consumed; the warning about it carries no information here. *)
#[export] Set Warnings "-clear-no-such-hyp".

(** ** Exceptions and the error monad *)

(** The Python exceptions the program can raise. *)
Inductive pyexc : Type :=
| FileNotFoundError
| KeyError (k : string)
| TypeError
| ValueError.

(** The outcome of evaluating a Python expression: a value or an exception. *)
Inductive result (A : Type) : Type :=
| Ok (a : A)
| Err (e : pyexc).
Arguments Ok {A} a.
Arguments Err {A} e.

#[export] Instance pyexc_eq_dec : EqDecision pyexc.
Proof. solve_decision. Defined.

#[export] Instance result_eq_dec {A} `{EqDecision A} : EqDecision (result A).
Proof. solve_decision. Defined.

#[export] Instance result_ret : MRet result := λ A a, Ok a.

#[export] Instance result_bind : MBind result := λ A B f m,
  match m with Ok a => f a | Err e => Err e end.

#[export] Instance result_fmap : FMap result := λ A B f m,
  match m with Ok a => Ok (f a) | Err e => Err e end.

(** [is_ok r] holds when [r] is a value. *)
Definition is_ok {A} (r : result A) : bool :=
  match r with Ok _ => true | Err _ => false end.

(** [traverse f l] applies a fallible [f] to each element, left to right, and
    stops at the first exception (a Python comprehension or an element-wise
    operation that may raise). *)
Fixpoint traverse {A B} (f : A → result B) (l : list A) : result (list B) :=
  match l with
  | [] => Ok []
  | x :: l => y ← f x; ys ← traverse f l; Ok (y :: ys)
  end.

(** ** Generic list functions *)

(** Boolean-mask selection: keep the elements whose flag is [true]. *)
Fixpoint select {A} (m : list bool) (l : list A) : list A :=
  match m, l with
  | b :: m, x :: l => if b then x :: select m l else select m l
  | _, _ => []
  end.

(** De-duplication that keeps the first occurrence of each element, in order
    of first appearance; [seen] accumulates the elements already emitted. *)
Fixpoint nub_from {A} `{EqDecision A} (seen l : list A) : list A :=
  match l with
  | [] => []
  | x :: l =>
      if decide (x ∈ seen) then nub_from seen l
      else x :: nub_from (x :: seen) l
  end.

Definition nub {A} `{EqDecision A} (l : list A) : list A := nub_from [] l.

(** Number of occurrences of [x] in [l]. *)
Definition count_occ_of {A} `{EqDecision A} (x : A) (l : list A) : nat :=
  length (filter (x =.) l).

(** Each distinct element with its number of occurrences, in first-seen order. *)
Definition tally {A} `{EqDecision A} (l : list A) : list (A * nat) :=
  (λ x, (x, count_occ_of x l)) <$> nub l.

(** The first element that is maximal for the boolean order [leb]. *)
Fixpoint max_by {A} (leb : A → A → bool) (cand : A) (l : list A) : A :=
  match l with
  | [] => cand
  | x :: l => if leb x cand then max_by leb cand l else max_by leb x l
  end.

(** The sum of a list of integers. *)
Definition sum_listZ (l : list Z) : Z := foldr Z.add 0%Z l.

(** ** Lemmas on the error monad *)

Create HintDb frame discriminated.

Lemma bind_Ok_inv {A B} (m : result A) (f : A → result B) (b : B) :
  m ≫= f = Ok b ↔ ∃ a, m = Ok a ∧ f a = Ok b.
Proof.
  destruct m as [a|e]; simpl; split.
  - eauto.
  - intros (? & [= <-] & ?); done.
  - done.
  - intros (? & [=] & ?); done.
Qed.

Lemma bind_Err_inv {A B} (m : result A) (f : A → result B) (e : pyexc) :
  m ≫= f = Err e ↔ m = Err e ∨ ∃ a, m = Ok a ∧ f a = Err e.
Proof.
  destruct m as [a|e']; simpl; split.
  - intros ?. right. eauto.
  - intros [[=]|(? & [= <-] & ?)]; done.
  - intros [= ->]. by left.
  - intros [[= ->]|(? & [=] & ?)]; done.
Qed.

Lemma fmap_Ok_inv {A B} (g : A → B) (m : result A) (b : B) :
  g <$> m = Ok b ↔ ∃ a, m = Ok a ∧ b = g a.
Proof.
  destruct m as [a|e]; simpl; split.
  - intros [= <-]. eauto.
  - intros (? & [= <-] & ->); done.
  - done.
  - intros (? & [=] & ?); done.
Qed.

Lemma is_ok_true {A} (r : result A) : is_ok r = true ↔ ∃ a, r = Ok a.
Proof. destruct r; simpl; split; first [done | by eauto | intros [? [=]]]. Qed.

(** [simplify_result] decomposes hypotheses that say a monadic computation
    returned a value, and discharges contradictory ones. *)
Ltac simplify_result :=
  repeat match goal with
  | H : Ok _ = Ok _ |- _ => injection H as H
  | H : Err _ = Err _ |- _ => injection H as H
  | H : Ok _ = Err _ |- _ => discriminate H
  | H : Err _ = Ok _ |- _ => discriminate H
  | H : mret _ = Ok _ |- _ => injection H as H
  | H : (_ ≫= _) = Ok _ |- _ =>
      let a := fresh "a" in
      let Ha := fresh "Ha" in
      apply bind_Ok_inv in H as (a & Ha & H)
  | H : (_ <$> _) = Ok _ |- _ =>
      let a := fresh "a" in
      let Ha := fresh "Ha" in
      apply fmap_Ok_inv in H as (a & Ha & H)
  | _ => progress simplify_eq/=
  end.

Lemma traverse_Ok_Forall2 {A B} (f : A → result B) (l : list A) (k : list B) :
  traverse f l = Ok k ↔ Forall2 (λ x y, f x = Ok y) l k.
Proof.
  revert k. induction l as [|x l IH]; intros k; simpl.
  - split; [intros; simplify_result; constructor | by inversion 1].
  - split.
    + intros H. simplify_result. constructor; [done | by apply IH].
    + inversion 1 as [|? y ? ys Hx Hl]; subst. rewrite Hx. simpl.
      apply IH in Hl. by rewrite Hl.
Qed.

Lemma traverse_Ok_length {A B} (f : A → result B) (l : list A) (k : list B) :
  traverse f l = Ok k → length k = length l.
Proof. rewrite traverse_Ok_Forall2. intros H. symmetry. by eapply Forall2_length. Qed.

Lemma traverse_total {A B} (f : A → result B) (l : list A) :
  Forall (λ x, is_ok (f x) = true) l → ∃ k, traverse f l = Ok k.
Proof.
  induction 1 as [|x l Hx _ [k Hk]]; simpl; [by eexists |].
  apply is_ok_true in Hx as [y Hy]. rewrite Hy, Hk. simpl. by eexists.
Qed.

Lemma traverse_pure {A B} (g : A → B) (l : list A) :
  traverse (λ x, Ok (g x)) l = Ok (g <$> l).
Proof. induction l as [|x l IH]; simpl; [done | by rewrite IH]. Qed.

Lemma traverse_fmap {A B C} (f : B → result C) (g : A → B) (l : list A) :
  traverse f (g <$> l) = traverse (f ∘ g) l.
Proof. induction l as [|x l IH]; csimpl; [done | by rewrite IH]. Qed.

Lemma traverse_Err {A B} (f : A → result B) (l : list A) (e : pyexc) :
  traverse f l = Err e → ∃ x, x ∈ l ∧ f x = Err e.
Proof.
  induction l as [|x l IH]; simpl; [done |].
  intros [?|(y & Hy & [?|(ys & Hys & ?)]%bind_Err_inv)]%bind_Err_inv; [| |done].
  - exists x. split; [left | done].
  - destruct IH as (x' & ? & ?); [done |]. exists x'. split; [by right | done].
Qed.

(** An element on which [f] raises makes [traverse] raise, with that
    exception when [f] raises no other on the list. *)
Lemma traverse_Err_elem {A B} (f : A → result B) (l : list A) (x : A) (e : pyexc) :
  x ∈ l → f x = Err e → (∀ y e', y ∈ l → f y = Err e' → e' = e) →
  traverse f l = Err e.
Proof.
  intros Hx Hfx Hall. destruct (traverse f l) as [k|e'] eqn:E.
  - apply traverse_Ok_Forall2 in E. apply list_elem_of_lookup in Hx as [i Hi].
    destruct (Forall2_lookup_l _ _ _ _ _ E Hi) as (y & _ & Hy). congruence.
  - apply traverse_Err in E as (y & Hy & He). f_equal. eauto.
Qed.

Lemma traverse_Exists_Err {A B} (f : A → result B) (l : list A) :
  Exists (λ x, is_ok (f x) = false) l → is_ok (traverse f l) = false.
Proof.
  induction 1 as [x l Hx|x l _ IH]; simpl.
  - by destruct (f x).
  - destruct (f x); [|done]. simpl. by destruct (traverse f l).
Qed.

Lemma traverse_ext {A B} (f g : A → result B) (l : list A) :
  Forall (λ x, f x = g x) l → traverse f l = traverse g l.
Proof. induction 1 as [|x l Hx _ IH]; simpl; [done | by rewrite Hx, IH]. Qed.

(** ** Lemmas on [select] *)

Lemma select_fmap_filter {A} (p : A → bool) (l : list A) :
  select (p <$> l) l = filter (λ x, p x = true) l.
Proof.
  induction l as [|x l IH]; [done |].
  rewrite filter_cons, <- IH. cbn. destruct (p x); by case_decide.
Qed.

Lemma select_sublist {A} (m : list bool) (l : list A) : select m l `sublist_of` l.
Proof.
  revert m. induction l as [|x l IH]; intros [|[] m]; simpl;
    try apply sublist_nil_l; [by apply sublist_skip | by apply sublist_cons].
Qed.

Lemma select_length_le {A} (m : list bool) (l : list A) :
  length (select m l) ≤ length l.
Proof. apply sublist_length, select_sublist. Qed.

Lemma select_length_eq {A B} (m : list bool) (l : list A) (k : list B) :
  length l = length k → length (select m l) = length (select m k).
Proof.
  revert l k. induction m as [|b m IH]; intros [|x l] [|y k] ?; simplify_eq/=;
    try done. destruct b; simpl; auto.
Qed.

Lemma select_fmap {A B} (g : A → B) (m : list bool) (l : list A) :
  select m (g <$> l) = g <$> select m l.
Proof.
  revert l. induction m as [|b m IH]; intros [|x l]; simpl; try done.
  destruct b; simpl; by rewrite IH.
Qed.

Lemma select_zip_with_andb {A} (m1 m2 : list bool) (l : list A) :
  length m1 = length l →
  select (zip_with andb m1 m2) l = select (select m1 m2) (select m1 l).
Proof.
  revert m2 l. induction m1 as [|b1 m1 IH]; intros m2 [|x l] Hlen; try done.
  destruct m2 as [|b2 m2]; [by destruct b1 |].
  destruct b1, b2; simpl; rewrite IH by (simpl in Hlen; lia); done.
Qed.

Lemma select_nil_r {A} (m : list bool) : select m (@nil A) = [].
Proof. by destruct m. Qed.

Lemma select_zip_with {A B C} (g : A → B → C) (m : list bool)
    (xs : list A) (ys : list B) :
  select m (zip_with g xs ys) = zip_with g (select m xs) (select m ys).
Proof.
  revert xs ys. induction m as [|b m IH]; intros [|x xs] [|y ys]; simpl;
    try done.
  - destruct b; simpl; [done |]. by destruct (select m xs).
  - destruct b; simpl; by rewrite IH.
Qed.

Lemma elem_of_select_fmap {A} (p : A → bool) (l : list A) (x : A) :
  x ∈ select (p <$> l) l ↔ p x = true ∧ x ∈ l.
Proof. rewrite select_fmap_filter. apply (list_elem_of_filter (λ x, p x = true)). Qed.

Lemma forallb_Forall {A} (p : A → bool) (l : list A) :
  forallb p l = true ↔ Forall (λ x, p x = true) l.
Proof.
  induction l as [|x l IH]; simpl; [by split; [constructor |] |].
  rewrite andb_true_iff, IH, Forall_cons. done.
Qed.

Lemma filter_all {A} (P : A → Prop) `{∀ x, Decision (P x)} (l : list A) :
  (∀ x, x ∈ l → P x) → filter P l = l.
Proof.
  induction l as [|y l IH]; intros Hl; [done |].
  rewrite filter_cons, decide_True by (apply Hl; set_solver).
  f_equal. apply IH. set_solver.
Qed.

Lemma filter_none {A} (P : A → Prop) `{∀ x, Decision (P x)} (l : list A) :
  (∀ x, x ∈ l → ¬ P x) → filter P l = [].
Proof.
  induction l as [|y l IH]; intros Hl; [done |].
  rewrite filter_cons, decide_False by (apply Hl; set_solver).
  apply IH. set_solver.
Qed.

Lemma filter_fmap {A B} (f : A → B) (P : B → Prop) `{∀ y, Decision (P y)}
    (l : list A) :
  filter P (f <$> l) = f <$> filter (λ x, P (f x)) l.
Proof.
  induction l as [|x l IH]; [done |]. csimpl.
  rewrite !filter_cons, IH. by case_decide.
Qed.

Lemma NoDup_fmap_elem_inj {A B} (f : A → B) (l : list A) (x y : A) :
  NoDup (f <$> l) → x ∈ l → y ∈ l → f x = f y → x = y.
Proof.
  induction l as [|z l IH]; csimpl; [by intros _ ?%elem_of_nil |].
  intros [Hz Hnd]%NoDup_cons [-> | Hx]%elem_of_cons [-> | Hy]%elem_of_cons Heq;
    [done | | | by apply IH].
  - destruct Hz. rewrite Heq. by apply list_elem_of_fmap_2.
  - destruct Hz. rewrite <- Heq. by apply list_elem_of_fmap_2.
Qed.

(** Removing the element of key [x] from a list with distinct keys. *)
Lemma Permutation_cons_filter_fmap {A B} `{EqDecision B} (f : A → B)
    (l : list A) (x : B) (k : list B) :
  NoDup (f <$> l) → x :: k ≡ₚ f <$> l → k ≡ₚ f <$> filter (λ y, f y ≠ x) l.
Proof.
  intros Hnd Hperm.
  assert (f <$> filter (λ y, f y ≠ x) l = filter (λ y, y ≠ x) (f <$> l)) as ->
    by (symmetry; exact (filter_fmap f (λ y, y ≠ x) l)).
  rewrite <- Hperm. rewrite <- Hperm in Hnd. apply NoDup_cons in Hnd as [Hx _].
  rewrite filter_cons_False by naive_solver.
  rewrite filter_all; [done |]. by intros y Hy ->.
Qed.

Lemma fmap_bind_list {A B C} (f : B → C) (g : A → list B) (l : list A) :
  f <$> (l ≫= g) = l ≫= (λ x, f <$> g x).
Proof. induction l as [|x l IH]; csimpl; [done | by rewrite fmap_app, IH]. Qed.

(** A list is partitioned by the values of a key: the groups of the keys
    [ks], one after the other, are a permutation of the list. *)
Lemma Permutation_bind_filter {A B} `{EqDecision B} (f : A → B)
    (ks : list B) (l : list A) :
  NoDup ks → (∀ x, x ∈ l → f x ∈ ks) →
  l ≡ₚ ks ≫= (λ b, filter (λ x, f x = b) l).
Proof.
  intros Hnd. revert l. induction Hnd as [|b ks Hb Hnd IH]; intros l Hin.
  - destruct l as [|x l]; [done |]. specialize (Hin x). set_solver.
  - csimpl. rewrite <- (filter_app_complement (λ x, f x = b) l) at 1.
    f_equiv. rewrite (IH (filter (λ x, f x ≠ b) l)).
    + apply reflexive_eq, Forall_bind_ext, Forall_forall. intros b' Hb'.
      apply list_filter_filter_l. by intros x -> ->.
    + intros x [Hx Hl]%list_elem_of_filter. specialize (Hin x Hl). set_solver.
Qed.

Lemma list_filter_iff_elem {A} (P Q : A → Prop) `{∀ x, Decision (P x)}
    `{∀ x, Decision (Q x)} (l : list A) :
  (∀ x, x ∈ l → P x ↔ Q x) → filter P l = filter Q l.
Proof.
  induction l as [|x l IH]; intros Hl; [done |].
  rewrite !filter_cons, IH by set_solver.
  repeat case_decide; try done; exfalso; set_solver.
Qed.

Lemma elem_of_Z_counts {A} (vc : list (A * nat)) (x : A) (z : Z) :
  (x, z) ∈ prod_map id Z.of_nat <$> vc ↔ ∃ n, (x, n) ∈ vc ∧ z = Z.of_nat n.
Proof.
  rewrite list_elem_of_fmap. split.
  - intros ([x' n] & [= -> ->] & ?). eauto.
  - intros (n & ? & ->). by exists (x, n).
Qed.

Lemma sublist_filter_mono {A} (P : A → Prop) `{∀ x, Decision (P x)} (l k : list A) :
  l `sublist_of` k → filter P l `sublist_of` filter P k.
Proof.
  induction 1 as [|x l k _ IH|x l k _ IH]; [done | |];
    rewrite ?filter_cons; case_decide; try done;
    [by apply sublist_skip | by apply sublist_cons].
Qed.

Lemma length_pos_elem {A} (l : list A) : 0 < length l → ∃ x, x ∈ l.
Proof. destruct l as [|x l]; simpl; [lia |]. exists x. by left. Qed.

Lemma length_filter_pos_elem {A} (P : A → Prop) `{∀ x, Decision (P x)}
    (l : list A) (x : A) :
  P x → x ∈ l → 0 < length (filter P l).
Proof.
  intros HP Hx. assert (x ∈ filter P l) as Hin by by apply list_elem_of_filter.
  destruct (filter P l); [by apply elem_of_nil in Hin | simpl; lia].
Qed.

(** ** Lemmas on [nub] *)

Section nub.
Context {A : Type} `{EqDecision A}.
Implicit Types (x : A) (l seen : list A).

Lemma elem_of_nub_from seen l x : x ∈ nub_from seen l ↔ x ∈ l ∧ x ∉ seen.
Proof.
  revert seen. induction l as [|y l IH]; intros seen; simpl.
  - set_solver.
  - case_decide; [rewrite IH | rewrite elem_of_cons, IH];
      destruct (decide (x = y)); set_solver.
Qed.

Lemma NoDup_nub_from seen l : NoDup (nub_from seen l).
Proof.
  revert seen. induction l as [|y l IH]; intros seen; simpl; [constructor |].
  case_decide; [done |]. constructor; [|done].
  rewrite elem_of_nub_from. set_solver.
Qed.

Lemma nub_from_sublist seen l : nub_from seen l `sublist_of` l.
Proof.
  revert seen. induction l as [|y l IH]; intros seen; simpl; [done |].
  case_decide; [by apply sublist_cons | by apply sublist_skip].
Qed.

Lemma elem_of_nub l x : x ∈ nub l ↔ x ∈ l.
Proof. unfold nub. rewrite elem_of_nub_from. set_solver. Qed.

Lemma NoDup_nub l : NoDup (nub l).
Proof. apply NoDup_nub_from. Qed.

Lemma nub_sublist l : nub l `sublist_of` l.
Proof. apply nub_from_sublist. Qed.

Lemma nub_length_le l : length (nub l) ≤ length l.
Proof. apply sublist_length, nub_sublist. Qed.

Lemma nub_from_NoDup_id seen l :
  NoDup l → (∀ x, x ∈ l → x ∉ seen) → nub_from seen l = l.
Proof.
  revert seen. induction l as [|y l IH]; intros seen Hl Hs; simpl; [done |].
  apply NoDup_cons in Hl as [Hy Hl]. case_decide; [set_solver |].
  f_equal. apply IH; [done |]. set_solver.
Qed.

Lemma nub_NoDup_id l : NoDup l → nub l = l.
Proof. intros. apply nub_from_NoDup_id; [done | set_solver]. Qed.

Lemma nub_idemp l : nub (nub l) = nub l.
Proof. apply nub_NoDup_id, NoDup_nub. Qed.

Lemma nub_nil_inv l : nub l = [] → l = [].
Proof.
  destruct l as [|x l]; [done |]. intros H.
  assert (x ∈ nub (x :: l)) as Hx by (apply elem_of_nub; set_solver).
  rewrite H in Hx. set_solver.
Qed.

(** ** Lemmas on counting *)

Lemma count_occ_of_nil x : count_occ_of x [] = 0.
Proof. done. Qed.

Lemma count_occ_of_cons x y l :
  count_occ_of x (y :: l) = (if decide (x = y) then 1 else 0) + count_occ_of x l.
Proof. unfold count_occ_of. rewrite filter_cons. by case_decide. Qed.

Lemma count_occ_of_pos x l : 0 < count_occ_of x l ↔ x ∈ l.
Proof.
  induction l as [|y l IH].
  - rewrite count_occ_of_nil, elem_of_nil. lia.
  - rewrite count_occ_of_cons, elem_of_cons, <- IH. case_decide; intuition lia.
Qed.

Lemma count_occ_of_le x l : count_occ_of x l ≤ length l.
Proof. apply length_filter. Qed.

Lemma sum_indicator y (ks : list A) :
  NoDup ks →
  sum_list ((λ x, if decide (x = y) then 1 else 0) <$> ks)
  = if decide (y ∈ ks) then 1 else 0.
Proof.
  induction 1 as [|k ks Hk Hks IH]; csimpl; [done |].
  rewrite IH. repeat case_decide; set_solver.
Qed.

Lemma sum_list_fmap_add {B} (f g : B → nat) (ks : list B) :
  sum_list ((λ b, f b + g b) <$> ks) = sum_list (f <$> ks) + sum_list (g <$> ks).
Proof. induction ks as [|k ks IH]; csimpl; [done | rewrite IH; lia]. Qed.

(** The counts of the distinct keys [ks] add up to the number of elements of
    [l] that are among the keys. *)
Lemma sum_count_occ_of ks l :
  NoDup ks →
  sum_list ((λ x, count_occ_of x l) <$> ks) = length (filter (.∈ ks) l).
Proof.
  intros Hks. induction l as [|y l IH].
  - clear Hks. by induction ks.
  - rewrite filter_cons.
    erewrite list_fmap_ext; [|intros ???; apply count_occ_of_cons].
    rewrite sum_list_fmap_add, sum_indicator, IH by done.
    by case_decide.
Qed.

Lemma tally_fst l : (tally l).*1 = nub l.
Proof. unfold tally. induction (nub l); csimpl; congruence. Qed.

Lemma tally_snd l : (tally l).*2 = (λ x, count_occ_of x l) <$> nub l.
Proof. unfold tally. by rewrite <- list_fmap_compose. Qed.

Lemma tally_sum l : sum_list (tally l).*2 = length l.
Proof.
  rewrite tally_snd, sum_count_occ_of by apply NoDup_nub.
  f_equal. apply filter_all. intros x. by rewrite elem_of_nub.
Qed.

Lemma elem_of_tally l x n : (x, n) ∈ tally l ↔ x ∈ l ∧ n = count_occ_of x l.
Proof.
  unfold tally. rewrite list_elem_of_fmap. setoid_rewrite elem_of_nub.
  naive_solver.
Qed.

Lemma tally_pos l x n : (x, n) ∈ tally l → 0 < n.
Proof. rewrite elem_of_tally. intros [? ->]. by apply count_occ_of_pos. Qed.

Lemma elem_of_tally_pos l x n : (x, n) ∈ tally l ↔ 0 < n ∧ n = count_occ_of x l.
Proof.
  rewrite elem_of_tally. split; intros [? ->]; (split; [|done]);
    by apply count_occ_of_pos.
Qed.

End nub.

(** Counting does not depend on the order of the list. *)
#[export] Instance count_occ_of_perm {A} `{EqDecision A} (x : A) :
  Proper ((≡ₚ) ==> (=)) (count_occ_of x).
Proof. intros l k Hlk. unfold count_occ_of. by rewrite Hlk. Qed.

#[export] Instance nub_perm {A} `{EqDecision A} :
  Proper ((≡ₚ) ==> (≡ₚ)) (nub (A:=A)).
Proof.
  intros l k Hlk. apply NoDup_Permutation; [apply NoDup_nub.. |].
  intros x. by rewrite !elem_of_nub, Hlk.
Qed.

#[export] Instance tally_perm {A} `{EqDecision A} :
  Proper ((≡ₚ) ==> (≡ₚ)) (tally (A:=A)).
Proof.
  intros l k Hlk. unfold tally. rewrite (nub_perm l k Hlk).
  rewrite (list_fmap_ext _ (λ x, (x, count_occ_of x k)) (nub k)); [done |].
  intros _ x _. by rewrite Hlk.
Qed.

Lemma count_occ_of_fmap {A B} `{EqDecision B} (f : A → B) (y : B) (l : list A) :
  count_occ_of y (f <$> l) = length (filter (λ x, f x = y) l).
Proof.
  induction l as [|x l IH]; [done |]. csimpl.
  rewrite count_occ_of_cons, filter_cons, IH.
  repeat case_decide; naive_solver.
Qed.

Lemma elem_of_Z_tally {A} `{EqDecision A} (l : list A) (x : A) (z : Z) :
  (x, z) ∈ prod_map id Z.of_nat <$> tally l
  ↔ (0 < z)%Z ∧ z = Z.of_nat (count_occ_of x l).
Proof.
  rewrite list_elem_of_fmap. split.
  - intros ([x' n] & [= -> ->] & [? ->]%elem_of_tally_pos). simpl. lia.
  - intros [? ->]. exists (x, count_occ_of x l). split; [done |].
    apply elem_of_tally_pos. lia.
Qed.

(** ** Lemmas on [max_by] *)

Section max_by.
Context {A : Type} (leb : A → A → bool).
Implicit Types (x c : A) (l : list A).

Lemma max_by_elem c l : max_by leb c l = c ∨ max_by leb c l ∈ l.
Proof.
  revert c. induction l as [|x l IH]; intros c; simpl; [by left |].
  destruct (leb x c); [destruct (IH c) | destruct (IH x) as [->|]]; set_solver.
Qed.

Context (P : A → Prop).
Context (leb_total : ∀ x y, P x → P y → leb x y = true ∨ leb y x = true).
Context (leb_trans : ∀ x y z, leb x y = true → leb y z = true → leb x z = true).

Lemma max_by_ge_cand c l : P c → Forall P l → leb c (max_by leb c l) = true.
Proof.
  intros Hc Hl. revert c Hc. induction Hl as [|x l Hx Hl IH]; intros c Hc; simpl.
  - by destruct (leb_total c c).
  - destruct (leb x c) eqn:E; [by apply IH |].
    destruct (leb_total x c) as [?|?]; [done.. | congruence |]. eauto.
Qed.

Lemma max_by_ub c l x :
  P c → Forall P l → x ∈ c :: l → leb x (max_by leb c l) = true.
Proof.
  intros Hc Hl. revert c Hc. induction Hl as [|y l Hy Hl IH]; intros c Hc.
  - intros ->%list_elem_of_singleton. by apply max_by_ge_cand.
  - rewrite !elem_of_cons. simpl. destruct (leb y c) eqn:E.
    + intros [->|[->|?]]; [by apply max_by_ge_cand | | apply IH; set_solver].
      eapply leb_trans; [done | by apply max_by_ge_cand].
    + destruct (leb_total y c) as [?|Hcy]; [done.. | congruence |].
      intros [->|[->|?]]; [| by apply max_by_ge_cand | apply IH; set_solver].
      eapply leb_trans; [done | by apply max_by_ge_cand].
Qed.

End max_by.

(** ** Lemmas on [sum_listZ] *)

Lemma sum_listZ_app (l k : list Z) : sum_listZ (l ++ k) = (sum_listZ l + sum_listZ k)%Z.
Proof. induction l as [|x l IH]; simpl; lia. Qed.

Lemma sum_listZ_of_nat (l : list nat) : sum_listZ (Z.of_nat <$> l) = Z.of_nat (sum_list l).
Proof. induction l as [|x l IH]; csimpl; lia. Qed.

Lemma sum_listZ_const {A} (l : list A) (z : Z) :
  sum_listZ ((λ _, z) <$> l) = (Z.of_nat (length l) * z)%Z.
Proof. induction l as [|x l IH]; csimpl; lia. Qed.

#[export] Instance sum_listZ_perm : Proper ((≡ₚ) ==> (=)) sum_listZ.
Proof. induction 1; simpl; lia. Qed.
