(* ===== verification/PyValue.v ===== *)
(** * Python scalars: data-frame cells and callback inputs

    The values the program handles cell by cell: what [pd.read_csv] puts in a
    column, what Dash passes to a callback, and the literals of the source
    (['ALL'], [1], [0], ['Success'], ['Failure']).  The operations are the
    Python ones the source applies to them: [==], [>=] and [<=] (which raise
    [TypeError] on operands that are not comparable), [isinstance(v, (int,
    float))], [pd.notna], dictionary lookup by key equality, and f-string
    interpolation. *)

From S2P Require Import Prelude.
From Stdlib Require Export Qcanon.
Close Scope Qc_scope.

(** A Python scalar as it occurs in a cell of the frame or in a callback
    input.  A finite [float] is the rational it denotes; [nan] is separate. *)
Inductive pyval : Type :=
| PNone
| PBool (b : bool)
| PInt (z : Z)
| PFloat (q : Qc)
| PNaN
| PStr (s : string).

#[export] Instance pyval_eq_dec : EqDecision pyval.
Proof. solve_decision. Defined.

#[export] Instance pyval_inhabited : Inhabited pyval := populate PNone.

(** The float [n/d]. *)
Definition qc (n : Z) (d : positive) : Qc := Q2Qc (QArith_base.Qmake n d).

(** The number a [bool], [int] or finite [float] denotes ([True] is 1). *)
Definition num_of (v : pyval) : option Qc :=
  match v with
  | PBool b => Some (Qc_of_Z (if b then 1 else 0))
  | PInt z => Some (Qc_of_Z z)
  | PFloat q => Some q
  | PNone | PNaN | PStr _ => None
  end.

(** [isinstance(v, (int, float))]: [bool] is a subclass of [int], and [nan]
    is a [float]. *)
Definition is_number (v : pyval) : bool :=
  match v with
  | PBool _ | PInt _ | PFloat _ | PNaN => true
  | PNone | PStr _ => false
  end.

(** [pd.isna(v)] and [pd.notna(v)] on a scalar. *)
Definition isna (v : pyval) : bool :=
  match v with
  | PNone | PNaN => true
  | _ => false
  end.

Definition notna (v : pyval) : bool := negb (isna v).

(** Python's [a == b] on scalars: numbers compare by value across [bool],
    [int] and [float]; [nan] equals nothing, itself included; values of
    unrelated types are unequal. *)
Definition py_eq (a b : pyval) : bool :=
  match num_of a, num_of b with
  | Some x, Some y => bool_decide (x = y)
  | None, None =>
      match a, b with
      | PStr s, PStr t => bool_decide (s = t)
      | PNone, PNone => true
      | _, _ => false
      end
  | _, _ => false
  end.

(** Numeric order on cells that denote numbers; [false] when either does
    not ([nan] included). *)
Definition num_leb (a b : pyval) : bool :=
  match num_of a, num_of b with
  | Some x, Some y => bool_decide (x ≤ y)%Qc
  | _, _ => false
  end.

(** Lexicographic order on strings. *)
Definition str_leb (a b : pyval) : bool :=
  match a, b with
  | PStr s, PStr t => String.leb s t
  | _, _ => false
  end.

Definition is_str (v : pyval) : bool :=
  match v with PStr _ => true | _ => false end.

(** Python's [a <= b]: numeric on numbers ([False] when either is [nan]),
    lexicographic on strings, [TypeError] otherwise. *)
Definition py_le (a b : pyval) : result bool :=
  if is_number a && is_number b then Ok (num_leb a b)
  else if is_str a && is_str b then Ok (str_leb a b)
  else Err TypeError.

(** Python's [a >= b]. *)
Definition py_ge (a b : pyval) : result bool := py_le b a.

(** Lookup in a dictionary literal: the value of the first key equal to [k]
    (keys [1] and [0] are found by [1.0], [True] and so on; [nan] finds
    nothing). *)
Definition dict_get (d : list (pyval * pyval)) (k : pyval) : option pyval :=
  snd <$> (snd <$> list_find (λ kv, py_eq kv.1 k = true) d).

(** An f-string: literal text and interpolated values. *)
Inductive fpart : Type :=
| FLit (s : string)
| FVal (v : pyval).

#[export] Instance fpart_eq_dec : EqDecision fpart.
Proof. solve_decision. Defined.

Definition fstring : Type := list fpart.

(** [str(v)] for the values whose text does not depend on float printing. *)
Definition py_str (v : pyval) : option string :=
  match v with
  | PNone => Some "None"
  | PBool true => Some "True"
  | PBool false => Some "False"
  | PInt z => Some (pretty z)
  | PFloat _ => None
  | PNaN => Some "nan"
  | PStr s => Some s
  end.

(** The text of an f-string, when none of its values is a finite float. *)
Fixpoint render (f : fstring) : option string :=
  match f with
  | [] => Some ""
  | FLit s :: f => (λ r, s +:+ r) <$> render f
  | FVal v :: f => s ← py_str v; (λ r, s +:+ r) <$> render f
  end.

(** ** Equality *)

Lemma num_of_is_number (v : pyval) (x : Qc) : num_of v = Some x → is_number v = true.
Proof. by destruct v. Qed.

Lemma py_eq_sym (a b : pyval) : py_eq a b = py_eq b a.
Proof.
  unfold py_eq. destruct (num_of a), (num_of b); try done.
  - apply bool_decide_ext. naive_solver.
  - destruct a, b; try done. apply bool_decide_ext. naive_solver.
Qed.

Lemma py_eq_refl (v : pyval) : v ≠ PNaN → py_eq v v = true.
Proof.
  intros Hv. unfold py_eq. destruct (num_of v) eqn:E.
  - by apply bool_decide_eq_true.
  - destruct v; simplify_eq/=; try done. by apply bool_decide_eq_true.
Qed.

Lemma py_eq_nan_l (v : pyval) : py_eq PNaN v = false.
Proof. unfold py_eq. simpl. by destruct (num_of v). Qed.

Lemma py_eq_str (s : string) (v : pyval) : py_eq v (PStr s) = true ↔ v = PStr s.
Proof.
  unfold py_eq. destruct v; simpl; split; try done.
  - intros ?%bool_decide_eq_true. by subst.
  - intros [= ->]. by apply bool_decide_eq_true.
Qed.

Lemma py_eq_num (a b : pyval) (x y : Qc) :
  num_of a = Some x → num_of b = Some y → py_eq a b = bool_decide (x = y).
Proof. unfold py_eq. by intros -> ->. Qed.

Lemma py_eq_int (z : Z) (v : pyval) :
  py_eq v (PInt z) = true ↔ num_of v = Some (Qc_of_Z z).
Proof.
  unfold py_eq. simpl. destruct (num_of v) as [x|]; split; try done.
  - intros ?%bool_decide_eq_true. by subst.
  - intros [= ->]. by apply bool_decide_eq_true.
Qed.

Lemma py_eq_trans (a b c : pyval) :
  py_eq a b = true → py_eq b c = true → py_eq a c = true.
Proof.
  unfold py_eq. destruct (num_of a), (num_of b), (num_of c); try done.
  - intros ?%bool_decide_eq_true ?%bool_decide_eq_true.
    apply bool_decide_eq_true. congruence.
  - destruct a, b, c; try done.
    intros ?%bool_decide_eq_true ?%bool_decide_eq_true.
    apply bool_decide_eq_true. congruence.
Qed.

Lemma py_eq_notna (c v : pyval) : notna v = true → notna c && py_eq c v = py_eq c v.
Proof. destruct c, v; done. Qed.

Lemma py_eq_true_num (c : pyval) (z : Z) :
  py_eq c (PInt z) = true → is_Some (num_of c).
Proof. rewrite py_eq_int. eauto. Qed.

(** ** Ordered comparison *)

Lemma num_leb_true (a b : pyval) :
  num_leb a b = true ↔ ∃ x y, num_of a = Some x ∧ num_of b = Some y ∧ (x ≤ y)%Qc.
Proof.
  unfold num_leb. destruct (num_of a) as [x|], (num_of b) as [y|]; split;
    try done; try (intros (? & ? & ? & ? & ?); done).
  - intros ?%bool_decide_eq_true. eauto.
  - intros (? & ? & [= <-] & [= <-] & ?). by apply bool_decide_eq_true.
Qed.

Lemma num_leb_trans (a b c : pyval) :
  num_leb a b = true → num_leb b c = true → num_leb a c = true.
Proof.
  rewrite !num_leb_true. intros (x & y & Hx & Hy & ?) (y' & z & Hy' & Hz & ?).
  simplify_eq. exists x, z. repeat split; [done..|]. by etrans.
Qed.

Lemma num_leb_total (a b : pyval) :
  is_Some (num_of a) → is_Some (num_of b) →
  num_leb a b = true ∨ num_leb b a = true.
Proof.
  intros [x Hx] [y Hy]. rewrite !num_leb_true.
  destruct (Qc_le_total x y); [left | right]; eauto 6.
Qed.

Lemma py_le_number (a b : pyval) :
  is_number a = true → is_number b = true → py_le a b = Ok (num_leb a b).
Proof. intros Ha Hb. unfold py_le. by rewrite Ha, Hb. Qed.

Lemma py_le_true_num (a b : pyval) :
  is_number a = true → py_le a b = Ok true →
  ∃ x y, num_of a = Some x ∧ num_of b = Some y ∧ (x ≤ y)%Qc.
Proof.
  intros Ha. unfold py_le. rewrite Ha. simpl.
  destruct (is_number b); [by intros [= ?%num_leb_true] |].
  by destruct a.
Qed.

Lemma py_le_not_number (a b : pyval) :
  is_number a = true → is_number b = false → py_le a b = Err TypeError.
Proof. intros Ha Hb. unfold py_le. rewrite Ha, Hb. by destruct a. Qed.

Lemma num_leb_nan_r (a : pyval) : num_leb a PNaN = false.
Proof. unfold num_leb. by destruct (num_of a). Qed.

Lemma num_leb_nan_l (b : pyval) : num_leb PNaN b = false.
Proof. done. Qed.

(** ** Dictionary lookup *)

Lemma dict_get_Some (d : list (pyval * pyval)) (k v : pyval) :
  dict_get d k = Some v → ∃ k', (k', v) ∈ d ∧ py_eq k' k = true.
Proof.
  unfold dict_get. destruct (list_find _ d) as [[i [k' v']]|] eqn:E; [|done].
  intros [= <-]. apply list_find_Some in E as (Hi & Hk & _).
  exists k'. split; [by eapply list_elem_of_lookup_2 | done].
Qed.

Lemma dict_get_nan (d : list (pyval * pyval)) : dict_get d PNaN = None.
Proof.
  unfold dict_get. destruct (list_find _ d) as [[i [k' v']]|] eqn:E; [|done].
  apply list_find_Some in E as (_ & Hk & _). simpl in Hk.
  by rewrite py_eq_sym, py_eq_nan_l in Hk.
Qed.
