(* ===== verification/Frame.v ===== *)
(** * The pandas operations the program calls

    A [DataFrame] is the ordered list of its named columns; a column
    ([Series]) is the list of its cells.  Each definition models one pandas
    operation the source uses, from the documented behaviour of pandas 2:
    [df_get] is [df[name]] ([KeyError] on an unknown name), [has_column] is
    [name in df.columns], [df_take] is boolean indexing [df[mask]],
    [series_eq]/[series_ge]/[series_le] are the element-wise comparisons of
    a column with a scalar (a missing cell or scalar compares [False];
    otherwise the comparison is Python's, [TypeError] included),
    [mask_and] is [&] on boolean columns,
    [series_unique], [series_max], [series_min], [series_map],
    [value_counts], [reset_index] and the assignment to [df.columns] are the
    methods of the same names.  Index labels are not represented: the
    program never reads them. *)

From S2P Require Import Prelude PyValue.

Abbreviation Series := (list pyval).

(** ** Data *)

Record DataFrame : Type := mkDF { df_cols : list (string * Series) }.

#[export] Instance DataFrame_eq_dec : EqDecision DataFrame.
Proof. solve_decision. Defined.

(** [df.columns]. *)
Definition columns (df : DataFrame) : list string := (df_cols df).*1.

(** [name in df.columns]. *)
Definition has_column (df : DataFrame) (name : string) : bool :=
  bool_decide (name ∈ columns df).

(** The first column called [name] in an association list of columns. *)
Fixpoint col_lookup (name : string) (cols : list (string * Series)) : option Series :=
  match cols with
  | [] => None
  | (n, s) :: cols => if decide (n = name) then Some s else col_lookup name cols
  end.

(** [df[name]]: the column, or [KeyError]. *)
Definition df_get (df : DataFrame) (name : string) : result Series :=
  match col_lookup name (df_cols df) with
  | Some s => Ok s
  | None => Err (KeyError name)
  end.

(** [len(df)]: the number of rows. *)
Definition nrows (df : DataFrame) : nat :=
  match df_cols df with
  | [] => 0
  | (_, s) :: _ => length s
  end.

(** Well-formed frames: distinct column names, columns of one length. *)
Definition df_wf (df : DataFrame) : Prop :=
  NoDup (columns df) ∧ Forall (λ c, length c.2 = nrows df) (df_cols df).

#[export] Instance df_wf_dec (df : DataFrame) : Decision (df_wf df).
Proof. unfold df_wf. apply _. Defined.

(** ** Boolean indexing *)

(** [df[mask]]: the rows whose flag is [True], in every column. *)
Definition df_take (df : DataFrame) (mask : list bool) : DataFrame :=
  mkDF (prod_map id (select mask) <$> df_cols df).

(** [df.copy()]: frames are values here, so a copy is the frame itself. *)
Definition df_copy (df : DataFrame) : DataFrame := df.

(** [s == v], cell by cell; a missing cell is never equal to anything. *)
Definition series_eq (s : Series) (v : pyval) : list bool :=
  (λ c, notna c && py_eq c v) <$> s.

(** An ordered comparison of one cell with a scalar, as pandas compares a
    column with a scalar: a missing cell, or a missing scalar, gives [False]
    without comparing; any other pair is compared as Python does, and raises
    where Python's comparison does. *)
Definition cell_cmp (cmp : pyval → pyval → result bool) (c v : pyval) : result bool :=
  if isna c || isna v then Ok false else cmp c v.

(** [s >= v], cell by cell. *)
Definition series_ge (s : Series) (v : pyval) : result (list bool) :=
  traverse (λ c, cell_cmp py_ge c v) s.

(** [s <= v], cell by cell. *)
Definition series_le (s : Series) (v : pyval) : result (list bool) :=
  traverse (λ c, cell_cmp py_le c v) s.

(** [m1 & m2] on boolean columns. *)
Definition mask_and (m1 m2 : list bool) : list bool := zip_with andb m1 m2.

(** ** Reductions *)

(** [s.unique()]: the distinct cells in order of first appearance. *)
Definition series_unique (s : Series) : Series := nub s.

(** The extremum of a column for the orders [num_ord] (numbers) and
    [str_ord] (strings), skipping missing cells as [skipna=True] does: [nan]
    when nothing is left; a column of strings is compared as strings; a
    column that mixes strings with numbers or missing cells raises. *)
Definition extremum (num_ord str_ord : pyval → pyval → bool) (s : Series) : result pyval :=
  if forallb (λ c, is_number c || isna c) s then
    match filter (λ c, isna c = false) s with
    | [] => Ok PNaN
    | c :: cs => Ok (max_by num_ord c cs)
    end
  else if forallb is_str s then
    match s with
    | [] => Ok PNaN
    | c :: cs => Ok (max_by str_ord c cs)
    end
  else Err TypeError.

(** [s.max()] and [s.min()]. *)
Definition series_max (s : Series) : result pyval := extremum num_leb str_leb s.

Definition series_min (s : Series) : result pyval :=
  extremum (flip num_leb) (flip str_leb) s.

(** [s.map(d)] for a dictionary [d]: cells without a key become [nan]. *)
Definition series_map (d : list (pyval * pyval)) (s : Series) : Series :=
  (λ c, default PNaN (dict_get d c)) <$> s.

(** Descending order of counts. *)
Definition count_ge (a b : pyval * nat) : Prop := b.2 ≤ a.2.

#[export] Instance count_ge_dec : RelDecision count_ge.
Proof. intros a b. unfold count_ge. apply _. Defined.

(** [s.value_counts()]: the distinct non-missing cells with their number of
    occurrences, by descending count. *)
Definition value_counts (s : Series) : list (pyval * nat) :=
  merge_sort count_ge (tally (filter (λ c, isna c = false) s)).

(** [vc.reset_index()] on the result of [value_counts] of a column called
    [name]: a frame with the values in column [name] and the counts in
    column ["count"]. *)
Definition reset_index (name : string) (vc : list (pyval * nat)) : DataFrame :=
  mkDF [(name, vc.*1); ("count"%string, (λ n, PInt (Z.of_nat n)) <$> vc.*2)].

(** [df.columns = names]: positional renaming, [ValueError] on a length
    mismatch. *)
Definition set_columns (df : DataFrame) (names : list string) : result DataFrame :=
  if decide (length names = length (df_cols df))
  then Ok (mkDF (zip names (df_cols df).*2))
  else Err ValueError.

(** ** Column lookup *)

Section lookup.
Implicit Types (df : DataFrame) (name : string) (s : Series).
Implicit Types (cols : list (string * Series)) (m : list bool).

Lemma col_lookup_Some cols name s : col_lookup name cols = Some s → (name, s) ∈ cols.
Proof.
  induction cols as [|[n c] cols IH]; simpl; [done |].
  case_decide; [intros [= <-]; subst; left | right; auto].
Qed.

Lemma col_lookup_None cols name : col_lookup name cols = None ↔ name ∉ cols.*1.
Proof.
  induction cols as [|[n c] cols IH]; csimpl; [set_solver |].
  case_decide; [set_solver |]. rewrite IH. set_solver.
Qed.

Lemma col_lookup_is_Some cols name : is_Some (col_lookup name cols) ↔ name ∈ cols.*1.
Proof.
  rewrite <- not_eq_None_Some, col_lookup_None.
  destruct (decide (name ∈ cols.*1)); naive_solver.
Qed.

Lemma col_lookup_NoDup cols name s :
  NoDup cols.*1 → (name, s) ∈ cols → col_lookup name cols = Some s.
Proof.
  induction cols as [|[n c] cols IH]; csimpl; [set_solver |].
  intros [Hn Hnd]%NoDup_cons [[= <- <-]|Hin]%elem_of_cons.
  - by rewrite decide_True.
  - rewrite decide_False; [by apply IH |].
    intros ->. apply Hn. apply list_elem_of_fmap. by exists (name, s).
Qed.

Lemma col_lookup_fmap (f : Series → Series) cols name :
  col_lookup name (prod_map id f <$> cols) = f <$> col_lookup name cols.
Proof.
  induction cols as [|[n c] cols IH]; csimpl; [done |]. by case_decide.
Qed.

Lemma df_get_Ok df name s : df_get df name = Ok s ↔ col_lookup name (df_cols df) = Some s.
Proof. unfold df_get. destruct (col_lookup _ _); naive_solver. Qed.

Lemma df_get_has_column df name : is_ok (df_get df name) = has_column df name.
Proof.
  unfold df_get, has_column, columns.
  destruct (col_lookup name (df_cols df)) eqn:E; simpl; symmetry.
  - apply bool_decide_eq_true, col_lookup_is_Some. by rewrite E.
  - by apply bool_decide_eq_false, col_lookup_None.
Qed.

Lemma df_get_Err df name e :
  df_get df name = Err e ↔ e = KeyError name ∧ has_column df name = false.
Proof.
  rewrite <- df_get_has_column. unfold df_get.
  destruct (col_lookup _ _); naive_solver.
Qed.

Lemma df_get_total df name : has_column df name = true → ∃ s, df_get df name = Ok s.
Proof. rewrite <- df_get_has_column. apply is_ok_true. Qed.

Lemma df_get_elem df name s : df_get df name = Ok s → (name, s) ∈ df_cols df.
Proof. rewrite df_get_Ok. apply col_lookup_Some. Qed.

Lemma df_get_length df name s : df_wf df → df_get df name = Ok s → length s = nrows df.
Proof.
  intros [_ Hlen] Hs%df_get_elem. rewrite Forall_forall in Hlen.
  by apply (Hlen (name, s)).
Qed.

(** ** Boolean indexing *)

Lemma columns_take df m : columns (df_take df m) = columns df.
Proof.
  unfold columns, df_take. simpl. rewrite <- list_fmap_compose.
  apply list_fmap_ext. by intros ? [??].
Qed.

Lemma has_column_take df m name : has_column (df_take df m) name = has_column df name.
Proof. unfold has_column. by rewrite columns_take. Qed.

Lemma df_get_take df m name : df_get (df_take df m) name = select m <$> df_get df name.
Proof.
  unfold df_get, df_take. simpl. rewrite col_lookup_fmap.
  by destruct (col_lookup _ _).
Qed.

Lemma nrows_take df m name s :
  df_wf df → df_get df name = Ok s → nrows (df_take df m) = length (select m s).
Proof.
  intros Hwf Hs. pose proof (df_get_length _ _ _ Hwf Hs) as Hlen.
  apply df_get_elem in Hs. destruct df as [[|[n c] cols]]; simpl in *.
  - by apply elem_of_nil in Hs.
  - by apply select_length_eq.
Qed.

Lemma df_take_wf df m : df_wf df → df_wf (df_take df m).
Proof.
  intros [Hnd Hlen]. split; [by rewrite columns_take |].
  destruct df as [[|[n c] cols]]; unfold nrows, df_take in *; simpl in *;
    [constructor |].
  apply Forall_cons in Hlen as [_ Hlen]. constructor; [done |].
  apply Forall_fmap. eapply Forall_impl; [done |].
  intros [n' c'] ?. by apply select_length_eq.
Qed.

Lemma nrows_take_le df m : nrows (df_take df m) ≤ nrows df.
Proof.
  destruct df as [[|[n c] cols]]; unfold nrows; simpl; [done |].
  apply select_length_le.
Qed.

Lemma df_take_take df m1 m2 :
  df_take (df_take df m1) m2
  = mkDF (prod_map id (λ s, select m2 (select m1 s)) <$> df_cols df).
Proof.
  unfold df_take. simpl. by rewrite <- list_fmap_compose.
Qed.

End lookup.

(** ** Element-wise comparisons *)

Section compare.
Implicit Types (s : Series) (v c : pyval) (m : list bool).

Lemma series_eq_length s v : length (series_eq s v) = length s.
Proof. unfold series_eq. by rewrite length_fmap. Qed.

Lemma series_eq_str s x : series_eq s (PStr x) = (λ c, bool_decide (c = PStr x)) <$> s.
Proof.
  unfold series_eq. apply list_fmap_ext. intros _ c _.
  destruct (decide (c = PStr x)) as [->|Hc].
  - by rewrite bool_decide_eq_true_2, py_eq_refl.
  - rewrite bool_decide_eq_false_2 by done.
    apply andb_false_intro2, not_true_is_false. by rewrite py_eq_str.
Qed.

Lemma series_eq_notna s v : notna v = true → series_eq s v = (λ c, py_eq c v) <$> s.
Proof.
  intros Hv. unfold series_eq. apply list_fmap_ext. intros _ c _.
  by apply py_eq_notna.
Qed.

Lemma series_ge_length s v m : series_ge s v = Ok m → length m = length s.
Proof. apply traverse_Ok_length. Qed.

Lemma series_le_length s v m : series_le s v = Ok m → length m = length s.
Proof. apply traverse_Ok_length. Qed.

(** Against a number, a cell that is not text is compared numerically:
    [False] when the cell or the scalar is missing. *)
Lemma cell_ge_quiet c v :
  is_number v = true → isna v = true ∨ is_str c = false →
  cell_cmp py_ge c v = Ok (num_leb v c).
Proof. intros Hv [H|H]; destruct v; try done; by destruct c. Qed.

Lemma cell_le_quiet c v :
  is_number v = true → isna v = true ∨ is_str c = false →
  cell_cmp py_le c v = Ok (num_leb c v).
Proof. intros Hv [H|H]; destruct v; try done; by destruct c. Qed.

(** A text cell against a number that is not missing raises. *)
Lemma cell_cmp_text c v :
  is_str c = true → is_number v = true → notna v = true →
  cell_cmp py_ge c v = Err TypeError ∧ cell_cmp py_le c v = Err TypeError.
Proof. by destruct c, v. Qed.

Lemma cell_cmp_Err c v e :
  cell_cmp py_ge c v = Err e ∨ cell_cmp py_le c v = Err e → e = TypeError.
Proof.
  unfold cell_cmp, py_ge, py_le.
  intros [H|H]; repeat case_match; by simplify_eq.
Qed.

Lemma series_ge_quiet s v :
  is_number v = true → isna v = true ∨ Forall (λ c, is_str c = false) s →
  series_ge s v = Ok (num_leb v <$> s).
Proof.
  intros Hv Hs. unfold series_ge. rewrite <- traverse_pure.
  apply traverse_ext, Forall_forall. intros c Hc. apply cell_ge_quiet; [done |].
  destruct Hs as [?|Hs]; [by left | right]. by eapply Forall_forall in Hs.
Qed.

Lemma series_le_quiet s v :
  is_number v = true → isna v = true ∨ Forall (λ c, is_str c = false) s →
  series_le s v = Ok ((λ c, num_leb c v) <$> s).
Proof.
  intros Hv Hs. unfold series_le. rewrite <- traverse_pure.
  apply traverse_ext, Forall_forall. intros c Hc. apply cell_le_quiet; [done |].
  destruct Hs as [?|Hs]; [by left | right]. by eapply Forall_forall in Hs.
Qed.

Lemma series_ge_number s v :
  is_number v = true → Forall (λ c, is_number c = true) s →
  series_ge s v = Ok (num_leb v <$> s).
Proof.
  intros Hv Hs. apply series_ge_quiet; [done | right].
  eapply Forall_impl; [done |]. by intros [].
Qed.

Lemma series_le_number s v :
  is_number v = true → Forall (λ c, is_number c = true) s →
  series_le s v = Ok ((λ c, num_leb c v) <$> s).
Proof.
  intros Hv Hs. apply series_le_quiet; [done | right].
  eapply Forall_impl; [done |]. by intros [].
Qed.

(** A text cell makes the comparison of the column with a number that is
    not missing raise. *)
Lemma series_cmp_text s v c :
  is_number v = true → notna v = true → c ∈ s → is_str c = true →
  series_ge s v = Err TypeError ∧ series_le s v = Err TypeError.
Proof.
  intros Hv Hna Hc Hstr.
  destruct (cell_cmp_text c v Hstr Hv Hna) as [Hge Hle].
  split; (eapply traverse_Err_elem; [done.. |]); intros;
    eapply cell_cmp_Err; eauto.
Qed.

Lemma mask_and_length m1 m2 :
  length m1 = length m2 → length (mask_and m1 m2) = length m1.
Proof. intros. unfold mask_and. rewrite length_zip_with. lia. Qed.

Lemma mask_and_fmap {A} (p q : A → bool) (l : list A) :
  mask_and (p <$> l) (q <$> l) = (λ x, p x && q x) <$> l.
Proof. unfold mask_and. induction l; csimpl; congruence. Qed.

End compare.

(** ** [value_counts] *)

#[export] Instance count_ge_total : Total count_ge.
Proof. intros a b. unfold count_ge. lia. Qed.

#[export] Instance count_ge_trans : Transitive count_ge.
Proof. intros a b c. unfold count_ge. lia. Qed.

#[export] Instance sum_list_perm : Proper ((≡ₚ) ==> (=)) sum_list.
Proof. induction 1; simpl; lia. Qed.

Section value_counts.
Implicit Types (s : Series) (v c : pyval) (n : nat).

Lemma value_counts_perm s :
  value_counts s ≡ₚ tally (filter (λ c, isna c = false) s).
Proof. apply merge_sort_Permutation. Qed.

#[export] Instance value_counts_Proper : Proper ((≡ₚ) ==> (≡ₚ)) value_counts.
Proof. intros s s' Hs. by rewrite !value_counts_perm, Hs. Qed.

Lemma value_counts_sorted s : StronglySorted count_ge (value_counts s).
Proof. apply StronglySorted_merge_sort; apply _. Qed.

Lemma elem_of_value_counts s v n :
  (v, n) ∈ value_counts s ↔ v ∈ s ∧ isna v = false ∧ n = count_occ_of v s.
Proof.
  rewrite value_counts_perm, elem_of_tally, list_elem_of_filter.
  unfold count_occ_of. rewrite list_filter_filter.
  split; intros H; destruct_and!; repeat split; try done; subst; f_equal;
    apply list_filter_iff; naive_solver.
Qed.

Lemma value_counts_keys_NoDup s : NoDup (value_counts s).*1.
Proof. rewrite value_counts_perm, tally_fst. apply NoDup_nub. Qed.

Lemma value_counts_sum s :
  sum_list (value_counts s).*2 = length (filter (λ c, isna c = false) s).
Proof. rewrite value_counts_perm. apply tally_sum. Qed.

Lemma value_counts_pos s v n : (v, n) ∈ value_counts s → 0 < n.
Proof. rewrite value_counts_perm. apply tally_pos. Qed.

Lemma value_counts_nil s :
  value_counts s = [] ↔ Forall (λ c, isna c = true) s.
Proof.
  split.
  - intros H. apply Forall_forall. intros c Hc.
    destruct (isna c) eqn:E; [done |].
    assert ((c, count_occ_of c s) ∈ value_counts s) as Hin
      by by apply elem_of_value_counts.
    rewrite H in Hin. by apply elem_of_nil in Hin.
  - intros H. apply Permutation_nil_r. rewrite value_counts_perm.
    rewrite filter_none; [done |]. rewrite Forall_forall in H.
    intros c Hc. rewrite (H c Hc). done.
Qed.

End value_counts.

(** ** [max] and [min] *)

Section extremum.
Implicit Types (s : Series) (v c m : pyval).

Lemma numeric_notna_num c :
  is_number c || isna c = true → isna c = false → is_Some (num_of c).
Proof. destruct c; naive_solver. Qed.

Lemma extremum_elem ord1 ord2 s m :
  extremum ord1 ord2 s = Ok m → m = PNaN ∨ m ∈ s.
Proof.
  unfold extremum. destruct (forallb _ s).
  - destruct (filter _ s) as [|c cs] eqn:E; intros [= <-]; [by left | right].
    assert (max_by ord1 c cs ∈ filter (λ c, isna c = false) s) as Hin.
    { rewrite E. destruct (max_by_elem ord1 c cs) as [->|?]; set_solver. }
    by apply list_elem_of_filter in Hin as [_ ?].
  - destruct (forallb is_str s); [|done].
    destruct s as [|c cs]; intros [= <-]; [by left | right].
    destruct (max_by_elem ord2 c cs) as [->|?]; set_solver.
Qed.

Lemma extremum_num_bound ord1 ord2 s m c :
  (∀ x y, is_Some (num_of x) → is_Some (num_of y) →
          ord1 x y = true ∨ ord1 y x = true) →
  (∀ x y z, ord1 x y = true → ord1 y z = true → ord1 x z = true) →
  extremum ord1 ord2 s = Ok m → c ∈ s → is_Some (num_of c) → ord1 c m = true.
Proof.
  intros Htot Htrans. unfold extremum. destruct (forallb _ s) eqn:Hall.
  - intros Hm Hc Hnum.
    assert (c ∈ filter (λ c, isna c = false) s) as Hin.
    { apply list_elem_of_filter. split; [by destruct c, Hnum | done]. }
    assert (Forall (λ c, is_Some (num_of c)) (filter (λ c, isna c = false) s))
      as HP.
    { apply Forall_forall. intros x [Hx Hxs]%list_elem_of_filter.
      apply numeric_notna_num; [|done].
      rewrite forallb_Forall, Forall_forall in Hall. by apply Hall. }
    destruct (filter _ s) as [|c0 cs]; [by apply elem_of_nil in Hin |].
    injection Hm as <-. apply Forall_cons in HP as [? ?].
    by apply (max_by_ub ord1 (λ c, is_Some (num_of c))).
  - destruct (forallb is_str s) eqn:Hstr; [|done]. intros _ Hc Hnum.
    rewrite forallb_Forall, Forall_forall in Hstr.
    apply Hstr in Hc. by destruct c, Hnum.
Qed.

Lemma series_max_ub s m c :
  series_max s = Ok m → c ∈ s → is_Some (num_of c) → num_leb c m = true.
Proof.
  apply extremum_num_bound; [apply num_leb_total | apply num_leb_trans].
Qed.

Lemma series_min_lb s m c :
  series_min s = Ok m → c ∈ s → is_Some (num_of c) → num_leb m c = true.
Proof.
  apply (extremum_num_bound (flip num_leb)); unfold flip.
  - intros x y ??. destruct (num_leb_total x y); auto.
  - intros x y z ??. by eapply num_leb_trans.
Qed.

Lemma series_max_elem s m : series_max s = Ok m → m = PNaN ∨ m ∈ s.
Proof. apply extremum_elem. Qed.

Lemma series_min_elem s m : series_min s = Ok m → m = PNaN ∨ m ∈ s.
Proof. apply extremum_elem. Qed.

Lemma extremum_numeric_ok ord1 ord2 s :
  Forall (λ c, is_number c || isna c = true) s → is_ok (extremum ord1 ord2 s) = true.
Proof.
  intros H. unfold extremum.
  assert (forallb (λ c, is_number c || isna c) s = true) as ->.
  { by apply forallb_Forall. }
  by destruct (filter _ s).
Qed.

End extremum.

(** ** Renaming the columns *)

Section rename.
Implicit Types (df : DataFrame) (names : list string).

Lemma set_columns_Ok df names df' :
  set_columns df names = Ok df' ↔
  length names = length (df_cols df) ∧ df' = mkDF (zip names (df_cols df).*2).
Proof. unfold set_columns. case_decide; naive_solver. Qed.

Lemma set_columns_Err df names e :
  set_columns df names = Err e ↔
  length names ≠ length (df_cols df) ∧ e = ValueError.
Proof. unfold set_columns. case_decide; naive_solver. Qed.

Lemma set_columns_columns df names df' :
  set_columns df names = Ok df' → columns df' = names.
Proof.
  intros [Hlen ->]%set_columns_Ok. unfold columns. simpl.
  apply fst_zip. rewrite length_fmap. lia.
Qed.

Lemma set_columns_wf df names df' :
  NoDup names → df_wf df → set_columns df names = Ok df' → df_wf df'.
Proof.
  intros Hnd [_ Hlen] Hset. split; [by erewrite set_columns_columns |].
  apply set_columns_Ok in Hset as [Hl ->].
  destruct df as [[|[n c] cols]], names as [|n' names]; simplify_eq/=;
    [constructor |].
  unfold nrows in *. simpl in *. apply Forall_cons in Hlen as [_ Hlen].
  constructor; [done |]. apply Forall_forall. intros [n'' c''] Hin.
  apply elem_of_zip_r in Hin. apply list_elem_of_fmap in Hin as ([??] & -> & Hin).
  rewrite Forall_forall in Hlen. by apply (Hlen _ Hin).
Qed.

Lemma reset_index_wf name vc : name ≠ "count"%string → df_wf (reset_index name vc).
Proof.
  intros Hne. split.
  - unfold columns. simpl. apply NoDup_cons. split; [set_solver |].
    apply NoDup_singleton.
  - unfold nrows. simpl. repeat constructor. simpl. by rewrite !length_fmap.
Qed.

Lemma set_columns_reset_index (name : string) (vc : list (pyval * nat)) (n1 n2 : string) :
  set_columns (reset_index name vc) [n1; n2]
  = Ok (mkDF [(n1, vc.*1); (n2, (λ n, PInt (Z.of_nat n)) <$> vc.*2)]).
Proof. done. Qed.

End rename.

(** The shape lemmas that close well-formedness goals by [auto with frame]. *)
#[export] Hint Resolve df_take_wf reset_index_wf columns_take nrows_take_le
  has_column_take : frame.
