(* ===== verification/Dataset.v ===== *)
(** * Launch records: the row view of the frame

    The specification describes the data as a sequence of launch records with
    four attributes; the code works on the columns of a frame.  This file
    relates the two: [represents df d] says that the four columns the program
    reads hold the attributes of the records [d], row by row (other columns
    are ignored), and [rows_of] computes the records of a frame.  Boolean
    indexing on the frame is [filter] on the records. *)

From S2P Require Import Prelude PyValue Frame.

(** The names of the columns the program reads. *)
Abbreviation PAYLOAD := "Payload Mass (kg)"%string.
Abbreviation SITE := "Launch Site"%string.
Abbreviation CLASS := "class"%string.
Abbreviation BOOSTER := "Booster Version Category"%string.

(** One launch: payload mass, launch site, outcome class, booster category. *)
Record launch : Type := mkLaunch {
  l_payload : pyval;
  l_site : pyval;
  l_class : pyval;
  l_booster : pyval
}.

#[export] Instance launch_eq_dec : EqDecision launch.
Proof. solve_decision. Defined.

(** The frame [df] holds the records [d] in its four named columns. *)
Definition represents (df : DataFrame) (d : list launch) : Prop :=
  df_get df PAYLOAD = Ok (l_payload <$> d) ∧
  df_get df SITE = Ok (l_site <$> d) ∧
  df_get df CLASS = Ok (l_class <$> d) ∧
  df_get df BOOSTER = Ok (l_booster <$> d).

#[export] Instance represents_dec df d : Decision (represents df d).
Proof. unfold represents. apply _. Defined.

(** The records made of four columns, row by row. *)
Fixpoint zip_launch (ps ss cs bs : Series) : list launch :=
  match ps, ss, cs, bs with
  | p :: ps, s :: ss, c :: cs, b :: bs => mkLaunch p s c b :: zip_launch ps ss cs bs
  | _, _, _, _ => []
  end.

(** The records of a frame; [KeyError] when one of the columns is absent. *)
Definition rows_of (df : DataFrame) : result (list launch) :=
  ps ← df_get df PAYLOAD;
  ss ← df_get df SITE;
  cs ← df_get df CLASS;
  bs ← df_get df BOOSTER;
  Ok (zip_launch ps ss cs bs).

(** The frame with exactly the four columns of the records [d]. *)
Definition frame_of (d : list launch) : DataFrame :=
  mkDF [(PAYLOAD, l_payload <$> d); (SITE, l_site <$> d);
        (CLASS, l_class <$> d); (BOOSTER, l_booster <$> d)].

(** The frame has the four columns. *)
Definition has_launch_columns (df : DataFrame) : bool :=
  has_column df PAYLOAD && has_column df SITE
  && has_column df CLASS && has_column df BOOSTER.

(** The row predicates of the callbacks: the outcome is a success
    ([class == 1]); the site is the selected one ([site == v], never true of a
    missing site). *)
Definition is_success (r : launch) : bool := py_eq (l_class r) (PInt 1).

Definition is_failure (r : launch) : bool := py_eq (l_class r) (PInt 0).

Definition at_site (v : pyval) (r : launch) : bool :=
  notna (l_site r) && py_eq (l_site r) v.

(** Every payload cell is a number or [nan], as in a numeric column. *)
Definition numeric_payload (d : list launch) : Prop :=
  Forall (λ r, is_number (l_payload r) = true) d.

(** The three launches of the worked example: two at site A (one success, one
    failure, 500 kg each) and one success at site B (9000 kg). *)
Definition example_launches : list launch :=
  [mkLaunch (PInt 500) (PStr "A") (PInt 1) (PStr "B1");
   mkLaunch (PInt 500) (PStr "A") (PInt 0) (PStr "B2");
   mkLaunch (PInt 9000) (PStr "B") (PInt 1) (PStr "B1")].

Definition example_df : DataFrame := frame_of example_launches.

(** A dataset whose payload column was read as text (thousands
    separators): every payload is a string. *)
Definition text_launches : list launch :=
  [mkLaunch (PStr "2,500") (PStr "A") (PInt 1) (PStr "B1");
   mkLaunch (PStr "900") (PStr "B") (PInt 0) (PStr "B2")].

Definition text_df : DataFrame := frame_of text_launches.

(** Launches that a well-curated dataset would not have: an outcome class of
    2 and a missing payload at site A. *)
Definition odd_launches : list launch :=
  [mkLaunch (PInt 500) (PStr "A") (PInt 1) (PStr "B1");
   mkLaunch (PFloat (qc 7 2)) (PStr "A") (PInt 2) (PStr "B2");
   mkLaunch PNaN (PStr "A") (PInt 0) (PStr "B2")].

Definition odd_df : DataFrame := frame_of odd_launches.

Section dataset.
Implicit Types (df : DataFrame) (d : list launch) (r : launch).

Lemma zip_launch_fmap d :
  zip_launch (l_payload <$> d) (l_site <$> d) (l_class <$> d) (l_booster <$> d) = d.
Proof. induction d as [|[????] d IH]; csimpl; congruence. Qed.

Lemma zip_launch_proj ps ss cs bs :
  length ss = length ps → length cs = length ps → length bs = length ps →
  let d := zip_launch ps ss cs bs in
  l_payload <$> d = ps ∧ l_site <$> d = ss ∧ l_class <$> d = cs ∧ l_booster <$> d = bs.
Proof.
  revert ss cs bs. induction ps as [|p ps IH]; intros [|s ss] [|c cs] [|b bs] ???;
    simplify_eq/=; [done |].
  destruct (IH ss cs bs) as (-> & -> & -> & ->); done.
Qed.

Lemma represents_rows_of df d : represents df d → rows_of df = Ok d.
Proof.
  intros (Hp & Hs & Hc & Hb). unfold rows_of. rewrite Hp, Hs, Hc, Hb. simpl.
  by rewrite zip_launch_fmap.
Qed.

Lemma rows_of_represents df d : df_wf df → rows_of df = Ok d → represents df d.
Proof.
  intros Hwf H. unfold rows_of in H. simplify_result.
  pose proof (df_get_length _ _ _ Hwf Ha) as Hlp.
  pose proof (df_get_length _ _ _ Hwf Ha0) as Hls.
  pose proof (df_get_length _ _ _ Hwf Ha1) as Hlc.
  pose proof (df_get_length _ _ _ Hwf Ha2) as Hlb.
  destruct (zip_launch_proj a a0 a1 a2) as (Ep & Es & Ec & Eb); [congruence.. |].
  unfold represents. by rewrite Ep, Es, Ec, Eb.
Qed.

Lemma rows_of_total df :
  has_launch_columns df = true → ∃ d, rows_of df = Ok d.
Proof.
  unfold has_launch_columns. rewrite !andb_true_iff.
  intros [[[Hp Hs] Hc] Hb]. unfold rows_of.
  destruct (df_get_total _ _ Hp) as [ps ->], (df_get_total _ _ Hs) as [ss ->],
    (df_get_total _ _ Hc) as [cs ->], (df_get_total _ _ Hb) as [bs ->].
  simpl. eauto.
Qed.

Lemma represents_columns df d : represents df d → has_launch_columns df = true.
Proof.
  intros (Hp & Hs & Hc & Hb). unfold has_launch_columns.
  rewrite <- !df_get_has_column, Hp, Hs, Hc, Hb. done.
Qed.

Lemma represents_frame_of d : represents (frame_of d) d.
Proof. done. Qed.

Lemma frame_of_wf d : df_wf (frame_of d).
Proof.
  split.
  - unfold columns. simpl. repeat (apply NoDup_cons; split; [set_solver |]).
    apply NoDup_nil_2.
  - unfold nrows. simpl. repeat constructor; simpl; by rewrite !length_fmap.
Qed.

(** Boolean indexing by a row predicate is [filter] on the records. *)
Lemma represents_take df d (p : launch → bool) :
  represents df d →
  represents (df_take df (p <$> d)) (filter (λ r, p r = true) d).
Proof.
  intros (Hp & Hs & Hc & Hb). unfold represents.
  rewrite !df_get_take, Hp, Hs, Hc, Hb. simpl.
  by rewrite !select_fmap, !select_fmap_filter.
Qed.

Lemma represents_inj df d1 d2 : represents df d1 → represents df d2 → d1 = d2.
Proof.
  intros H1%represents_rows_of H2%represents_rows_of. congruence.
Qed.

Lemma series_eq_class d : series_eq (l_class <$> d) (PInt 1) = is_success <$> d.
Proof. rewrite series_eq_notna by done. by rewrite <- list_fmap_compose. Qed.

Lemma series_eq_site d v : series_eq (l_site <$> d) v = at_site v <$> d.
Proof. unfold series_eq. by rewrite <- list_fmap_compose. Qed.

Lemma at_site_str r x : at_site (PStr x) r = true ↔ l_site r = PStr x.
Proof.
  unfold at_site. rewrite py_eq_notna by done. apply py_eq_str.
Qed.

(** The records of any part of a dataset whose sites are strings are
    partitioned by the sites of the dataset. *)
Lemma site_partition (rs d : list launch) :
  rs ⊆ d → Forall (λ r, is_str (l_site r) = true) d →
  rs ≡ₚ nub (l_site <$> d) ≫= (λ s, filter (λ r, at_site s r = true) rs).
Proof.
  intros Hsub Hstr.
  etrans; [apply (Permutation_bind_filter l_site (nub (l_site <$> d))) |].
  - apply NoDup_nub.
  - intros r Hr. by apply elem_of_nub, list_elem_of_fmap_2, Hsub.
  - apply reflexive_eq, Forall_bind_ext, Forall_forall.
    intros s (r & -> & Hr)%elem_of_nub%list_elem_of_fmap.
    rewrite Forall_forall in Hstr. specialize (Hstr r Hr).
    destruct (l_site r) eqn:E; try done.
    apply list_filter_iff. intros r'. by rewrite at_site_str.
Qed.

End dataset.

#[export] Hint Resolve frame_of_wf represents_frame_of represents_take : frame.
