(* ===== verification/Plotly.v ===== *)
(** * Chart descriptions

    What the callbacks hand back to the host: the value [plotly.express]
    builds from a frame and column names.  [px_pie] and [px_scatter] are
    modelled from their documented behaviour: they read the named columns
    ([ValueError] when the frame has none of that name) and record one label,
    or one point, per row.  A pie is aggregated by the renderer: rows with
    the same label make one slice, sized by the sum of their values, or by
    their number when no values are given; [slices] is that aggregation. *)

From S2P Require Import Prelude PyValue Frame.

(** A point of a scatter chart: [x], [y] and the value that colours it. *)
Record point : Type := mkPoint { pt_x : pyval; pt_y : pyval; pt_color : pyval }.

#[export] Instance point_eq_dec : EqDecision point.
Proof. solve_decision. Defined.

(** A chart description. *)
Inductive figure : Type :=
| PieFig (labels : list pyval) (values : option (list pyval)) (title : fstring)
| ScatterFig (points : list point) (title : fstring).

#[export] Instance figure_eq_dec : EqDecision figure.
Proof. solve_decision. Defined.

Definition fig_title (f : figure) : fstring :=
  match f with PieFig _ _ t | ScatterFig _ t => t end.

Definition fig_points (f : figure) : list point :=
  match f with PieFig _ _ _ => [] | ScatterFig ps _ => ps end.

(** The column [name] as plotly express reads it. *)
Definition px_col (df : DataFrame) (name : string) : result Series :=
  match col_lookup name (df_cols df) with
  | Some s => Ok s
  | None => Err ValueError
  end.

(** [px.pie(df, values=…, names=…, title=…)]. *)
Definition px_pie (df : DataFrame) (values : option string) (names : string)
    (title : fstring) : result figure :=
  labels ← px_col df names;
  vals ← match values with
         | None => Ok None
         | Some v => Some <$> px_col df v
         end;
  Ok (PieFig labels vals title).

(** [px.scatter(df, x=…, y=…, color=…, title=…)]. *)
Definition px_scatter (df : DataFrame) (x y color : string) (title : fstring)
    : result figure :=
  xs ← px_col df x;
  ys ← px_col df y;
  cs ← px_col df color;
  Ok (ScatterFig (zip_with (λ a bc, mkPoint a bc.1 bc.2) xs (zip ys cs)) title).

(** [px.scatter(title=…)]: a chart with no data. *)
Definition px_scatter_empty (title : fstring) : figure := ScatterFig [] title.

(** The size a pie value contributes: the program only passes counts. *)
Definition weight (v : pyval) : Z :=
  match v with
  | PInt z => z
  | PBool true => 1
  | _ => 0
  end.

(** The rows of a pie: each label with its value, or with 1 when the chart
    has no values. *)
Definition pie_rows (f : figure) : list (pyval * Z) :=
  match f with
  | PieFig labels None _ => (λ l, (l, 1%Z)) <$> labels
  | PieFig labels (Some vs) _ => zip labels (weight <$> vs)
  | ScatterFig _ _ => []
  end.

(** The total size of the rows labelled [l]. *)
Definition slice_size (rows : list (pyval * Z)) (l : pyval) : Z :=
  sum_listZ (filter (λ r, r.1 = l) rows).*2.

(** The slices of a pie: one per distinct label, sized by the total of its
    rows.  They are listed by first appearance of the label; the order in
    which the renderer draws them is not represented. *)
Definition slices (f : figure) : list (pyval * Z) :=
  let rows := pie_rows f in
  (λ l, (l, slice_size rows l)) <$> nub rows.*1.

(** ** Reading columns *)

Section px.
Implicit Types (df : DataFrame) (name : string) (s : Series) (f : figure).

Lemma px_col_Ok df name s : px_col df name = Ok s ↔ df_get df name = Ok s.
Proof. unfold px_col, df_get. destruct (col_lookup _ _); naive_solver. Qed.

Lemma px_col_Err df name e :
  px_col df name = Err e ↔ e = ValueError ∧ has_column df name = false.
Proof.
  rewrite <- df_get_has_column. unfold px_col, df_get.
  destruct (col_lookup _ _); naive_solver.
Qed.

Lemma px_col_of_get df name s : df_get df name = Ok s → px_col df name = Ok s.
Proof. by rewrite px_col_Ok. Qed.

Lemma px_col_of_get_Err df name e :
  df_get df name = Err e → px_col df name = Err ValueError.
Proof. unfold px_col, df_get. by destruct (col_lookup _ _). Qed.

Lemma px_col_take df m name : px_col (df_take df m) name = select m <$> px_col df name.
Proof.
  unfold px_col, df_take. simpl. rewrite col_lookup_fmap.
  by destruct (col_lookup _ _).
Qed.

Lemma px_scatter_take df m (x y c : string) (t : fstring) :
  px_scatter (df_take df m) x y c t
  = (λ f, ScatterFig (select m (fig_points f)) t) <$> px_scatter df x y c t.
Proof.
  unfold px_scatter. rewrite !px_col_take.
  destruct (px_col df x) as [xs|]; [|done]. simpl.
  destruct (px_col df y) as [ys|]; [|done]. simpl.
  destruct (px_col df c) as [cs|]; [|done]. simpl.
  by rewrite !select_zip_with.
Qed.

Lemma px_scatter_title df (x y c : string) (t : fstring) f :
  px_scatter df x y c t = Ok f → fig_title f = t.
Proof. unfold px_scatter. intros H. simplify_result. by subst. Qed.

Lemma px_scatter_retitle df (x y c : string) (t t' : fstring) f :
  px_scatter df x y c t = Ok f →
  px_scatter df x y c t' = Ok (ScatterFig (fig_points f) t').
Proof.
  unfold px_scatter. intros H. simplify_result. subst. simpl.
  by repeat match goal with H : _ = Ok _ |- _ => rewrite H; clear H end.
Qed.

(** ** Slices *)

Lemma slices_labels f : (slices f).*1 = nub (pie_rows f).*1.
Proof. unfold slices. induction (nub _); csimpl; congruence. Qed.

Lemma slices_labels_NoDup f : NoDup (slices f).*1.
Proof. rewrite slices_labels. apply NoDup_nub. Qed.

Lemma elem_of_slices f l z :
  (l, z) ∈ slices f ↔ l ∈ (pie_rows f).*1 ∧ z = slice_size (pie_rows f) l.
Proof.
  unfold slices. rewrite list_elem_of_fmap. setoid_rewrite elem_of_nub.
  naive_solver.
Qed.

Lemma slice_size_cons (rows : list (pyval * Z)) (r : pyval * Z) (l : pyval) :
  slice_size (r :: rows) l
  = ((if decide (r.1 = l) then r.2 else 0) + slice_size rows l)%Z.
Proof. unfold slice_size. rewrite filter_cons. case_decide; csimpl; lia. Qed.

Lemma sum_slice_sizes (rows : list (pyval * Z)) (ks : list pyval) :
  NoDup ks →
  sum_listZ (slice_size rows <$> ks)
  = sum_listZ (filter (λ r, r.1 ∈ ks) rows).*2.
Proof.
  intros Hks. induction rows as [|r rows IH].
  - clear Hks. induction ks; csimpl; [done | by rewrite IHks].
  - rewrite filter_cons. transitivity
      ((if decide (r.1 ∈ ks) then r.2 else 0) + sum_listZ (slice_size rows <$> ks))%Z.
    + clear IH. induction Hks as [|k ks Hk Hks IH]; csimpl; [done |].
      rewrite slice_size_cons, IH.
      repeat case_decide; set_solver by lia.
    + rewrite IH. case_decide; csimpl; lia.
Qed.

(** The slices of a pie add up to the total of its rows. *)
Lemma slices_total f : sum_listZ (slices f).*2 = sum_listZ (pie_rows f).*2.
Proof.
  unfold slices. rewrite <- list_fmap_compose.
  change (snd ∘ _) with (slice_size (pie_rows f)).
  rewrite sum_slice_sizes by apply NoDup_nub. do 2 f_equal.
  apply filter_all. intros r Hr. apply elem_of_nub, list_elem_of_fmap. eauto.
Qed.

Lemma slice_size_names (labels : list pyval) (l : pyval) :
  slice_size ((λ l, (l, 1%Z)) <$> labels) l = Z.of_nat (count_occ_of l labels).
Proof.
  induction labels as [|x labels IH]; [done |]. csimpl.
  rewrite slice_size_cons, IH, count_occ_of_cons. simpl.
  repeat case_decide; naive_solver lia.
Qed.

(** Without values, the slices are the tally of the labels. *)
Lemma slices_names (labels : list pyval) (t : fstring) :
  slices (PieFig labels None t) = prod_map id Z.of_nat <$> tally labels.
Proof.
  unfold slices, tally. simpl. rewrite <- !list_fmap_compose.
  rewrite (list_fmap_id labels) at 1.
  apply list_fmap_ext. intros _ l _. simpl. unfold prod_map. simpl.
  by rewrite slice_size_names.
Qed.

Lemma slice_size_notin (rows : list (pyval * Z)) (l : pyval) :
  l ∉ rows.*1 → slice_size rows l = 0%Z.
Proof.
  intros Hl. unfold slice_size. rewrite filter_none; [done |].
  intros r Hr <-. apply Hl, list_elem_of_fmap. eauto.
Qed.

Lemma slice_size_NoDup (rows : list (pyval * Z)) (l : pyval) (z : Z) :
  NoDup rows.*1 → (l, z) ∈ rows → slice_size rows l = z.
Proof.
  induction rows as [|[l' z'] rows IH]; csimpl; [by intros _ ?%elem_of_nil |].
  intros [Hl' Hnd]%NoDup_cons [[= -> ->]|Hin]%elem_of_cons;
    rewrite slice_size_cons; simpl.
  - rewrite decide_True, slice_size_notin by done. lia.
  - rewrite decide_False, IH by (try done; intros ->; apply Hl';
      apply list_elem_of_fmap; by exists (l, z)). lia.
Qed.

(** When the labels are distinct, every row is a slice. *)
Lemma slices_NoDup_rows f : NoDup (pie_rows f).*1 → slices f = pie_rows f.
Proof.
  intros Hnd. unfold slices. rewrite nub_NoDup_id by done.
  rewrite <- list_fmap_compose.
  transitivity (id <$> pie_rows f); [|apply list_fmap_id].
  apply list_fmap_ext. intros i [l z] Hi. simpl. f_equal.
  apply slice_size_NoDup; [done |]. by eapply list_elem_of_lookup_2.
Qed.

(** The rows of a pie built from a table of counts. *)
Lemma pie_rows_counts (vc : list (pyval * nat)) (t : fstring) :
  pie_rows (PieFig vc.*1 (Some ((λ n, PInt (Z.of_nat n)) <$> vc.*2)) t)
  = prod_map id Z.of_nat <$> vc.
Proof. simpl. induction vc as [|[l n] vc IH]; csimpl; congruence. Qed.

Lemma slices_counts (vc : list (pyval * nat)) (t : fstring) :
  NoDup vc.*1 →
  slices (PieFig vc.*1 (Some ((λ n, PInt (Z.of_nat n)) <$> vc.*2)) t)
  = prod_map id Z.of_nat <$> vc.
Proof.
  intros Hnd. rewrite slices_NoDup_rows; rewrite pie_rows_counts; [done |].
  rewrite <- list_fmap_compose. exact Hnd.
Qed.

Lemma px_pie_Ok df (values : option string) name (t : fstring) f :
  px_pie df values name t = Ok f ↔
  ∃ labels vals, px_col df name = Ok labels ∧
    match values with
    | None => vals = None
    | Some v => ∃ vs, px_col df v = Ok vs ∧ vals = Some vs
    end ∧ f = PieFig labels vals t.
Proof.
  unfold px_pie. destruct (px_col df name) as [labels|]; simpl;
    [|split; [done | by intros (? & ? & ? & _)]].
  destruct values as [v|]; simpl.
  - destruct (px_col df v) as [vs|]; simpl; split.
    + intros [= <-]. eauto 8.
    + intros (? & ? & [= <-] & (? & [= <-] & ->) & ->). done.
    + done.
    + intros (? & ? & _ & (? & [=] & _) & _).
  - split; [intros [= <-]; eauto | intros (? & ? & [= <-] & -> & ->); done].
Qed.

Lemma px_pie_Err df (values : option string) name (t : fstring) e :
  px_pie df values name t = Err e → e = ValueError.
Proof.
  unfold px_pie. destruct (px_col df name) eqn:E1; simpl.
  - destruct values as [v|]; [|done]. simpl.
    destruct (px_col df v) eqn:E2; [done |]. simpl. intros [= <-].
    by apply px_col_Err in E2 as [-> _].
  - intros [= <-]. by apply px_col_Err in E1 as [-> _].
Qed.

End px.
