(* ===== verification/Loader.v ===== *)
(** * Loading the dataset

    Lines 12-25 of [src/spacex_dash_app.py]: the module reads the CSV once,
    substitutes a one-row placeholder frame when the file is missing, and
    computes the payload bounds.  [pd.read_csv] is represented by its
    outcome: the parsed frame or the exception it raised. *)

From S2P Require Import Prelude PyValue Frame Dataset.

(** The placeholder frame built when the file is not found. *)
Definition fallback_df : DataFrame :=
  mkDF [(PAYLOAD, [PInt 0]);
        (SITE, [PStr "Default"]);
        (CLASS, [PInt 0]);
        (BOOSTER, [PStr "Default"])].

(** The diagnostic printed when the file is not found. *)
Definition missing_file_message : string :=
  "Error: 'spacex_launch_dash.csv' not found. Please ensure the file is in the correct directory.".

(** The [try]/[except FileNotFoundError] of lines 12-22: the frame and the
    lines printed.  Any other exception of [pd.read_csv] propagates. *)
Definition load (read_csv : result DataFrame) : result (DataFrame * list string) :=
  match read_csv with
  | Ok df => Ok (df, [])
  | Err FileNotFoundError => Ok (fallback_df, [missing_file_message])
  | Err e => Err e
  end.

(** The module-level variables after line 25. *)
Record module_data : Type := mkData {
  spacex_df : DataFrame;
  max_payload : pyval;
  min_payload : pyval;
  stdout : list string
}.

(** Lines 12-25. *)
Definition init_data (read_csv : result DataFrame) : result module_data :=
  '(df, out) ← load read_csv;
  p ← df_get df PAYLOAD;
  mx ← series_max p;
  p' ← df_get df PAYLOAD;
  mn ← series_min p';
  Ok (mkData df mx mn out).

(** The module variables after start-up on the worked example, and on the
    dataset whose payloads were read as text. *)
Definition example_data : module_data :=
  mkData example_df (PInt 9000) (PInt 500) [].

Definition text_data : module_data :=
  mkData text_df (PStr "900") (PStr "2,500") [].

(** The record the placeholder frame holds. *)
Definition fallback_launch : launch :=
  mkLaunch (PInt 0) (PStr "Default") (PInt 0) (PStr "Default").

Section loader.
Implicit Types (df : DataFrame) (d : list launch) (r : launch) (e : pyexc).
Implicit Types (data : module_data).

(** C9. When the CSV file is missing, loading does not fail: it prints the
    diagnostic and yields a well-formed frame with one row and the four
    columns [Payload Mass (kg)], [Launch Site], [class] and [Booster Version
    Category], holding payload 0, site ['Default'], class 0 and booster
    ['Default']. *)
Theorem load_missing_file :
  load (Err FileNotFoundError) = Ok (fallback_df, [missing_file_message]) ∧
  df_wf fallback_df ∧ nrows fallback_df = 1 ∧
  columns fallback_df = [PAYLOAD; SITE; CLASS; BOOSTER] ∧
  represents fallback_df [fallback_launch].
Proof.
  split; [done |]. split; [|done].
  split; [|unfold nrows; simpl; by repeat constructor].
  unfold columns. simpl. repeat (apply NoDup_cons; split; [set_solver |]).
  apply NoDup_nil_2.
Qed.

(** An exception of [pd.read_csv] other than [FileNotFoundError] is not
    caught: start-up fails with it. *)
Lemma load_other_error e :
  e ≠ FileNotFoundError →
  load (Err e) = Err e ∧ init_data (Err e) = Err e.
Proof. intros He. unfold init_data. by destruct e. Qed.

Lemma load_other_error_witness :
  load (Err ValueError) = Err ValueError ∧
  init_data (Err ValueError) = Err ValueError.
Proof. apply (load_other_error ValueError). discriminate. Defined.

(** When the file is missing the module variables are the placeholder
    frame and the bounds [0] and [0]. *)
Lemma init_data_missing_file :
  init_data (Err FileNotFoundError)
  = Ok (mkData fallback_df (PInt 0) (PInt 0) [missing_file_message]).
Proof. done. Qed.

Lemma init_data_Ok read_csv data :
  init_data read_csv = Ok data →
  ∃ p, load read_csv = Ok (spacex_df data, stdout data) ∧
       df_get (spacex_df data) PAYLOAD = Ok p ∧
       series_max p = Ok (max_payload data) ∧
       series_min p = Ok (min_payload data).
Proof.
  unfold init_data. intros H. simplify_result.
  destruct a as [df out]. simplify_result. subst. simpl.
  assert (a1 = a) as -> by congruence. eauto.
Qed.

(** After a successful start-up the frame has the payload column. *)
Lemma init_data_has_payload read_csv data :
  init_data read_csv = Ok data → has_column (spacex_df data) PAYLOAD = true.
Proof.
  intros (p & _ & Hp & _)%init_data_Ok.
  by rewrite <- df_get_has_column, Hp.
Qed.

(** The bounds computed at start-up, in the order of the cells. *)
Lemma init_data_num_leb read_csv data d r :
  init_data read_csv = Ok data → represents (spacex_df data) d →
  r ∈ d → is_Some (num_of (l_payload r)) →
  num_leb (min_payload data) (l_payload r) = true ∧
  num_leb (l_payload r) (max_payload data) = true.
Proof.
  intros (p & _ & Hp & Hmax & Hmin)%init_data_Ok (Hp' & _) Hr Hnum.
  rewrite Hp in Hp'. injection Hp' as ->.
  assert (l_payload r ∈ l_payload <$> d) by by apply list_elem_of_fmap_2.
  split; [by eapply series_min_lb | by eapply series_max_ub].
Qed.

(** C29. A CSV without the payload column makes start-up fail with [KeyError]
    at line 24, before any page is served. *)
Theorem init_data_no_payload df :
  has_column df PAYLOAD = false →
  init_data (Ok df) = Err (KeyError PAYLOAD).
Proof.
  intros H. unfold init_data. simpl.
  assert (df_get df PAYLOAD = Err (KeyError PAYLOAD)) as -> by by apply df_get_Err.
  done.
Qed.

Lemma init_data_no_payload_witness :
  init_data (Ok (mkDF [(SITE, [PStr "A"])])) = Err (KeyError PAYLOAD).
Proof. apply (init_data_no_payload (mkDF [(SITE, [PStr "A"])])). reflexivity. Defined.

(** C28. After start-up, [min_payload] and [max_payload] are numbers that
    bracket every numeric payload of the dataset. *)
Theorem init_data_bounds read_csv data d r x :
  init_data read_csv = Ok data → represents (spacex_df data) d →
  r ∈ d → num_of (l_payload r) = Some x →
  ∃ mn mx, num_of (min_payload data) = Some mn ∧
           num_of (max_payload data) = Some mx ∧ (mn ≤ x)%Qc ∧ (x ≤ mx)%Qc.
Proof.
  intros Hinit Hd Hr Hx.
  destruct (init_data_num_leb _ _ _ _ Hinit Hd Hr) as [Hmin Hmax]; [by eexists |].
  apply num_leb_true in Hmin as (mn & x1 & ? & ? & ?).
  apply num_leb_true in Hmax as (x2 & mx & ? & ? & ?).
  simplify_eq. eauto 6.
Qed.

Lemma init_data_bounds_witness :
  ∃ mn mx, num_of (PInt 500) = Some mn ∧ num_of (PInt 9000) = Some mx ∧
           (mn ≤ Qc_of_Z 500)%Qc ∧ (Qc_of_Z 500 ≤ mx)%Qc.
Proof.
  apply (init_data_bounds (Ok example_df)
           (mkData example_df (PInt 9000) (PInt 500) [])
           example_launches
           (mkLaunch (PInt 500) (PStr "A") (PInt 1) (PStr "B1")));
    [reflexivity | apply represents_frame_of | left | reflexivity].
Defined.

End loader.
