(* ===== verification/Layout.v ===== *)
(** * The page layout

    Lines 28-74 of [src/spacex_dash_app.py]: the Dash component tree built
    once at start-up.  A component is a constructor with the properties the
    source sets; a style dictionary is an association list.  The two parts
    that depend on the data are the options of the site drop-down ([ALL] and
    the distinct sites, in order of first appearance) and the initial value
    of the payload slider (the payload bounds of the dataset, or 0 and 10000
    where a bound is missing).  The lookups by identifier at the end of the
    definitions are what the host reads back from the page. *)

From S2P Require Import Prelude PyValue Frame Dataset Loader.

(** A style dictionary. *)
Definition style : Type := list (string * pyval).

(** An option of a drop-down: [{'label': …, 'value': …}]. *)
Record dropdown_option : Type := mkOption { opt_label : pyval; opt_value : pyval }.

#[export] Instance dropdown_option_eq_dec : EqDecision dropdown_option.
Proof. solve_decision. Defined.

(** The components the page uses, with the properties the source sets. *)
#[local] Unset Elimination Schemes.
Inductive component : Type :=
| Div (children : list component) (st : style)
| H1 (text : string) (st : style)
| Br
| P (text : string) (st : style)
| Dropdown (id : string) (options : list dropdown_option) (value : pyval)
    (placeholder : string) (searchable : bool) (st : style)
| Graph (id : string)
| RangeSlider (id : string) (min max step : Z) (marks : list (Z * string))
    (value : list pyval).
#[local] Set Elimination Schemes.

(** [range(start, stop, step)] for a positive step. *)
Definition py_range (start stop step : Z) : list Z :=
  if decide (0 < step)%Z then
    (λ i, start + Z.of_nat i * step)%Z
      <$> seq 0 (Z.to_nat ((stop - start + step - 1) / step))
  else [].

(** Line 40-44: ['ALL'] and one option per distinct site. *)
Definition site_options (df : DataFrame) : result (list dropdown_option) :=
  sites ← df_get df SITE;
  Ok (mkOption (PStr "All Sites") (PStr "ALL")
      :: ((λ site, mkOption site site) <$> series_unique sites)).

(** Line 66: the marks of the slider, [{i: str(i) for i in range(0, 10001,
    1000)}]. *)
Definition slider_marks : list (Z * string) :=
  (λ i, (i, pretty i)) <$> py_range 0 10001 1000.

(** Lines 67-68: the initial value of the slider. *)
Definition slider_value (mn mx : pyval) : list pyval :=
  [if notna mn then mn else PInt 0; if notna mx then mx else PInt 10000].

(** Lines 32-33: the heading. *)
Definition title : component :=
  H1 "SpaceX Launch Records Dashboard"
    [("textAlign", PStr "center"); ("color", PStr "#503D36");
     ("font-size", PInt 40)]%string.

(** Lines 39-49: the site drop-down, with ['ALL'] selected. *)
Definition site_dropdown (options : list dropdown_option) : component :=
  Dropdown "site-dropdown" options (PStr "ALL") "Select a Launch Site" true
    [("width", PStr "100%"); ("padding", PStr "3px");
     ("font-size", PStr "20px"); ("textAlignLast", PStr "center")]%string.

(** Lines 56 and 73: the two graphs, empty until their callbacks run. *)
Definition pie_graph : component := Div [Graph "success-pie-chart"] [].

Definition scatter_graph : component :=
  Div [Graph "success-payload-scatter-chart"] [].

(** Lines 62-69: the payload slider, on the fixed scale 0-10000. *)
Definition payload_slider (data : module_data) : component :=
  RangeSlider "payload-slider" 0 10000 1000 slider_marks
    (slider_value (min_payload data) (max_payload data)).

(** Lines 31-74: the page, given the options of the drop-down. *)
Definition page_of (data : module_data) (options : list dropdown_option) : component :=
  Div [
    title;
    Div [site_dropdown options]
      [("width", PStr "80%"); ("margin", PStr "0 auto")]%string;
    Br;
    pie_graph;
    Br;
    P "Payload range (Kg):" [("textAlign", PStr "center")]%string;
    payload_slider data;
    Br;
    scatter_graph
  ] [].

(** Lines 31-74: [app.layout]; computing the options can raise. *)
Definition app_layout (data : module_data) : result component :=
  options ← site_options (spacex_df data);
  Ok (page_of data options).

(** Lines 12-74: everything the module does before the callbacks are
    registered. *)
Definition startup (read_csv : result DataFrame) : result (module_data * component) :=
  data ← init_data read_csv;
  page ← app_layout data;
  Ok (data, page).

(** The initial value of the drop-down [id] in a page, and of the range
    slider [id]. *)
Fixpoint dropdown_value (id : string) (c : component) : option pyval :=
  match c with
  | Div children _ =>
      (fix go (cs : list component) : option pyval :=
         match cs with
         | [] => None
         | c :: cs =>
             match dropdown_value id c with
             | Some v => Some v
             | None => go cs
             end
         end) children
  | Dropdown id' _ v _ _ _ => if decide (id = id') then Some v else None
  | _ => None
  end.

Fixpoint slider_value_of (id : string) (c : component) : option (list pyval) :=
  match c with
  | Div children _ =>
      (fix go (cs : list component) : option (list pyval) :=
         match cs with
         | [] => None
         | c :: cs =>
             match slider_value_of id c with
             | Some v => Some v
             | None => go cs
             end
         end) children
  | RangeSlider id' _ _ _ _ v => if decide (id = id') then Some v else None
  | _ => None
  end.

(** The options of the drop-down [id] in a page. *)
Fixpoint dropdown_options (id : string) (c : component) : option (list dropdown_option) :=
  match c with
  | Div children _ =>
      (fix go (cs : list component) : option (list dropdown_option) :=
         match cs with
         | [] => None
         | c :: cs =>
             match dropdown_options id c with
             | Some v => Some v
             | None => go cs
             end
         end) children
  | Dropdown id' options _ _ _ _ => if decide (id = id') then Some options else None
  | _ => None
  end.

(** The properties a component has, as (component id, property) pairs: a
    drop-down has [options] and [value], a graph has [figure], a range
    slider has [value]. *)
Fixpoint component_properties (c : component) : list (string * string) :=
  match c with
  | Div children _ =>
      (fix go (cs : list component) : list (string * string) :=
         match cs with
         | [] => []
         | c :: cs => component_properties c ++ go cs
         end) children
  | Dropdown id _ _ _ _ _ => [(id, "options"); (id, "value")]%string
  | Graph id => [(id, "figure")]%string
  | RangeSlider id _ _ _ _ _ => [(id, "value")]%string
  | H1 _ _ | Br | P _ _ => []
  end.

(** The identifiers of the components of a page. *)
Fixpoint component_ids (c : component) : list string :=
  match c with
  | Div children _ =>
      (fix go (cs : list component) : list string :=
         match cs with
         | [] => []
         | c :: cs => component_ids c ++ go cs
         end) children
  | Dropdown id _ _ _ _ _ | Graph id | RangeSlider id _ _ _ _ _ => [id]
  | H1 _ _ | Br | P _ _ => []
  end.

(** The page of the worked example. *)
Definition example_options : list dropdown_option :=
  [mkOption (PStr "All Sites") (PStr "ALL");
   mkOption (PStr "A") (PStr "A"); mkOption (PStr "B") (PStr "B")].

Definition example_page : component := page_of example_data example_options.

(** The values a drop-down offers. *)
Definition option_values (opts : list dropdown_option) : list pyval :=
  opt_value <$> opts.

Section layout.
Implicit Types (df : DataFrame) (d : list launch) (r : launch) (v : pyval).
Implicit Types (data : module_data).

Lemma elem_of_py_range (start stop step x : Z) :
  (0 < step)%Z →
  x ∈ py_range start stop step ↔
  ∃ k, (0 ≤ k)%Z ∧ x = (start + k * step)%Z ∧ (x < stop)%Z.
Proof.
  intros Hs. unfold py_range. rewrite decide_True by done.
  rewrite list_elem_of_fmap. setoid_rewrite elem_of_seq. split.
  - intros (i & -> & _ & Hi). exists (Z.of_nat i). split; [lia |].
    split; [done |]. simpl in Hi.
    assert (Z.of_nat i < (stop - start + step - 1) / step)%Z as Hlt by lia.
    assert (Z.of_nat i + 1 ≤ (stop - start + step - 1) / step)%Z as Hle by lia.
    pose proof (Z.mul_div_le (stop - start + step - 1) step Hs).
    nia.
  - intros (k & Hk & -> & Hlt). exists (Z.to_nat k). split; [f_equal; lia |].
    split; [lia |]. simpl.
    assert (k + 1 ≤ (stop - start + step - 1) / step)%Z; [|lia].
    apply Z.div_le_lower_bound; [done | nia].
Qed.

(** The slider has the eleven marks 0, 1000, …, 10000, each labelled by
    its number. *)
Lemma slider_marks_spec :
  slider_marks
  = [(0, "0"); (1000, "1000"); (2000, "2000"); (3000, "3000"); (4000, "4000");
     (5000, "5000"); (6000, "6000"); (7000, "7000"); (8000, "8000");
     (9000, "9000"); (10000, "10000")]%Z%string.
Proof. vm_compute. reflexivity. Qed.

(** C38. The marks of the payload slider are the positions the slider can
    take: a value is marked exactly when it lies a whole number of steps
    above the minimum and not above the maximum, and its label is its
    decimal numeral. *)
Theorem slider_marks_cover data id (mn mx st : Z) marks value :
  payload_slider data = RangeSlider id mn mx st marks value →
  ∀ x lbl, (x, lbl) ∈ marks ↔
    (∃ k, (0 ≤ k)%Z ∧ x = (mn + k * st)%Z ∧ (x ≤ mx)%Z) ∧ lbl = pretty x.
Proof.
  intros [= <- <- <- <- <- <-] x lbl. unfold slider_marks.
  rewrite list_elem_of_fmap. setoid_rewrite elem_of_py_range; [|done].
  split.
  - intros (i & [= -> ->] & k & ? & -> & ?). split; [|done].
    exists k. split_and!; [done.. | lia].
  - intros [(k & ? & -> & ?) ->]. eexists. split; [done |].
    exists k. split_and!; [done.. | lia].
Qed.

Lemma slider_marks_cover_witness :
  payload_slider example_data
  = RangeSlider "payload-slider" 0 10000 1000 slider_marks [PInt 500; PInt 9000] ∧
  ∀ x lbl, (x, lbl) ∈ slider_marks ↔
    (∃ k, (0 ≤ k)%Z ∧ x = (0 + k * 1000)%Z ∧ (x ≤ 10000)%Z) ∧ lbl = pretty x.
Proof.
  split; [reflexivity |].
  exact (slider_marks_cover example_data _ _ _ _ _ _ eq_refl).
Defined.

Lemma site_options_values df d opts :
  represents df d → site_options df = Ok opts →
  opts = mkOption (PStr "All Sites") (PStr "ALL")
         :: ((λ site, mkOption site site) <$> nub (l_site <$> d)).
Proof.
  intros (_ & Hs & _). unfold site_options. rewrite Hs. simpl. by intros [= <-].
Qed.

(** C31. The drop-down offers ['ALL'] first and then every distinct site of
    the dataset once, in order of first appearance, each labelled by
    itself. *)
Theorem site_options_spec df d :
  represents df d →
  ∃ opts, site_options df = Ok opts ∧
    option_values opts = PStr "ALL" :: nub (l_site <$> d) ∧
    (∀ r, r ∈ d → l_site r ∈ option_values opts) ∧
    (∀ o, o ∈ opts → o = mkOption (PStr "All Sites") (PStr "ALL")
                     ∨ opt_label o = opt_value o).
Proof.
  intros (_ & Hs & _). unfold site_options. rewrite Hs. simpl.
  eexists. split; [done |]. unfold option_values, series_unique. csimpl.
  rewrite <- list_fmap_compose, list_fmap_id. repeat split.
  - intros r Hr. right. apply elem_of_nub. by apply list_elem_of_fmap_2.
  - intros o [->|(s & -> & _)%list_elem_of_fmap]%elem_of_cons; auto.
Qed.

Lemma site_options_spec_witness :
  ∃ opts, site_options example_df = Ok opts ∧
    option_values opts = PStr "ALL" :: nub (l_site <$> example_launches) ∧
    (∀ r, r ∈ example_launches → l_site r ∈ option_values opts) ∧
    (∀ o, o ∈ opts → o = mkOption (PStr "All Sites") (PStr "ALL")
                     ∨ opt_label o = opt_value o).
Proof.
  apply (site_options_spec example_df example_launches), represents_frame_of.
Defined.

(** C32. The values of the drop-down are pairwise distinct exactly when no
    launch site is itself called ['ALL']; a site of that name cannot be
    told apart from the all-sites entry. *)
Theorem site_options_NoDup df d opts :
  represents df d → site_options df = Ok opts →
  NoDup (option_values opts) ↔ ∀ r, r ∈ d → l_site r ≠ PStr "ALL".
Proof.
  intros Hd ->%(site_options_values _ d); [|done].
  unfold option_values. csimpl. rewrite <- list_fmap_compose, list_fmap_id.
  rewrite NoDup_cons, elem_of_nub, list_elem_of_fmap. split.
  - intros [Hall _] r Hr Heq. apply Hall. eauto.
  - intros H. split; [|apply NoDup_nub]. intros (r & ? & ?). by eapply H.
Qed.

Lemma site_options_NoDup_witness :
  NoDup (option_values example_options)
  ↔ ∀ r, r ∈ example_launches → l_site r ≠ PStr "ALL".
Proof.
  apply (site_options_NoDup example_df example_launches);
    [apply represents_frame_of | reflexivity].
Defined.

(** Building the page fails with [KeyError] when the frame has no
    [Launch Site] column. *)
Lemma app_layout_no_site data :
  has_column (spacex_df data) SITE = false →
  app_layout data = Err (KeyError SITE).
Proof.
  intros H. unfold app_layout, site_options.
  assert (df_get (spacex_df data) SITE = Err (KeyError SITE)) as ->
    by by apply df_get_Err.
  done.
Qed.

Lemma app_layout_no_site_witness :
  app_layout (mkData (mkDF [(PAYLOAD, [PInt 1])]) (PInt 1) (PInt 1) [])
  = Err (KeyError SITE).
Proof.
  apply (app_layout_no_site
           (mkData (mkDF [(PAYLOAD, [PInt 1])]) (PInt 1) (PInt 1) [])).
  reflexivity.
Defined.

(** The page is [page_of] on the options computed from the frame. *)
Lemma app_layout_Ok data page :
  app_layout data = Ok page →
  ∃ options, site_options (spacex_df data) = Ok options ∧
             page = page_of data options.
Proof.
  unfold app_layout. destruct (site_options _) as [options|]; [|done].
  intros [= <-]. eauto.
Qed.

(** C25. What the code puts into the page is what the host reads back from
    it: the drop-down [site-dropdown] holds the options computed from the
    frame and the value ['ALL'], the slider [payload-slider] holds the
    payload bounds of the dataset, no other identifier answers to a lookup,
    and the identifiers of the page are pairwise distinct. *)
Theorem app_layout_lookup data page :
  app_layout data = Ok page →
  Ok <$> dropdown_options "site-dropdown" page
  = Some (site_options (spacex_df data)) ∧
  dropdown_value "site-dropdown" page = Some (PStr "ALL") ∧
  slider_value_of "payload-slider" page
  = Some (slider_value (min_payload data) (max_payload data)) ∧
  (∀ id, id ≠ "site-dropdown"%string → dropdown_value id page = None) ∧
  (∀ id, id ≠ "payload-slider"%string → slider_value_of id page = None) ∧
  NoDup (component_ids page).
Proof.
  intros (options & Hopts & ->)%app_layout_Ok. rewrite Hopts.
  repeat split; try done.
  - intros id Hid. simpl. by rewrite decide_False.
  - intros id Hid. simpl. by rewrite decide_False.
  - by apply (bool_decide_unpack _).
Qed.

Lemma app_layout_lookup_witness :
  Ok <$> dropdown_options "site-dropdown" example_page
  = Some (site_options example_df) ∧
  dropdown_value "site-dropdown" example_page = Some (PStr "ALL") ∧
  slider_value_of "payload-slider" example_page = Some [PInt 500; PInt 9000] ∧
  (∀ id, id ≠ "site-dropdown"%string → dropdown_value id example_page = None) ∧
  (∀ id, id ≠ "payload-slider"%string → slider_value_of id example_page = None) ∧
  NoDup (component_ids example_page).
Proof. apply (app_layout_lookup example_data). reflexivity. Defined.

Lemma app_layout_has_site data page :
  app_layout data = Ok page → has_column (spacex_df data) SITE = true.
Proof.
  unfold app_layout, site_options. rewrite <- df_get_has_column.
  by destruct (df_get _ SITE).
Qed.

Lemma startup_Ok read_csv data page :
  startup read_csv = Ok (data, page) →
  init_data read_csv = Ok data ∧ app_layout data = Ok page.
Proof. unfold startup. intros H. simplify_result. by subst. Qed.

Lemma startup_columns read_csv data page :
  startup read_csv = Ok (data, page) →
  has_column (spacex_df data) PAYLOAD = true ∧
  has_column (spacex_df data) SITE = true.
Proof.
  intros [Hinit Hlay]%startup_Ok.
  split; [by eapply init_data_has_payload | by eapply app_layout_has_site].
Qed.

(** The bounds of the slider's initial value are numbers when the payload
    column is numeric. *)
Lemma slider_value_numbers read_csv data d :
  init_data read_csv = Ok data → represents (spacex_df data) d →
  numeric_payload d →
  Forall (λ v, is_number v = true)
    (slider_value (min_payload data) (max_payload data)).
Proof.
  intros (p & _ & Hp & Hmax & Hmin)%init_data_Ok (Hp' & _) Hnum.
  rewrite Hp in Hp'. injection Hp' as ->.
  assert (∀ m, m = PNaN ∨ m ∈ l_payload <$> d →
               is_number (if notna m then m else PInt 0) = true
               ∧ is_number (if notna m then m else PInt 10000) = true) as Hm.
  { intros m [->|(r & -> & Hr)%list_elem_of_fmap]; [done |].
    unfold numeric_payload in Hnum. rewrite Forall_forall in Hnum.
    specialize (Hnum r Hr).
    by destruct (l_payload r). }
  unfold slider_value. repeat constructor.
  - by apply Hm, series_min_elem.
  - by apply Hm, series_max_elem.
Qed.

End layout.
