(* ===== verification/Pie.v ===== *)
(** * The pie-chart callback

    [get_pie_chart] (lines 81-103 of [src/spacex_dash_app.py]), registered on
    the value of the site drop-down.  The frame is the module-level
    [spacex_df], passed here as an argument.  [compute_pie] is the chart as
    a function of the launch records the frame holds. *)

From S2P Require Import Prelude PyValue Frame Dataset Plotly.

(** The dictionary literal [{1: 'Success', 0: 'Failure'}]. *)
Definition status_dict : list (pyval * pyval) :=
  [(PInt 1, PStr "Success"); (PInt 0, PStr "Failure")].

Definition pie_all_title : fstring := [FLit "Total Successful Launches by Site"].

Definition pie_site_title (entered_site : pyval) : fstring :=
  [FLit "Successful vs. Failed Launches for site "; FVal entered_site].

(** The [else] branch up to [status_counts]: the outcomes at the selected
    site, labelled and counted. *)
Definition status_counts (site_filtered_df : DataFrame) : result DataFrame :=
  cls ← df_get site_filtered_df "class";
  let counts := reset_index "class" (value_counts (series_map status_dict cls)) in
  set_columns counts ["status"; "count"]%string.

(** The callback. *)
Definition get_pie_chart (spacex_df : DataFrame) (entered_site : pyval) : result figure :=
  let filtered_df := spacex_df in
  if py_eq entered_site (PStr "ALL") then
    cls ← df_get filtered_df "class";
    let successful_launches_df := df_take filtered_df (series_eq cls (PInt 1)) in
    px_pie successful_launches_df None "Launch Site" pie_all_title
  else
    site ← df_get filtered_df "Launch Site";
    let site_filtered_df := df_take filtered_df (series_eq site entered_site) in
    counts ← status_counts site_filtered_df;
    px_pie counts (Some "count"%string) "status" (pie_site_title entered_site).

(** The label [.map] gives an outcome cell: ['Success'] for a cell equal to
    1, ['Failure'] for a cell equal to 0, [nan] for anything else. *)
Definition status_label (c : pyval) : pyval :=
  if py_eq c (PInt 1) then PStr "Success"
  else if py_eq c (PInt 0) then PStr "Failure"
  else PNaN.

(** The table of outcome counts at the selected site, on records. *)
Definition site_outcomes (v : pyval) (d : list launch) : list (pyval * nat) :=
  value_counts (status_label ∘ l_class <$> filter (λ r, at_site v r = true) d).

(** The outcome class of every record is 0 or 1. *)
Definition binary_class (d : list launch) : Prop :=
  Forall (λ r, is_success r = true ∨ is_failure r = true) d.

(** The callback on launch records: the sites of the successful launches on
    the all-sites view, the table of outcome counts of the site otherwise. *)
Definition compute_pie (v : pyval) (d : list launch) : figure :=
  if py_eq v (PStr "ALL") then
    PieFig (l_site <$> filter (λ r, is_success r = true) d) None pie_all_title
  else
    PieFig (site_outcomes v d).*1
      (Some ((λ n, PInt (Z.of_nat n)) <$> (site_outcomes v d).*2))
      (pie_site_title v).

(** ** The outcome labels *)

Section status.
Implicit Types (c v : pyval) (s : Series) (r : launch).

Lemma status_dict_get c : default PNaN (dict_get status_dict c) = status_label c.
Proof.
  unfold dict_get, status_dict, status_label. simpl.
  rewrite (py_eq_sym (PInt 1)), (py_eq_sym (PInt 0)).
  repeat case_decide; repeat destruct (py_eq c _); simplify_eq/=; done.
Qed.

Lemma series_map_status s : series_map status_dict s = status_label <$> s.
Proof. apply list_fmap_ext. intros _ c _. apply status_dict_get. Qed.

Lemma status_label_cases c :
  status_label c = PStr "Success" ∨ status_label c = PStr "Failure"
  ∨ status_label c = PNaN.
Proof. unfold status_label. repeat destruct (py_eq c _); auto. Qed.

Lemma status_label_success c : status_label c = PStr "Success" ↔ py_eq c (PInt 1) = true.
Proof. unfold status_label. repeat destruct (py_eq c _); naive_solver. Qed.

Lemma py_eq_int_excl c (z1 z2 : Z) :
  z1 ≠ z2 → py_eq c (PInt z1) = true → py_eq c (PInt z2) = false.
Proof.
  intros Hne. rewrite py_eq_int. intros H1. apply not_true_is_false.
  rewrite py_eq_int, H1. intros [= ?]. done.
Qed.

Lemma status_label_failure c : status_label c = PStr "Failure" ↔ py_eq c (PInt 0) = true.
Proof.
  unfold status_label. destruct (py_eq c (PInt 1)) eqn:E1.
  - rewrite (py_eq_int_excl c 1 0) by done. naive_solver.
  - destruct (py_eq c (PInt 0)); naive_solver.
Qed.

Lemma status_label_notna c :
  isna (status_label c) = false ↔ py_eq c (PInt 1) = true ∨ py_eq c (PInt 0) = true.
Proof. unfold status_label. repeat destruct (py_eq c _); naive_solver. Qed.

End status.

(** ** The all-sites view *)

Section pie_all.
Implicit Types (df : DataFrame) (d : list launch) (f : figure) (l : pyval).

(** The figure of the all-sites view: one label per successful launch, its
    site, in row order. *)
Lemma pie_all_figure df d :
  represents df d →
  get_pie_chart df (PStr "ALL")
  = Ok (PieFig (l_site <$> filter (λ r, is_success r = true) d) None pie_all_title).
Proof.
  intros (Hp & Hs & Hc & Hb). unfold get_pie_chart. simpl. rewrite Hc. simpl.
  unfold px_pie. rewrite px_col_take, (px_col_of_get _ _ _ Hs). simpl.
  by rewrite series_eq_class, select_fmap, select_fmap_filter.
Qed.

(** C11. On the all-sites view the callback returns a chart whose slices add
    up to the number of successful launches (rows with [class == 1]). *)
Theorem pie_all_total df d :
  represents df d →
  ∃ f, get_pie_chart df (PStr "ALL") = Ok f ∧
       sum_listZ (slices f).*2
       = Z.of_nat (length (filter (λ r, is_success r = true) d)).
Proof.
  intros Hd. eexists. split; [by apply pie_all_figure |].
  rewrite slices_total. simpl. rewrite <- list_fmap_compose.
  rewrite (sum_listZ_const _ 1%Z), length_fmap. lia.
Qed.

Lemma pie_all_total_witness :
  ∃ f, get_pie_chart example_df (PStr "ALL") = Ok f ∧
       sum_listZ (slices f).*2
       = Z.of_nat (length (filter (λ r, is_success r = true) example_launches)).
Proof.
  apply (pie_all_total example_df example_launches), represents_frame_of.
Defined.

(** The slice of a site on the all-sites view. *)
Lemma pie_all_slice df d f l z :
  represents df d → get_pie_chart df (PStr "ALL") = Ok f →
  (l, z) ∈ slices f ↔
    (0 < z)%Z ∧
    z = Z.of_nat (length (filter (λ r, l_site r = l ∧ is_success r = true) d)).
Proof.
  intros Hd. rewrite (pie_all_figure _ _ Hd). intros [= <-].
  by rewrite slices_names, elem_of_Z_tally, count_occ_of_fmap, list_filter_filter.
Qed.

(** C2. On the all-sites view there is exactly one slice per site that has a
    successful launch, in order of first appearance, and the slice of a site
    is sized by the number of its successful launches. *)
Theorem pie_all_slices df d f :
  represents df d →
  get_pie_chart df (PStr "ALL") = Ok f →
  (slices f).*1 = nub (l_site <$> filter (λ r, is_success r = true) d) ∧
  ∀ l z, (l, z) ∈ slices f ↔
    (0 < z)%Z ∧
    z = Z.of_nat (length (filter (λ r, l_site r = l ∧ is_success r = true) d)).
Proof.
  intros Hd Hf. split; [|intros l z; by apply (pie_all_slice df d)].
  rewrite (pie_all_figure _ _ Hd) in Hf. injection Hf as <-.
  rewrite slices_names, <- list_fmap_compose. apply tally_fst.
Qed.

Lemma pie_all_slices_witness :
  (slices (PieFig [PStr "A"; PStr "B"] None pie_all_title)).*1
  = nub (l_site <$> filter (λ r, is_success r = true) example_launches) ∧
  ∀ l z, (l, z) ∈ slices (PieFig [PStr "A"; PStr "B"] None pie_all_title) ↔
    (0 < z)%Z ∧
    z = Z.of_nat (length (filter (λ r, l_site r = l ∧ is_success r = true)
                            example_launches)).
Proof.
  apply (pie_all_slices example_df example_launches);
    [apply represents_frame_of | reflexivity].
Defined.

End pie_all.

(** ** A site view *)

Section pie_site.
Implicit Types (df : DataFrame) (d : list launch) (f : figure) (v l : pyval).

(** The figure of a site view: the table of outcome counts of the site's
    launches, labels in one column and counts in the other. *)
Lemma pie_site_figure df d v :
  py_eq v (PStr "ALL") = false → represents df d →
  get_pie_chart df v
  = Ok (PieFig (site_outcomes v d).*1
          (Some ((λ n, PInt (Z.of_nat n)) <$> (site_outcomes v d).*2))
          (pie_site_title v)).
Proof.
  intros Hv (Hp & Hs & Hc & Hb). unfold get_pie_chart. rewrite Hv, Hs. simpl.
  unfold status_counts. rewrite df_get_take, Hc. simpl.
  rewrite series_eq_site, select_fmap, select_fmap_filter, series_map_status,
    <- list_fmap_compose.
  done.
Qed.

Lemma pie_site_slices df d v f :
  py_eq v (PStr "ALL") = false → represents df d →
  get_pie_chart df v = Ok f → slices f = prod_map id Z.of_nat <$> site_outcomes v d.
Proof.
  intros Hv Hd. rewrite (pie_site_figure _ _ _ Hv Hd). intros [= <-].
  apply slices_counts, value_counts_keys_NoDup.
Qed.

Lemma elem_of_site_outcomes v d l n :
  (l, n) ∈ site_outcomes v d ↔
  0 < n ∧ isna l = false ∧
  n = length (filter (λ r, status_label (l_class r) = l ∧ at_site v r = true) d).
Proof.
  unfold site_outcomes. rewrite elem_of_value_counts, count_occ_of_fmap.
  rewrite list_filter_filter. split.
  - intros (Hin & Hl & ->). split; [|done].
    apply list_elem_of_fmap in Hin as (r & -> & [??]%list_elem_of_filter).
    by apply (length_filter_pos_elem (λ r', _ ∧ _)) with r.
  - intros (Hn & Hl & ->). split; [|done].
    apply length_pos_elem in Hn as [r [[<- ?] ?]%list_elem_of_filter].
    apply list_elem_of_fmap. exists r. split; [done |].
    by apply list_elem_of_filter.
Qed.

Lemma site_outcomes_Z v d l z :
  isna l = false →
  (l, z) ∈ prod_map id Z.of_nat <$> site_outcomes v d ↔
  (0 < z)%Z ∧
  z = Z.of_nat (length (filter (λ r, status_label (l_class r) = l
                                     ∧ at_site v r = true) d)).
Proof.
  intros Hl. rewrite elem_of_Z_counts. split.
  - intros (n & (Hn & _ & ->)%elem_of_site_outcomes & ->). lia.
  - intros [Hz ->]. eexists. split; [|done].
    apply elem_of_site_outcomes. repeat split; [lia | done].
Qed.

(** The counts of the table add up to the site's launches of class 0 or 1. *)
Lemma site_outcomes_total v d :
  sum_listZ (prod_map id Z.of_nat <$> site_outcomes v d).*2
  = Z.of_nat (length (filter (λ r, (is_success r = true ∨ is_failure r = true)
                                    ∧ at_site v r = true) d)).
Proof.
  rewrite <- list_fmap_compose.
  change (snd ∘ _) with (Z.of_nat ∘ (snd : pyval * nat → nat)).
  rewrite list_fmap_compose, sum_listZ_of_nat. f_equal.
  unfold site_outcomes. rewrite value_counts_sum, filter_fmap, length_fmap.
  rewrite list_filter_filter. f_equal. apply list_filter_iff.
  intros r. simpl. by rewrite status_label_notna.
Qed.

(** The table handed to the chart builder on a site view is a
    well-formed frame with exactly the columns [status] and [count],
    whatever names [reset_index] gave them: the labels of the outcome counts
    and their sizes. *)
Lemma status_counts_frame df cls :
  df_get df CLASS = Ok cls →
  ∃ c, status_counts df = Ok c ∧ df_wf c ∧
       columns c = ["status"; "count"]%string ∧
       df_get c "status" = Ok (value_counts (status_label <$> cls)).*1 ∧
       df_get c "count"
       = Ok ((λ n, PInt (Z.of_nat n)) <$> (value_counts (status_label <$> cls)).*2).
Proof.
  intros Hcls. unfold status_counts. rewrite Hcls. simpl.
  rewrite series_map_status, set_columns_reset_index.
  eexists. split; [done |]. split; [|done].
  eapply set_columns_wf; [| by apply (reset_index_wf CLASS)
                          | apply set_columns_reset_index].
  apply NoDup_cons. split; [set_solver | apply NoDup_singleton].
Qed.

Lemma status_counts_frame_witness :
  ∃ c, status_counts example_df = Ok c ∧ df_wf c ∧
       columns c = ["status"; "count"]%string ∧
       df_get c "status"
       = Ok (value_counts (status_label <$> [PInt 1; PInt 0; PInt 1])).*1 ∧
       df_get c "count"
       = Ok ((λ n, PInt (Z.of_nat n))
               <$> (value_counts (status_label <$> [PInt 1; PInt 0; PInt 1])).*2).
Proof. apply (status_counts_frame example_df). reflexivity. Defined.

(** C26. On a site view every slice is labelled ['Success'] or
    ['Failure']. *)
Theorem pie_site_labels df d v f l z :
  py_eq v (PStr "ALL") = false → represents df d →
  get_pie_chart df v = Ok f → (l, z) ∈ slices f →
  l = PStr "Success" ∨ l = PStr "Failure".
Proof.
  intros Hv Hd Hf. rewrite (pie_site_slices _ _ _ _ Hv Hd Hf).
  intros ([l' n] & [= -> ->] & Hin)%list_elem_of_fmap.
  apply elem_of_value_counts in Hin as (Hin & Hna & _).
  apply list_elem_of_fmap in Hin as (r & -> & _). simpl in *.
  destruct (status_label_cases (l_class r)) as [?|[?|E]]; auto.
  by rewrite E in Hna.
Qed.

Lemma pie_site_labels_witness :
  PStr "Failure" = PStr "Success" ∨ PStr "Failure" = PStr "Failure".
Proof.
  apply (pie_site_labels example_df example_launches (PStr "A")
           (PieFig [PStr "Success"; PStr "Failure"] (Some [PInt 1; PInt 1])
              (pie_site_title (PStr "A")))
           (PStr "Failure") 1%Z);
    [reflexivity | apply represents_frame_of | reflexivity |].
  right. left.
Defined.

(** The ['Success'] slice of a site view. *)
Lemma pie_site_success df d v f z :
  py_eq v (PStr "ALL") = false → represents df d →
  get_pie_chart df v = Ok f →
  (PStr "Success", z) ∈ slices f ↔
    (0 < z)%Z ∧
    z = Z.of_nat (length (filter (λ r, is_success r = true ∧ at_site v r = true) d)).
Proof.
  intros Hv Hd Hf.
  rewrite (pie_site_slices _ _ _ _ Hv Hd Hf), site_outcomes_Z by done.
  erewrite list_filter_iff; [done |]. intros r. simpl.
  by rewrite status_label_success.
Qed.

(** C3. On a site view the ['Success'] slice is sized by the number of the
    site's launches with [class == 1], the ['Failure'] slice by the number
    with [class == 0], and a slice is absent exactly when that number is
    zero. *)
Theorem pie_site_counts df d v f z :
  py_eq v (PStr "ALL") = false → represents df d →
  get_pie_chart df v = Ok f →
  ((PStr "Success", z) ∈ slices f ↔
     (0 < z)%Z ∧
     z = Z.of_nat (length (filter (λ r, is_success r = true ∧ at_site v r = true) d)))
  ∧
  ((PStr "Failure", z) ∈ slices f ↔
     (0 < z)%Z ∧
     z = Z.of_nat (length (filter (λ r, is_failure r = true ∧ at_site v r = true) d))).
Proof.
  intros Hv Hd Hf. split; [by apply (pie_site_success df) |].
  rewrite (pie_site_slices _ _ _ _ Hv Hd Hf), site_outcomes_Z by done.
  erewrite list_filter_iff; [done |]. intros r. simpl.
  by rewrite status_label_failure.
Qed.

Lemma pie_site_counts_witness :
  let f := PieFig [PStr "Success"; PStr "Failure"] (Some [PInt 1; PInt 1])
             (pie_site_title (PStr "A")) in
  ((PStr "Success", 1%Z) ∈ slices f ↔
     (0 < 1)%Z ∧
     1%Z = Z.of_nat (length (filter (λ r, is_success r = true
                                          ∧ at_site (PStr "A") r = true)
                               example_launches)))
  ∧
  ((PStr "Failure", 1%Z) ∈ slices f ↔
     (0 < 1)%Z ∧
     1%Z = Z.of_nat (length (filter (λ r, is_failure r = true
                                          ∧ at_site (PStr "A") r = true)
                               example_launches))).
Proof.
  apply (pie_site_counts example_df example_launches (PStr "A"));
    [reflexivity | apply represents_frame_of | reflexivity].
Defined.

(** C12. On a site view the slices add up to the number of the site's
    launches whose class is 0 or 1. *)
Theorem pie_site_total df d v f :
  py_eq v (PStr "ALL") = false → represents df d →
  get_pie_chart df v = Ok f →
  sum_listZ (slices f).*2
  = Z.of_nat (length (filter (λ r, (is_success r = true ∨ is_failure r = true)
                                    ∧ at_site v r = true) d)).
Proof.
  intros Hv Hd Hf. rewrite (pie_site_slices _ _ _ _ Hv Hd Hf).
  apply site_outcomes_total.
Qed.

Lemma pie_site_total_witness :
  sum_listZ (slices (PieFig [PStr "Success"; PStr "Failure"]
                       (Some [PInt 1; PInt 1]) (pie_site_title (PStr "A")))).*2
  = Z.of_nat (length (filter (λ r, (is_success r = true ∨ is_failure r = true)
                                    ∧ at_site (PStr "A") r = true)
                        example_launches)).
Proof.
  apply (pie_site_total example_df example_launches (PStr "A"));
    [reflexivity | apply represents_frame_of | reflexivity].
Defined.

(** When every outcome class is 0 or 1, the slices of a site view add up
    to the number of launches at the site. *)
Lemma pie_site_total_binary df d v f :
  binary_class d →
  py_eq v (PStr "ALL") = false → represents df d →
  get_pie_chart df v = Ok f →
  sum_listZ (slices f).*2
  = Z.of_nat (length (filter (λ r, at_site v r = true) d)).
Proof.
  intros Hbin Hv Hd Hf.
  rewrite (pie_site_slices _ _ _ _ Hv Hd Hf), site_outcomes_total.
  do 2 f_equal. apply list_filter_iff_elem. intros r Hr.
  unfold binary_class in Hbin. rewrite Forall_forall in Hbin. naive_solver.
Qed.

Lemma pie_site_total_binary_witness :
  sum_listZ (slices (PieFig [PStr "Success"; PStr "Failure"]
                       (Some [PInt 1; PInt 1]) (pie_site_title (PStr "A")))).*2
  = Z.of_nat (length (filter (λ r, at_site (PStr "A") r = true) example_launches)).
Proof.
  apply (pie_site_total_binary example_df example_launches (PStr "A"));
    [|reflexivity | apply represents_frame_of | reflexivity].
  repeat constructor; by (left + right).
Defined.

(** C13. A launch at the selected site whose class is neither 0 nor 1 is left
    out of the chart: the slices then add up to fewer than the site's
    launches. *)
Theorem pie_site_drops_other df d v f r :
  py_eq v (PStr "ALL") = false → represents df d →
  get_pie_chart df v = Ok f →
  r ∈ d → at_site v r = true → is_success r = false → is_failure r = false →
  (sum_listZ (slices f).*2
   < Z.of_nat (length (filter (λ r, at_site v r = true) d)))%Z.
Proof.
  intros Hv Hd Hf Hr Hs H1 H0.
  rewrite (pie_site_slices _ _ _ _ Hv Hd Hf), site_outcomes_total.
  apply inj_lt. rewrite <- list_filter_filter.
  apply length_filter_lt with r; [by apply list_elem_of_filter |].
  intros [?|?]; congruence.
Qed.

Lemma pie_site_drops_other_witness :
  (sum_listZ (slices (PieFig [PStr "Success"; PStr "Failure"]
                        (Some [PInt 1; PInt 1]) (pie_site_title (PStr "A")))).*2
   < Z.of_nat (length (filter (λ r, at_site (PStr "A") r = true) odd_launches)))%Z.
Proof.
  apply (pie_site_drops_other odd_df odd_launches (PStr "A") _
           (mkLaunch (PFloat (qc 7 2)) (PStr "A") (PInt 2) (PStr "B2")));
    [reflexivity | apply represents_frame_of | reflexivity | | reflexivity..].
  right. left.
Defined.

(** C36. On a site view the slices come in descending order of size. *)
Theorem pie_site_sorted df d v f :
  py_eq v (PStr "ALL") = false → represents df d →
  get_pie_chart df v = Ok f →
  StronglySorted (λ a b, (b.2 ≤ a.2)%Z) (slices f).
Proof.
  intros Hv Hd Hf. rewrite (pie_site_slices _ _ _ _ Hv Hd Hf).
  eapply StronglySorted_fmap; [|apply value_counts_sorted].
  intros [??] [??]. unfold count_ge. simpl. lia.
Qed.

Lemma pie_site_sorted_witness :
  StronglySorted (λ a b, (b.2 ≤ a.2)%Z)
    (slices (PieFig [PStr "Success"; PStr "Failure"] (Some [PInt 1; PInt 1])
               (pie_site_title (PStr "A")))).
Proof.
  apply (pie_site_sorted example_df example_launches (PStr "A"));
    [reflexivity | apply represents_frame_of | reflexivity].
Defined.

(** C27. When no launch is at the selected site the callback still returns a
    chart, and the chart has no slice. *)
Theorem pie_site_empty df d v :
  py_eq v (PStr "ALL") = false → represents df d →
  (∀ r, r ∈ d → at_site v r = false) →
  get_pie_chart df v = Ok (PieFig [] (Some []) (pie_site_title v)).
Proof.
  intros Hv Hd Hnone. rewrite (pie_site_figure _ _ _ Hv Hd).
  unfold site_outcomes. rewrite filter_none; [done |].
  intros r Hr. by rewrite (Hnone r Hr).
Qed.

Lemma pie_site_empty_witness :
  get_pie_chart example_df PNone = Ok (PieFig [] (Some []) (pie_site_title PNone)).
Proof.
  apply (pie_site_empty example_df example_launches PNone);
    [reflexivity | apply represents_frame_of |].
  intros [p s c b] _. by destruct s.
Defined.

End pie_site.

(** ** Exceptions *)

Section pie_errors.
Implicit Types (df : DataFrame) (v : pyval) (e : pyexc).

Lemma df_get_cases df name :
  (∃ s, df_get df name = Ok s ∧ has_column df name = true)
  ∨ (df_get df name = Err (KeyError name) ∧ has_column df name = false).
Proof.
  rewrite <- df_get_has_column. unfold df_get.
  destruct (col_lookup _ _); simpl; eauto.
Qed.

(** The outcome of the callback by the columns the frame has. *)
Lemma get_pie_chart_cases df v :
  match has_column df CLASS, has_column df SITE with
  | true, true => ∃ f, get_pie_chart df v = Ok f
  | true, false =>
      get_pie_chart df v
      = Err (if py_eq v (PStr "ALL") then ValueError else KeyError SITE)
  | false, true => get_pie_chart df v = Err (KeyError CLASS)
  | false, false =>
      get_pie_chart df v
      = Err (KeyError (if py_eq v (PStr "ALL") then CLASS else SITE))
  end.
Proof.
  unfold get_pie_chart, status_counts, px_pie.
  destruct (df_get_cases df CLASS) as [(cls & Hc & ->)|[Hc ->]],
    (df_get_cases df SITE) as [(sites & Hs & ->)|[Hs ->]],
    (py_eq v (PStr "ALL")); simpl;
    rewrite ?Hc, ?Hs; simpl; rewrite ?df_get_take, ?px_col_take, ?Hc; simpl;
    eauto.
  - rewrite (px_col_of_get _ _ _ Hs). simpl. eauto.
  - by rewrite (px_col_of_get_Err _ _ _ Hs).
Qed.

(** C30. With ['ALL'] selected the callback raises [KeyError] when the frame
    has no [class] column, and [ValueError] (from the chart builder) when it
    has that column but no [Launch Site] column. *)
Theorem pie_all_errors df :
  (has_column df CLASS = false →
   get_pie_chart df (PStr "ALL") = Err (KeyError CLASS)) ∧
  (has_column df CLASS = true → has_column df SITE = false →
   get_pie_chart df (PStr "ALL") = Err ValueError).
Proof.
  pose proof (get_pie_chart_cases df (PStr "ALL")) as H.
  split; [intros Hc | intros Hc Hs; rewrite Hs in H]; rewrite Hc in H;
    [by destruct (has_column df SITE) | done].
Qed.

Lemma pie_all_errors_witness :
  get_pie_chart (mkDF [(SITE, [PStr "A"])]) (PStr "ALL") = Err (KeyError CLASS) ∧
  get_pie_chart (mkDF [(CLASS, [PInt 1])]) (PStr "ALL") = Err ValueError.
Proof.
  split.
  - apply (pie_all_errors (mkDF [(SITE, [PStr "A"])])). reflexivity.
  - apply (pie_all_errors (mkDF [(CLASS, [PInt 1])])); reflexivity.
Defined.

(** With a site selected the callback raises [KeyError] when the frame
    has no [Launch Site] column or no [class] column, in that order. *)
Lemma pie_site_errors df v :
  py_eq v (PStr "ALL") = false →
  (has_column df SITE = false → get_pie_chart df v = Err (KeyError SITE)) ∧
  (has_column df SITE = true → has_column df CLASS = false →
   get_pie_chart df v = Err (KeyError CLASS)).
Proof.
  intros Hv. pose proof (get_pie_chart_cases df v) as H. rewrite Hv in H.
  split; [intros Hs | intros Hs Hc; rewrite Hc in H]; rewrite Hs in H;
    [by destruct (has_column df CLASS) | done].
Qed.

Lemma pie_site_errors_witness :
  (has_column (mkDF []) SITE = false →
   get_pie_chart (mkDF []) (PStr "A") = Err (KeyError SITE)) ∧
  (has_column (mkDF []) SITE = true → has_column (mkDF []) CLASS = false →
   get_pie_chart (mkDF []) (PStr "A") = Err (KeyError CLASS)).
Proof. apply (pie_site_errors (mkDF []) (PStr "A")). reflexivity. Defined.

(** C23. The callback returns a chart exactly when the frame has both the
    [class] and the [Launch Site] columns, whatever is selected. *)
Theorem pie_ok_iff df v :
  is_ok (get_pie_chart df v) = has_column df CLASS && has_column df SITE.
Proof.
  pose proof (get_pie_chart_cases df v) as H.
  destruct (has_column df CLASS), (has_column df SITE);
    [destruct H as [f ->] | rewrite H..]; done.
Qed.

End pie_errors.

(** ** The two views *)

(** C18. The two views of the pie chart agree: the slice of a site on the
    all-sites view and the ['Success'] slice of the view of that site have
    the same size, and each is present exactly when the other is. *)
Theorem pie_views_agree df d (site : string) f g z :
  represents df d → site ≠ "ALL"%string →
  get_pie_chart df (PStr "ALL") = Ok f → get_pie_chart df (PStr site) = Ok g →
  (PStr site, z) ∈ slices f ↔ (PStr "Success", z) ∈ slices g.
Proof.
  intros Hd Hsite Hf Hg.
  rewrite (pie_all_slice df d f) by done.
  rewrite (pie_site_success df d (PStr site) g) by
    (try done; apply not_true_is_false; by intros [= ->]%py_eq_str).
  erewrite list_filter_iff; [done |]. intros r. simpl.
  rewrite at_site_str. tauto.
Qed.

Lemma pie_views_agree_witness :
  (PStr "A", 1%Z) ∈ slices (PieFig [PStr "A"; PStr "B"] None pie_all_title) ↔
  (PStr "Success", 1%Z)
    ∈ slices (PieFig [PStr "Success"; PStr "Failure"] (Some [PInt 1; PInt 1])
                (pie_site_title (PStr "A"))).
Proof.
  by apply (pie_views_agree example_df example_launches "A");
    [apply represents_frame_of | | |].
Defined.

(** ** The callback on records *)

(** The callback computes [compute_pie] of the records of the frame,
    whatever the selection. *)
Lemma get_pie_chart_records (df : DataFrame) (d : list launch) (v : pyval) :
  represents df d → get_pie_chart df v = Ok (compute_pie v d).
Proof.
  intros Hd. unfold compute_pie. destruct (py_eq v (PStr "ALL")) eqn:Hv.
  - apply py_eq_str in Hv as ->. by apply pie_all_figure.
  - by apply pie_site_figure.
Qed.

(** ** The order of the rows *)

Section pie_order.
Implicit Types (df : DataFrame) (d : list launch) (v : pyval) (f : figure).

(** C21. The pie charts do not depend on the order of the rows of the
    dataset: reordering the records permutes the slices (the order of the
    slices follows first appearance and, among equal counts, the order of the
    rows) and changes neither a label, nor a size, nor the title. *)
Theorem pie_row_order df df' d d' v f f' :
  represents df d → represents df' d' → d ≡ₚ d' →
  get_pie_chart df v = Ok f → get_pie_chart df' v = Ok f' →
  slices f ≡ₚ slices f' ∧ fig_title f = fig_title f'.
Proof.
  intros Hd Hd' Hperm. destruct (py_eq v (PStr "ALL")) eqn:Hv.
  - apply py_eq_str in Hv as ->.
    rewrite (pie_all_figure _ _ Hd), (pie_all_figure _ _ Hd').
    intros [= <-] [= <-]. split; [|done]. rewrite !slices_names. by rewrite Hperm.
  - intros Hf Hf'.
    rewrite (pie_site_slices _ _ _ _ Hv Hd Hf), (pie_site_slices _ _ _ _ Hv Hd' Hf').
    rewrite (pie_site_figure _ _ _ Hv Hd) in Hf.
    rewrite (pie_site_figure _ _ _ Hv Hd') in Hf'.
    injection Hf as <-. injection Hf' as <-. split; [|done].
    unfold site_outcomes. by rewrite Hperm.
Qed.

Lemma pie_row_order_witness :
  slices (PieFig [PStr "A"; PStr "B"] None pie_all_title)
  ≡ₚ slices (PieFig [PStr "B"; PStr "A"] None pie_all_title) ∧
  fig_title (PieFig [PStr "A"; PStr "B"] None pie_all_title)
  = fig_title (PieFig [PStr "B"; PStr "A"] None pie_all_title).
Proof.
  apply (pie_row_order (frame_of example_launches)
           (frame_of (reverse example_launches))
           example_launches (reverse example_launches) (PStr "ALL"));
    [apply represents_frame_of | apply represents_frame_of
     | by rewrite reverse_Permutation | reflexivity | reflexivity].
Defined.

End pie_order.
