(* ===== verification/Scatter.v ===== *)
(** * The scatter-chart callback

    [get_scatter_chart] (lines 111-143 of [src/spacex_dash_app.py]),
    registered on the site drop-down and on the payload slider.  The slider
    value arrives as a JSON array, here a list of scalars.
    [compute_scatter] is the result, chart or exception, as a function of the
    launch records the frame holds. *)

From S2P Require Import Prelude PyValue Frame Dataset Plotly.

(** [low, high = payload_range]: a sequence of exactly two values. *)
Definition unpack2 (payload_range : list pyval) : result (pyval * pyval) :=
  match payload_range with
  | [low; high] => Ok (low, high)
  | _ => Err ValueError
  end.

Definition scatter_missing_title : fstring :=
  [FLit "Payload Mass (kg) column missing"].

Definition scatter_all_title : fstring :=
  [FLit "Payload vs. Launch Outcome for All Sites"].

Definition scatter_site_title (entered_site : pyval) : fstring :=
  [FLit "Payload vs. Launch Outcome for site "; FVal entered_site].

(** [(df[P] >= low) & (df[P] <= high)]: the left comparison is evaluated
    first. *)
Definition payload_mask (spacex_df : DataFrame) (low high : pyval) : result (list bool) :=
  p1 ← df_get spacex_df PAYLOAD;
  m1 ← series_ge p1 low;
  p2 ← df_get spacex_df PAYLOAD;
  m2 ← series_le p2 high;
  Ok (mask_and m1 m2).

(** The frame after the interval filter (lines 120-125): the whole frame when
    either bound is not a number. *)
Definition filter_by_payload (spacex_df : DataFrame) (low high : pyval) : result DataFrame :=
  if negb (is_number low && is_number high) then Ok (df_copy spacex_df)
  else m ← payload_mask spacex_df low high; Ok (df_take spacex_df m).

(** The callback. *)
Definition get_scatter_chart (spacex_df : DataFrame) (entered_site : pyval)
    (payload_range : list pyval) : result figure :=
  '(low, high) ← unpack2 payload_range;
  if negb (has_column spacex_df PAYLOAD) then
    Ok (px_scatter_empty scatter_missing_title)
  else
    current_filtered_df ← filter_by_payload spacex_df low high;
    if py_eq entered_site (PStr "ALL") then
      px_scatter current_filtered_df PAYLOAD CLASS BOOSTER scatter_all_title
    else
      site ← df_get current_filtered_df SITE;
      let site_filtered_df :=
        df_take current_filtered_df (series_eq site entered_site) in
      px_scatter site_filtered_df PAYLOAD CLASS BOOSTER
        (scatter_site_title entered_site).

(** The point a record is plotted as: payload against outcome, coloured by
    booster category. *)
Definition point_of (r : launch) : point :=
  mkPoint (l_payload r) (l_class r) (l_booster r).

(** The payload of a record lies in the closed interval [low, high]. *)
Definition in_range (low high : pyval) (r : launch) : bool :=
  num_leb low (l_payload r) && num_leb (l_payload r) high.

(** The records a valid interval and a selection keep. *)
Definition selected (v low high : pyval) (d : list launch) : list launch :=
  let kept := filter (λ r, in_range low high r = true) d in
  if py_eq v (PStr "ALL") then kept
  else filter (λ r, at_site v r = true) kept.

(** The payload cells can be compared with the bounds: no cell is text, or
    both bounds are [nan] (a missing cell or bound is never compared). *)
Definition comparable (low high : pyval) (d : list launch) : Prop :=
  Forall (λ r, is_str (l_payload r) = false) d ∨
  (isna low = true ∧ isna high = true).

#[global] Instance comparable_dec low high d : Decision (comparable low high d).
Proof. unfold comparable. apply _. Defined.

(** The callback on launch records, on every branch: a slider value that is
    not a pair raises first; a bound that is not a number switches the
    interval filter off; with valid bounds the comparison raises on a text
    payload cell, unless both bounds are [nan]. *)
Definition compute_scatter (v : pyval) (payload_range : list pyval)
    (d : list launch) : result figure :=
  '(low, high) ← unpack2 payload_range;
  let title := if py_eq v (PStr "ALL") then scatter_all_title
               else scatter_site_title v in
  if negb (is_number low && is_number high) then
    Ok (ScatterFig
          (point_of <$> (if py_eq v (PStr "ALL") then d
                         else filter (λ r, at_site v r = true) d)) title)
  else if bool_decide (comparable low high d) then
    Ok (ScatterFig (point_of <$> selected v low high d) title)
  else Err TypeError.

(** ** The steps of the callback on records *)

Section scatter_steps.
Implicit Types (df : DataFrame) (d : list launch) (r : launch).
Implicit Types (v low high : pyval) (f : figure) (t : fstring).

Lemma zip_points d :
  zip_with (λ a bc, mkPoint a bc.1 bc.2) (l_payload <$> d)
    (zip (l_class <$> d) (l_booster <$> d))
  = point_of <$> d.
Proof. induction d as [|r d IH]; csimpl; [done | by rewrite IH]. Qed.

Lemma represents_has_payload df d : represents df d → has_column df PAYLOAD = true.
Proof. intros (Hp & _). by rewrite <- df_get_has_column, Hp. Qed.

Lemma px_scatter_represents df d t :
  represents df d →
  px_scatter df PAYLOAD CLASS BOOSTER t = Ok (ScatterFig (point_of <$> d) t).
Proof.
  intros (Hp & Hs & Hc & Hb). unfold px_scatter.
  rewrite (px_col_of_get _ _ _ Hp), (px_col_of_get _ _ _ Hc),
    (px_col_of_get _ _ _ Hb). simpl. by rewrite zip_points.
Qed.

Lemma numeric_comparable low high d : numeric_payload d → comparable low high d.
Proof.
  intros Hnum. left. eapply Forall_impl; [exact Hnum |].
  intros r Hr. simpl in Hr. by destruct (l_payload r).
Qed.

Lemma comparable_cells (low : pyval) d :
  Forall (λ r, is_str (l_payload r) = false) d →
  isna low = true ∨ Forall (λ c, is_str c = false) (l_payload <$> d).
Proof. intros H. right. by apply Forall_fmap. Qed.

Lemma payload_mask_represents df d low high :
  represents df d → is_number low = true → is_number high = true →
  comparable low high d →
  payload_mask df low high = Ok (in_range low high <$> d).
Proof.
  intros (Hp & _) Hlo Hhi Hcmp. unfold payload_mask. rewrite Hp. simpl.
  assert (∀ b : pyval, b = low ∨ b = high →
    isna b = true ∨ Forall (λ c, is_str c = false) (l_payload <$> d)) as Hq.
  { intros b Hb. destruct Hcmp as [?|[? ?]]; [by apply comparable_cells |].
    left. by destruct Hb as [-> | ->]. }
  rewrite series_ge_quiet, series_le_quiet by auto.
  simpl. rewrite <- !list_fmap_compose. by rewrite mask_and_fmap.
Qed.

Lemma filter_by_payload_valid df d low high :
  represents df d → is_number low = true → is_number high = true →
  comparable low high d →
  ∃ df', filter_by_payload df low high = Ok df' ∧
         represents df' (filter (λ r, in_range low high r = true) d).
Proof.
  intros Hd Hlo Hhi Hcmp. unfold filter_by_payload. rewrite Hlo, Hhi. simpl.
  rewrite (payload_mask_represents _ d) by done. simpl.
  eexists. split; [done |]. by apply represents_take.
Qed.

(** A text cell makes a comparison of a valid interval raise: the first one
    when the lower bound is not [nan], the second one otherwise. *)
Lemma filter_by_payload_type_error df d low high r :
  represents df d → is_number low = true → is_number high = true →
  notna low = true ∨ notna high = true →
  r ∈ d → is_str (l_payload r) = true →
  filter_by_payload df low high = Err TypeError.
Proof.
  intros (Hp & _) Hlo Hhi Hna Hr Hbad. unfold filter_by_payload, payload_mask.
  rewrite Hlo, Hhi, Hp. simpl.
  apply list_elem_of_fmap_2 with (f := l_payload) in Hr.
  destruct (notna low) eqn:Elo.
  - by rewrite (proj1 (series_cmp_text _ low _ Hlo Elo Hr Hbad)).
  - destruct Hna as [?|Hna]; [done |].
    rewrite series_ge_quiet by (try done; left; by apply negb_false_iff).
    simpl. by rewrite (proj2 (series_cmp_text _ high _ Hhi Hna Hr Hbad)).
Qed.

Lemma filter_by_payload_invalid df low high :
  is_number low && is_number high = false →
  filter_by_payload df low high = Ok df.
Proof. intros H. unfold filter_by_payload. by rewrite H. Qed.

(** The chart of a frame that holds the records [d], whatever came before. *)
Lemma scatter_of_records df d v :
  represents df d →
  (if py_eq v (PStr "ALL") then
     px_scatter df PAYLOAD CLASS BOOSTER scatter_all_title
   else
     site ← df_get df SITE;
     px_scatter (df_take df (series_eq site v)) PAYLOAD CLASS BOOSTER
       (scatter_site_title v))
  = Ok (ScatterFig
          (point_of <$> (if py_eq v (PStr "ALL") then d
                         else filter (λ r, at_site v r = true) d))
          (if py_eq v (PStr "ALL") then scatter_all_title
           else scatter_site_title v)).
Proof.
  intros Hd. destruct (py_eq v (PStr "ALL")).
  - by apply px_scatter_represents.
  - pose proof Hd as (Hp & Hs & Hc & Hb). rewrite Hs. simpl.
    rewrite series_eq_site. by apply px_scatter_represents, represents_take.
Qed.

(** The figure for a valid interval: one point per selected record. *)
Lemma scatter_figure_comparable df d v low high :
  represents df d → is_number low = true → is_number high = true →
  comparable low high d →
  get_scatter_chart df v [low; high]
  = Ok (ScatterFig (point_of <$> selected v low high d)
          (if py_eq v (PStr "ALL") then scatter_all_title
           else scatter_site_title v)).
Proof.
  intros Hd Hlo Hhi Hcmp. unfold get_scatter_chart. simpl.
  rewrite (represents_has_payload _ _ Hd). simpl.
  destruct (filter_by_payload_valid _ _ _ _ Hd Hlo Hhi Hcmp) as (df' & -> & Hd').
  simpl. rewrite (scatter_of_records _ _ _ Hd'). unfold selected.
  by destruct (py_eq v (PStr "ALL")).
Qed.

Lemma scatter_figure df d v low high :
  represents df d → is_number low = true → is_number high = true →
  numeric_payload d →
  get_scatter_chart df v [low; high]
  = Ok (ScatterFig (point_of <$> selected v low high d)
          (if py_eq v (PStr "ALL") then scatter_all_title
           else scatter_site_title v)).
Proof. intros. by apply scatter_figure_comparable, numeric_comparable. Qed.

(** What is left when the cells cannot be compared: a text cell, and a bound
    that is not [nan]. *)
Lemma not_comparable low high d :
  ¬ comparable low high d →
  (∃ r, r ∈ d ∧ is_str (l_payload r) = true) ∧
  (notna low = true ∨ notna high = true).
Proof.
  intros Hcmp. split.
  - destruct (decide (Forall (λ r, is_str (l_payload r) = false) d)) as [?|Hn];
      [by destruct Hcmp; left |].
    apply not_Forall_Exists, Exists_exists in Hn as (r & Hr & Hbad); [|apply _].
    exists r. split; [done | by apply not_false_is_true].
  - unfold notna. destruct (isna low) eqn:?, (isna high) eqn:?; auto.
    by destruct Hcmp; right.
Qed.

(** The figure for an interval with a bound that is not a number: the
    records are not filtered by payload. *)
Lemma scatter_figure_invalid df d v low high :
  represents df d → is_number low && is_number high = false →
  get_scatter_chart df v [low; high]
  = Ok (ScatterFig
          (point_of <$> (if py_eq v (PStr "ALL") then d
                         else filter (λ r, at_site v r = true) d))
          (if py_eq v (PStr "ALL") then scatter_all_title
           else scatter_site_title v)).
Proof.
  intros Hd Hbad. unfold get_scatter_chart. simpl.
  rewrite (represents_has_payload _ _ Hd).
  simpl. rewrite filter_by_payload_invalid by done. simpl.
  by apply scatter_of_records.
Qed.

(** The callback computes [compute_scatter] of the records of the frame,
    whatever the selection and the slider value. *)
Lemma get_scatter_chart_records df d v (payload_range : list pyval) :
  represents df d →
  get_scatter_chart df v payload_range = compute_scatter v payload_range d.
Proof.
  intros Hd. destruct payload_range as [|low [|high [|? ?]]]; try done.
  unfold compute_scatter. simpl.
  destruct (is_number low && is_number high) eqn:E; simpl;
    [|by apply scatter_figure_invalid].
  apply andb_true_iff in E as [Hlo Hhi]. case_bool_decide as Hcmp.
  - by apply scatter_figure_comparable.
  - apply not_comparable in Hcmp as [(r & Hr & Hbad) Hna].
    unfold get_scatter_chart. simpl.
    rewrite (represents_has_payload _ _ Hd). simpl.
    by rewrite (filter_by_payload_type_error _ _ _ _ _ Hd Hlo Hhi Hna Hr Hbad).
Qed.

(** The views of one slider value: the all-sites view plots a part of the
    dataset, and the view of a site plots the records of that part at the
    site. *)
Lemma compute_scatter_views (payload_range : list pyval) d f :
  compute_scatter (PStr "ALL") payload_range d = Ok f →
  ∃ rs, rs ⊆ d ∧ fig_points f = point_of <$> rs ∧
    ∀ v, py_eq v (PStr "ALL") = false →
      compute_scatter v payload_range d
      = Ok (ScatterFig (point_of <$> filter (λ r, at_site v r = true) rs)
              (scatter_site_title v)).
Proof.
  destruct payload_range as [|low [|high [|? ?]]]; try done.
  unfold compute_scatter, selected. simpl.
  destruct (negb _); [|case_bool_decide; [|done]]; intros [= <-];
    eexists; (split; [|split; [done |]]);
    try (by intros v ->); [done | apply sublist_subseteq, sublist_filter].
Qed.

Lemma in_range_bounds low high r :
  in_range low high r = true ↔
  ∃ a x b, num_of low = Some a ∧ num_of (l_payload r) = Some x ∧
           num_of high = Some b ∧ (a ≤ x)%Qc ∧ (x ≤ b)%Qc.
Proof.
  unfold in_range. rewrite andb_true_iff, !num_leb_true. split.
  - intros [(a & x & ? & ? & ?) (x' & b & ? & ? & ?)]. simplify_eq.
    exists a, x, b. done.
  - intros (a & x & b & ? & ? & ? & ? & ?). split; eauto 6.
Qed.

Lemma elem_of_selected v low high d r :
  r ∈ selected v low high d ↔
  r ∈ d ∧ in_range low high r = true ∧
  (v = PStr "ALL" ∨ at_site v r = true).
Proof.
  unfold selected. destruct (py_eq v (PStr "ALL")) eqn:Hv.
  - apply py_eq_str in Hv as ->. rewrite list_elem_of_filter. naive_solver.
  - rewrite !list_elem_of_filter. split; [naive_solver |].
    intros (? & ? & [->|?]); [by rewrite py_eq_refl in Hv | done].
Qed.

Lemma selected_site_filter v low high d :
  py_eq v (PStr "ALL") = false →
  selected v low high d
  = filter (λ r, at_site v r = true) (selected (PStr "ALL") low high d).
Proof. intros Hv. unfold selected. by rewrite Hv. Qed.

End scatter_steps.

(** ** What the chart shows *)

Section scatter_claims.
Implicit Types (df : DataFrame) (d : list launch) (r : launch).
Implicit Types (v low high : pyval) (f : figure) (p : point).

(** A point of the chart for a valid interval is the point of a record in
    the interval. *)
Lemma scatter_point_record df d v low high f p :
  represents df d → is_number low = true → is_number high = true →
  numeric_payload d →
  get_scatter_chart df v [low; high] = Ok f → p ∈ fig_points f →
  ∃ r, r ∈ d ∧ p = point_of r ∧ in_range low high r = true.
Proof.
  intros Hd Hlo Hhi Hnum. rewrite (scatter_figure _ _ _ _ _ Hd Hlo Hhi Hnum).
  intros [= <-] (r & -> & (? & ? & _)%elem_of_selected)%list_elem_of_fmap.
  eauto.
Qed.

(** C1. For a valid interval the chart has exactly one point per record whose
    payload lies in the interval and, unless ['ALL'] is selected, whose site
    is the selected one. *)
Theorem scatter_points_exact df d v low high f p :
  represents df d → is_number low = true → is_number high = true →
  numeric_payload d →
  get_scatter_chart df v [low; high] = Ok f →
  p ∈ fig_points f ↔
  ∃ r, r ∈ d ∧ p = point_of r ∧ in_range low high r = true ∧
       (v = PStr "ALL" ∨ at_site v r = true).
Proof.
  intros Hd Hlo Hhi Hnum. rewrite (scatter_figure _ _ _ _ _ Hd Hlo Hhi Hnum).
  intros [= <-]. simpl. rewrite list_elem_of_fmap.
  setoid_rewrite elem_of_selected. naive_solver.
Qed.

Lemma scatter_points_exact_witness :
  let p := mkPoint (PInt 500) (PInt 0) (PStr "B2") in
  p ∈ [mkPoint (PInt 500) (PInt 1) (PStr "B1"); p] ↔
  ∃ r, r ∈ example_launches ∧ p = point_of r ∧
       in_range (PInt 0) (PInt 1000) r = true ∧
       (PStr "A" = PStr "ALL" ∨ at_site (PStr "A") r = true).
Proof.
  apply (scatter_points_exact example_df example_launches (PStr "A")
           (PInt 0) (PInt 1000)
           (ScatterFig _ (scatter_site_title (PStr "A"))));
    [apply represents_frame_of | reflexivity.. | | reflexivity].
  repeat constructor.
Defined.

(** C4. Every point of the chart has its payload within the selected
    interval, both bounds included. *)
Theorem scatter_in_range df d v low high f p :
  represents df d → is_number low = true → is_number high = true →
  numeric_payload d →
  get_scatter_chart df v [low; high] = Ok f →
  p ∈ fig_points f →
  ∃ a x b, num_of low = Some a ∧ num_of (pt_x p) = Some x ∧
           num_of high = Some b ∧ (a ≤ x)%Qc ∧ (x ≤ b)%Qc.
Proof.
  intros Hd Hlo Hhi Hnum Hf Hp.
  destruct (scatter_point_record _ _ _ _ _ _ _ Hd Hlo Hhi Hnum Hf Hp)
    as (r & _ & -> & Hr).
  by apply in_range_bounds.
Qed.

Lemma scatter_in_range_witness :
  ∃ a x b, num_of (PInt 0) = Some a ∧ num_of (PInt 500) = Some x ∧
           num_of (PInt 1000) = Some b ∧ (a ≤ x)%Qc ∧ (x ≤ b)%Qc.
Proof.
  apply (scatter_in_range example_df example_launches (PStr "ALL")
           (PInt 0) (PInt 1000)
           (ScatterFig [mkPoint (PInt 500) (PInt 1) (PStr "B1");
                        mkPoint (PInt 500) (PInt 0) (PStr "B2")]
              scatter_all_title)
           (mkPoint (PInt 500) (PInt 1) (PStr "B1")));
    [apply represents_frame_of | reflexivity.. | | reflexivity |].
  - repeat constructor.
  - left.
Defined.

(** C7. The points of a site view are among the points of the all-sites view
    for the same interval, in the same order, whatever the frame and the
    interval are. *)
Theorem scatter_site_subset df v (payload_range : list pyval) fa fs :
  get_scatter_chart df (PStr "ALL") payload_range = Ok fa →
  get_scatter_chart df v payload_range = Ok fs →
  fig_points fs `sublist_of` fig_points fa.
Proof.
  unfold get_scatter_chart. destruct (unpack2 payload_range) as [[lo hi]|];
    [|done]. simpl.
  destruct (negb (has_column df PAYLOAD)); [by intros [= <-] [= <-] |].
  destruct (filter_by_payload df lo hi) as [df'|]; [|done]. simpl.
  destruct (py_eq v (PStr "ALL")) eqn:Hv; [by intros -> [= <-] |].
  intros Ha. destruct (df_get df' SITE) as [site|]; [|done]. simpl.
  rewrite px_scatter_take, (px_scatter_retitle _ _ _ _ _ _ _ Ha).
  intros [= <-]. apply select_sublist.
Qed.

Lemma scatter_site_subset_witness :
  [mkPoint (PInt 9000) (PInt 1) (PStr "B1")]
  `sublist_of` point_of <$> example_launches.
Proof.
  apply (scatter_site_subset example_df (PStr "B") [PInt 0; PInt 10000]
           (ScatterFig _ scatter_all_title)
           (ScatterFig _ (scatter_site_title (PStr "B"))));
    reflexivity.
Defined.

(** C15. When a bound of the interval is not a number the chart shows every
    record (of the selected site), unfiltered by payload. *)
Theorem scatter_invalid_range df d v low high :
  represents df d → is_number low && is_number high = false →
  ∃ f, get_scatter_chart df v [low; high] = Ok f ∧
       fig_points f = point_of <$> (if py_eq v (PStr "ALL") then d
                                    else filter (λ r, at_site v r = true) d).
Proof.
  intros Hd Hbad. eexists. split; [by apply scatter_figure_invalid | done].
Qed.

Lemma scatter_invalid_range_witness :
  ∃ f, get_scatter_chart example_df (PStr "ALL") [PNone; PInt 10] = Ok f ∧
       fig_points f = point_of <$> example_launches.
Proof.
  apply (scatter_invalid_range example_df example_launches (PStr "ALL")
           PNone (PInt 10));
    [apply represents_frame_of | reflexivity].
Defined.

(** A slider value that is not a sequence of exactly two elements makes
    the callback raise [ValueError], before anything else is looked at. *)
Lemma scatter_unpack_error df v (payload_range : list pyval) :
  length payload_range ≠ 2 →
  get_scatter_chart df v payload_range = Err ValueError.
Proof.
  intros Hlen. unfold get_scatter_chart.
  by destruct payload_range as [|? [|? [|? ?]]].
Qed.

Lemma scatter_unpack_error_witness :
  get_scatter_chart example_df (PStr "ALL") [PInt 0] = Err ValueError.
Proof.
  apply (scatter_unpack_error example_df (PStr "ALL") [PInt 0]). simpl. lia.
Defined.

(** When the frame has no payload column the callback returns an empty
    chart titled "Payload Mass (kg) column missing", for every selection and
    every two-element interval. *)
Lemma scatter_missing_column df v low high :
  has_column df PAYLOAD = false →
  get_scatter_chart df v [low; high]
  = Ok (ScatterFig [] scatter_missing_title).
Proof. intros H. unfold get_scatter_chart. simpl. by rewrite H. Qed.

Lemma scatter_missing_column_witness :
  get_scatter_chart (mkDF []) (PStr "ALL") [PInt 0; PInt 1]
  = Ok (ScatterFig [] scatter_missing_title).
Proof.
  apply (scatter_missing_column (mkDF []) (PStr "ALL") (PInt 0) (PInt 1)).
  reflexivity.
Defined.

(** C16. With a valid interval of which a bound is not [nan], a text payload
    cell makes the callback raise [TypeError], whatever the other cells and
    the selected site: the comparison is not guarded. *)
Theorem scatter_type_error df d v low high r :
  represents df d → is_number low = true → is_number high = true →
  notna low = true ∨ notna high = true →
  r ∈ d → is_str (l_payload r) = true →
  get_scatter_chart df v [low; high] = Err TypeError.
Proof.
  intros Hd Hlo Hhi Hna Hr Hbad. unfold get_scatter_chart. simpl.
  rewrite (represents_has_payload _ _ Hd). simpl.
  by rewrite (filter_by_payload_type_error _ _ _ _ _ Hd Hlo Hhi Hna Hr Hbad).
Qed.

Lemma scatter_type_error_witness :
  get_scatter_chart
    (frame_of [mkLaunch (PStr "heavy") (PStr "A") (PInt 1) (PStr "B1")])
    (PStr "ALL") [PInt 0; PInt 1000]
  = Err TypeError.
Proof.
  apply (scatter_type_error _
           [mkLaunch (PStr "heavy") (PStr "A") (PInt 1) (PStr "B1")] _ _ _
           (mkLaunch (PStr "heavy") (PStr "A") (PInt 1) (PStr "B1")));
    [apply represents_frame_of | reflexivity.. | by left | left | reflexivity].
Defined.

(** C34. A record whose payload is [nan] is never plotted for a valid
    interval, however wide. *)
Theorem scatter_nan_dropped df d v low high f r :
  represents df d → is_number low = true → is_number high = true →
  numeric_payload d →
  get_scatter_chart df v [low; high] = Ok f →
  l_payload r = PNaN → point_of r ∉ fig_points f.
Proof.
  intros Hd Hlo Hhi Hnum Hf Hnan Hin.
  destruct (scatter_point_record _ _ _ _ _ _ _ Hd Hlo Hhi Hnum Hf Hin)
    as (r' & _ & Heq & (_ & x & _ & _ & Hx & _)%in_range_bounds).
  assert (l_payload r' = PNaN) as Hr' by (injection Heq; congruence).
  by rewrite Hr' in Hx.
Qed.

Lemma scatter_nan_dropped_witness :
  point_of (mkLaunch PNaN (PStr "A") (PInt 0) (PStr "B2"))
  ∉ [mkPoint (PInt 500) (PInt 1) (PStr "B1");
     mkPoint (PFloat (qc 7 2)) (PInt 2) (PStr "B2")].
Proof.
  apply (scatter_nan_dropped odd_df odd_launches (PStr "ALL")
           (PInt 0) (PInt 10000) (ScatterFig _ scatter_all_title));
    [apply represents_frame_of | reflexivity.. | | reflexivity | reflexivity].
  repeat constructor.
Defined.

(** C37. Missing payload cells do not make the callback fail: on a dataset
    without text payload cells, where a cell may be [None] or [nan], the
    callback returns a chart for every valid interval, and a record whose
    payload is missing is not plotted. *)
Theorem scatter_missing_cells df d v low high :
  represents df d → is_number low = true → is_number high = true →
  Forall (λ r, is_str (l_payload r) = false) d →
  ∃ f, get_scatter_chart df v [low; high] = Ok f ∧
    ∀ r, r ∈ d → isna (l_payload r) = true → point_of r ∉ fig_points f.
Proof.
  intros Hd Hlo Hhi Hcells.
  rewrite (scatter_figure_comparable _ d) by (try done; by left).
  eexists. split; [done |]. simpl.
  intros r _ Hna (r' & Heq & (_ & Hin & _)%elem_of_selected)%list_elem_of_fmap.
  apply in_range_bounds in Hin as (_ & x & _ & _ & Hx & _).
  assert (l_payload r' = l_payload r) as Hr' by (injection Heq; congruence).
  rewrite Hr' in Hx. by destruct (l_payload r).
Qed.

Lemma scatter_missing_cells_witness :
  ∃ f, get_scatter_chart
         (frame_of [mkLaunch PNone (PStr "A") (PInt 1) (PStr "B1");
                    mkLaunch (PInt 500) (PStr "A") (PInt 0) (PStr "B2")])
         (PStr "ALL") [PInt 0; PInt 1000] = Ok f ∧
    ∀ r, r ∈ [mkLaunch PNone (PStr "A") (PInt 1) (PStr "B1");
              mkLaunch (PInt 500) (PStr "A") (PInt 0) (PStr "B2")] →
      isna (l_payload r) = true → point_of r ∉ fig_points f.
Proof.
  apply (scatter_missing_cells _
           [mkLaunch PNone (PStr "A") (PInt 1) (PStr "B1");
            mkLaunch (PInt 500) (PStr "A") (PInt 0) (PStr "B2")]);
    [apply represents_frame_of | reflexivity.. | repeat constructor].
Defined.

(** C35. The chart depends on the bounds only through the numbers they
    denote: [True] is the bound 1, and [1.0] is the bound [1]. *)
Theorem scatter_bounds_by_value df d v low high low' high' :
  represents df d → numeric_payload d →
  is_Some (num_of low) → is_Some (num_of high) →
  num_of low = num_of low' → num_of high = num_of high' →
  get_scatter_chart df v [low; high] = get_scatter_chart df v [low'; high'].
Proof.
  intros Hd Hnum [a Ha] [b Hb] Hlo Hhi.
  rewrite !(scatter_figure _ d) by
    (try done; eapply num_of_is_number; (by rewrite <- ?Hlo, <- ?Hhi)).
  do 3 f_equal. unfold selected, in_range, num_leb.
  by rewrite <- Hlo, <- Hhi.
Qed.

Lemma scatter_bounds_by_value_witness :
  get_scatter_chart example_df (PStr "ALL") [PBool true; PInt 1000]
  = get_scatter_chart example_df (PStr "ALL") [PInt 1; PFloat (qc 1000 1)].
Proof.
  apply (scatter_bounds_by_value example_df example_launches);
    [apply represents_frame_of | repeat constructor | by eexists..
    | reflexivity | ].
  simpl. f_equal. by apply Qc_is_canon.
Defined.

(** When the upper bound is below the lower bound the chart is empty. *)
Lemma scatter_empty_interval df d v low high a b f :
  represents df d → numeric_payload d →
  num_of low = Some a → num_of high = Some b → (b < a)%Qc →
  get_scatter_chart df v [low; high] = Ok f → fig_points f = [].
Proof.
  intros Hd Hnum Ha Hb Hlt Hf.
  destruct (fig_points f) as [|p ps] eqn:E; [done |].
  assert (p ∈ fig_points f) as Hp by (rewrite E; left).
  apply (scatter_point_record df d v low high f) in Hp
    as (r & _ & _ & (a' & x & b' & ? & ? & ? & ? & ?)%in_range_bounds);
    try done; try by eapply num_of_is_number.
  simplify_eq. exfalso. eapply Qclt_not_le; [done |]. by etrans.
Qed.

Lemma scatter_empty_interval_witness :
  fig_points (ScatterFig [] scatter_all_title) = [].
Proof.
  apply (scatter_empty_interval example_df example_launches (PStr "ALL")
           (PInt 1000) (PInt 0) (Qc_of_Z 1000) (Qc_of_Z 0));
    [apply represents_frame_of | repeat constructor | reflexivity..].
Defined.

(** C33. Widening the interval only adds points. *)
Theorem scatter_monotone df d v low high low' high' f f' :
  represents df d → numeric_payload d →
  is_number low = true → is_number high = true →
  num_leb low' low = true → num_leb high high' = true →
  get_scatter_chart df v [low; high] = Ok f →
  get_scatter_chart df v [low'; high'] = Ok f' →
  fig_points f `sublist_of` fig_points f'.
Proof.
  intros Hd Hnum Hlo Hhi Hl Hh.
  assert (is_number low' = true ∧ is_number high' = true) as [Hlo' Hhi'].
  { apply num_leb_true in Hl as (? & ? & ? & ? & _).
    apply num_leb_true in Hh as (? & ? & ? & ? & _).
    split; by eapply num_of_is_number. }
  rewrite !(scatter_figure _ d) by done. intros [= <-] [= <-]. simpl.
  apply fmap_sublist. unfold selected.
  assert (∀ r, in_range low high r = true → in_range low' high' r = true) as Hin.
  { intros r. unfold in_range. rewrite !andb_true_iff.
    intros [??]. split; by eapply num_leb_trans. }
  assert (filter (λ r, in_range low high r = true) d
          `sublist_of` filter (λ r, in_range low' high' r = true) d) as Hsub.
  { rewrite <- (list_filter_filter_l _ (λ r, in_range low' high' r = true)) by done.
    apply sublist_filter. }
  destruct (py_eq v (PStr "ALL")); [done |]. by apply sublist_filter_mono.
Qed.

Lemma scatter_monotone_witness :
  [mkPoint (PInt 500) (PInt 1) (PStr "B1");
   mkPoint (PInt 500) (PInt 0) (PStr "B2")]
  `sublist_of` point_of <$> example_launches.
Proof.
  apply (scatter_monotone example_df example_launches (PStr "ALL")
           (PInt 0) (PInt 1000) (PInt 0) (PInt 10000)
           (ScatterFig _ scatter_all_title) (ScatterFig _ scatter_all_title));
    [apply represents_frame_of | repeat constructor | reflexivity..].
Defined.

(** The interval filter keeps the frame well formed: the same columns,
    all of one length, and no more rows than before. *)
Lemma filter_by_payload_wf df low high df' :
  df_wf df → filter_by_payload df low high = Ok df' →
  df_wf df' ∧ columns df' = columns df ∧ nrows df' ≤ nrows df.
Proof.
  intros Hwf. unfold filter_by_payload, df_copy.
  destruct (negb _); [by intros [= <-] |].
  destruct (payload_mask df low high) as [m|]; [|done]. simpl. intros [= <-].
  split; [|split]; auto with frame.
Qed.

Lemma filter_by_payload_wf_witness :
  df_wf (df_take example_df [true; true; false]) ∧
  columns (df_take example_df [true; true; false]) = columns example_df ∧
  nrows (df_take example_df [true; true; false]) ≤ nrows example_df.
Proof.
  apply (filter_by_payload_wf example_df (PInt 0) (PInt 1000));
    [apply frame_of_wf | reflexivity].
Defined.

(** On a frame that holds launch records with numeric payloads the
    callback returns a chart for every selection and every pair of bounds:
    no interaction with the page can make it raise. *)
Lemma scatter_total df d v low high :
  represents df d → numeric_payload d →
  is_ok (get_scatter_chart df v [low; high]) = true.
Proof.
  intros Hd Hnum. destruct (is_number low && is_number high) eqn:E.
  - apply andb_true_iff in E as [??]. by rewrite (scatter_figure _ d).
  - by rewrite (scatter_figure_invalid _ d).
Qed.

Lemma scatter_total_witness :
  is_ok (get_scatter_chart example_df (PStr "B") [PNone; PStr "x"]) = true.
Proof.
  apply (scatter_total example_df example_launches);
    [apply represents_frame_of | repeat constructor].
Defined.

(** C24. The outcome of the callback on a frame that holds launch records,
    for every selection and every slider value.  It returns a chart exactly
    when the slider value is a pair and either a bound is not a number (the
    filter is then off) or the payload cells can be compared with the bounds
    (none is text, or both bounds are [nan]); it raises [ValueError] exactly
    when the slider value is not a pair, and [TypeError] exactly when both
    bounds are numbers and the cells cannot be compared with them. *)
Theorem scatter_outcome df d v (payload_range : list pyval) :
  represents df d →
  (is_ok (get_scatter_chart df v payload_range) = true ↔
     ∃ low high, payload_range = [low; high] ∧
       (is_number low && is_number high = false ∨ comparable low high d)) ∧
  (get_scatter_chart df v payload_range = Err ValueError ↔
     length payload_range ≠ 2) ∧
  (get_scatter_chart df v payload_range = Err TypeError ↔
     ∃ low high, payload_range = [low; high] ∧
       is_number low && is_number high = true ∧ ¬ comparable low high d).
Proof.
  intros Hd. rewrite (get_scatter_chart_records _ d) by done.
  destruct payload_range as [|low [|high [|? ?]]]; try (simpl; naive_solver lia).
  unfold compute_scatter. simpl.
  destruct (is_number low && is_number high) eqn:E; simpl;
    [case_bool_decide |]; split_and!; split; try done;
    try (by eexists _, _; eauto);
    by intros (? & ? & [= <- <-] & ?); intuition congruence.
Qed.

Lemma scatter_outcome_witness :
  (is_ok (get_scatter_chart text_df (PStr "ALL") [PInt 0; PInt 1000]) = true ↔
     ∃ low high, [PInt 0; PInt 1000] = [low; high] ∧
       (is_number low && is_number high = false ∨
        comparable low high text_launches)) ∧
  (get_scatter_chart text_df (PStr "ALL") [PInt 0; PInt 1000] = Err ValueError ↔
     length [PInt 0; PInt 1000] ≠ 2) ∧
  (get_scatter_chart text_df (PStr "ALL") [PInt 0; PInt 1000] = Err TypeError ↔
     ∃ low high, [PInt 0; PInt 1000] = [low; high] ∧
       is_number low && is_number high = true ∧
       ¬ comparable low high text_launches).
Proof. apply (scatter_outcome text_df text_launches), represents_frame_of. Defined.

End scatter_claims.
