(* ===== verification/App.v ===== *)
(** * The program as a whole

    Start-up (lines 12-74) followed by the callbacks the host runs (lines
    76-143): the callbacks as closures over the module-level frame, what
    they can rely on once the module has loaded, and what the page shows
    first. *)

From S2P Require Import Prelude PyValue Frame Dataset Plotly Loader Layout Pie Scatter.

(** The callbacks as the host calls them (lines 80-81 and 110-111): the
    arguments are the values of the registered inputs, and the frame is the
    module-level [spacex_df]. *)
Definition pie_callback (data : module_data) (entered_site : pyval) : result figure :=
  get_pie_chart (spacex_df data) entered_site.

Definition scatter_callback (data : module_data) (entered_site : pyval)
    (payload_range : list pyval) : result figure :=
  get_scatter_chart (spacex_df data) entered_site payload_range.

(** The first call of each callback, with the initial values of the page:
    ['ALL'] and the initial value of the slider. *)
Definition initial_pie (data : module_data) : result figure :=
  pie_callback data (PStr "ALL").

Definition initial_scatter (data : module_data) : result figure :=
  scatter_callback data (PStr "ALL")
    (slider_value (min_payload data) (max_payload data)).

Section app.
Implicit Types (df : DataFrame) (d : list launch) (r : launch) (v : pyval).
Implicit Types (data : module_data) (page : component) (f : figure).

(** C10. Once start-up has succeeded, the missing-column guard of the scatter
    callback cannot fire: line 24 has already read the payload column of the
    same frame, so the "column missing" chart is never returned. *)
Theorem scatter_guard_unreachable read_csv data page v (payload_range : list pyval) f :
  startup read_csv = Ok (data, page) →
  scatter_callback data v payload_range = Ok f →
  fig_title f ≠ scatter_missing_title.
Proof.
  intros [Hp _]%startup_columns. unfold scatter_callback, get_scatter_chart.
  destruct (unpack2 payload_range) as [[lo hi]|]; [|done]. simpl.
  rewrite Hp. simpl.
  destruct (filter_by_payload _ lo hi) as [df'|]; [|done]. simpl.
  destruct (py_eq v (PStr "ALL")).
  - by intros ->%px_scatter_title.
  - destruct (df_get df' SITE); [|done]. simpl. by intros ->%px_scatter_title.
Qed.

Lemma scatter_guard_unreachable_witness :
  fig_title (ScatterFig [mkPoint (PInt 0) (PInt 0) (PStr "Default")]
               scatter_all_title)
  ≠ scatter_missing_title.
Proof.
  eapply (scatter_guard_unreachable (Err FileNotFoundError)
            (mkData fallback_df (PInt 0) (PInt 0) [missing_file_message])
            _ (PStr "ALL") [PInt 0; PInt 0]);
    reflexivity.
Defined.

(** Once start-up has succeeded, the pie callback returns a chart for
    every value of the drop-down exactly when the frame has a [class]
    column: the [Launch Site] column was already read to build the page. *)
Lemma pie_after_startup read_csv data page v :
  startup read_csv = Ok (data, page) →
  is_ok (pie_callback data v) = has_column (spacex_df data) CLASS.
Proof.
  intros [_ Hs]%startup_columns. unfold pie_callback.
  pose proof (get_pie_chart_cases (spacex_df data) v) as H. rewrite Hs in H.
  destruct (has_column (spacex_df data) CLASS); [destruct H as [f ->] | rewrite H];
    done.
Qed.

Lemma pie_after_startup_witness :
  is_ok (pie_callback (mkData fallback_df (PInt 0) (PInt 0) [missing_file_message])
           (PStr "Default"))
  = has_column fallback_df CLASS.
Proof.
  eapply (pie_after_startup (Err FileNotFoundError)
            (mkData fallback_df (PInt 0) (PInt 0) [missing_file_message])).
  reflexivity.
Defined.

Lemma num_notna v : is_Some (num_of v) → notna v = true.
Proof. intros [??]. by destruct v. Qed.

Lemma num_leb_is_num v c : num_leb v c = true ∨ num_leb c v = true → is_Some (num_of v).
Proof. intros [H|H]; apply num_leb_true in H as (? & ? & ? & ? & _); eauto. Qed.

(** A launch with a payload lies in the initial interval of the slider. *)
Lemma initial_in_range read_csv data d r :
  init_data read_csv = Ok data → represents (spacex_df data) d →
  r ∈ d → is_Some (num_of (l_payload r)) →
  in_range (if notna (min_payload data) then min_payload data else PInt 0)
    (if notna (max_payload data) then max_payload data else PInt 10000) r
  = true.
Proof.
  intros Hinit Hd Hr Hpay.
  destruct (init_data_num_leb _ _ _ _ Hinit Hd Hr Hpay) as [Hmin Hmax].
  rewrite !num_notna by (eapply num_leb_is_num; eauto).
  unfold in_range. by rewrite Hmin, Hmax.
Qed.

(** C14. The first scatter chart, drawn with the initial value of the slider,
    shows every launch that has a payload: the initial interval is the
    payload range of the dataset, so nothing is filtered out at first, even
    when that range lies outside the 0-10000 scale of the slider. *)
Theorem initial_scatter_complete read_csv data page d :
  startup read_csv = Ok (data, page) →
  represents (spacex_df data) d → numeric_payload d →
  ∃ f, initial_scatter data = Ok f ∧
       ∀ r, r ∈ d → is_Some (num_of (l_payload r)) → point_of r ∈ fig_points f.
Proof.
  intros [Hinit _]%startup_Ok Hd Hnum. unfold initial_scatter, scatter_callback.
  pose proof (slider_value_numbers _ _ _ Hinit Hd Hnum) as Hsl.
  unfold slider_value in *.
  apply Forall_cons in Hsl as [Hlo [Hhi _]%Forall_cons].
  rewrite (scatter_figure _ d) by done. eexists. split; [done |].
  intros r Hr Hpay. simpl. apply list_elem_of_fmap_2, elem_of_selected.
  rewrite (initial_in_range _ _ _ _ Hinit Hd Hr Hpay). auto.
Qed.

Lemma initial_scatter_complete_witness :
  ∃ f, initial_scatter (mkData example_df (PInt 9000) (PInt 500) []) = Ok f ∧
       ∀ r, r ∈ example_launches → is_Some (num_of (l_payload r)) →
            point_of r ∈ fig_points f.
Proof.
  eapply (initial_scatter_complete (Ok example_df) _ _ example_launches);
    [reflexivity | apply represents_frame_of | repeat constructor].
Defined.

(** C19. The sites the drop-down offers partition the all-sites scatter
    chart.  On a dataset whose sites are strings, none of them ['ALL'], take
    any slider value for which the all-sites view is a chart: the callback
    also returns a chart for every site option, and the points of the
    all-sites view are those of the site views together, each point in
    exactly one of them. *)
Theorem scatter_partition data d opts (payload_range : list pyval) f :
  represents (spacex_df data) d →
  Forall (λ r, is_str (l_site r) = true) d → PStr "ALL" ∉ l_site <$> d →
  site_options (spacex_df data) = Ok opts →
  scatter_callback data (PStr "ALL") payload_range = Ok f →
  ∃ fs, traverse (λ o, scatter_callback data (opt_value o) payload_range)
          (tail opts) = Ok fs ∧
        fig_points f ≡ₚ fs ≫= fig_points.
Proof.
  intros Hd Hstr Hall ->%(site_options_values _ d) Hf; [|done].
  unfold scatter_callback in *. simpl.
  rewrite (get_scatter_chart_records _ d) in Hf by done.
  destruct (compute_scatter_views _ _ _ Hf) as (rs & Hsub & -> & Hviews).
  eexists. split.
  - rewrite traverse_fmap. erewrite traverse_ext; [apply traverse_pure |].
    apply Forall_forall. intros s Hs. rewrite elem_of_nub in Hs. simpl.
    rewrite (get_scatter_chart_records _ d) by done. apply Hviews.
    apply not_true_is_false. by intros ->%py_eq_str.
  - rewrite list_fmap_bind, (site_partition rs d) at 1 by done.
    by rewrite fmap_bind_list.
Qed.

Lemma scatter_partition_witness :
  ∃ fs, traverse (λ o, scatter_callback example_data (opt_value o)
                         [PInt 0; PInt 10000])
          (tail example_options) = Ok fs ∧
        [mkPoint (PInt 500) (PInt 1) (PStr "B1");
         mkPoint (PInt 500) (PInt 0) (PStr "B2");
         mkPoint (PInt 9000) (PInt 1) (PStr "B1")] ≡ₚ fs ≫= fig_points.
Proof.
  apply (scatter_partition example_data example_launches example_options
           [PInt 0; PInt 10000] (ScatterFig _ scatter_all_title));
    [apply represents_frame_of | repeat constructor | | reflexivity..].
  apply (bool_decide_unpack _). by vm_compute.
Defined.

(** C20. The two charts of a site agree while the slider is on its initial
    interval.  On a dataset in which every launch has a payload and an
    outcome class of 0 or 1, the slices of the pie chart of a site add up to
    the number of points the scatter chart plots for that site. *)
Theorem charts_agree read_csv data page d v f g :
  startup read_csv = Ok (data, page) → represents (spacex_df data) d →
  Forall (λ r, is_Some (num_of (l_payload r))) d → binary_class d →
  py_eq v (PStr "ALL") = false →
  pie_callback data v = Ok f →
  scatter_callback data v
    (slider_value (min_payload data) (max_payload data)) = Ok g →
  sum_listZ (slices f).*2 = Z.of_nat (length (fig_points g)).
Proof.
  intros [Hinit _]%startup_Ok Hd Hpay Hbin Hv Hf. unfold scatter_callback.
  assert (numeric_payload d) as Hnum.
  { eapply Forall_impl; [exact Hpay |]. intros r [x Hx]. by eapply num_of_is_number. }
  pose proof (slider_value_numbers _ _ _ Hinit Hd Hnum) as Hsl.
  unfold slider_value in *.
  apply Forall_cons in Hsl as [Hlo [Hhi _]%Forall_cons].
  rewrite (scatter_figure _ d) by done. intros [= <-]. simpl.
  rewrite (pie_site_total_binary _ d v) by done.
  rewrite length_fmap. unfold selected.
  rewrite Hv, (filter_all (λ r, in_range _ _ r = true) d); [done |].
  intros r Hr. rewrite Forall_forall in Hpay.
  apply (initial_in_range read_csv data d); auto.
Qed.

Lemma charts_agree_witness :
  sum_listZ (slices (PieFig [PStr "Success"; PStr "Failure"]
                       (Some [PInt 1; PInt 1]) (pie_site_title (PStr "A")))).*2
  = Z.of_nat (length (fig_points
      (ScatterFig [mkPoint (PInt 500) (PInt 1) (PStr "B1");
                   mkPoint (PInt 500) (PInt 0) (PStr "B2")]
         (scatter_site_title (PStr "A"))))).
Proof.
  apply (charts_agree (Ok example_df) example_data example_page
           example_launches (PStr "A"));
    [reflexivity | apply represents_frame_of | repeat constructor; by eexists
     | repeat constructor; by (left + right) | reflexivity..].
Defined.

(** With the CSV file missing the dashboard still comes up: the
    drop-down offers ['ALL'] and ['Default'], the all-sites pie has no slice
    (the placeholder launch is a failure), the pie of ['Default'] has the
    single slice Failure: 1, and the scatter chart has the single point
    (0, 0). *)
Lemma missing_file_dashboard :
  ∃ data page,
    startup (Err FileNotFoundError) = Ok (data, page) ∧
    site_options (spacex_df data)
    = Ok [mkOption (PStr "All Sites") (PStr "ALL");
          mkOption (PStr "Default") (PStr "Default")] ∧
    slices <$> initial_pie data = Ok [] ∧
    slices <$> pie_callback data (PStr "Default")
    = Ok [(PStr "Failure", 1%Z)] ∧
    fig_points <$> initial_scatter data
    = Ok [mkPoint (PInt 0) (PInt 0) (PStr "Default")].
Proof. do 2 eexists. split; [reflexivity |]. by vm_compute. Qed.

End app.
