(* ===== verification/Host.v ===== *)
(** * The reactive host

    The registrations of the two callbacks (lines 77-80 and 106-110 of
    [src/spacex_dash_app.py]), the module as a whole (lines 28 and 146-147)
    and what the Dash host does with the callbacks and with the page, as the
    specification describes it (control flow and selection state): it holds
    the current value of the drop-down and of the slider, calls every
    callback once when the page loads, and after each user interaction calls
    the callbacks registered on the property that changed, replacing the
    figure of the graph each one writes.  What the host does when a
    callback raises is said neither by the source nor by the specification:
    [update] then keeps the figure the graph had, as Dash does, and the
    properties that name a chart are stated for callbacks that do not raise.

    The host is a transition system: [page_state] is its state, [event] its
    input alphabet, [step] its transition function and [reachable] the states
    it can be in.  The invariant [consistent] says that both graphs show the
    charts of the current selection.

    Callbacks that agree on every input are equivalent, and the host does
    not tell them apart; the callbacks over two frames that hold the same
    launch records are equivalent.

    The host sees the program through the interface [callbacks]; its
    invariant is proved for any callbacks that are total ([TotalCallbacks]), and the
    callbacks of the program ([app_callbacks]) are shown to be so on a
    dataset of launch records with numeric payloads. *)

From S2P Require Import Prelude PyValue Frame Dataset Plotly Loader Layout Pie Scatter App.

(** A registration with the host: the property a callback writes and the
    properties that trigger it, as (component id, property) pairs. *)
Record registration : Type := mkReg {
  reg_output : string * string;
  reg_inputs : list (string * string)
}.

(** Lines 77-80: [get_pie_chart] writes the figure of the pie chart and is
    triggered by the value of the drop-down. *)
Definition pie_registration : registration :=
  mkReg ("success-pie-chart", "figure")%string
        [("site-dropdown", "value")]%string.

(** Lines 106-110: [get_scatter_chart] writes the figure of the scatter chart
    and is triggered by the drop-down and by the slider. *)
Definition scatter_registration : registration :=
  mkReg ("success-payload-scatter-chart", "figure")%string
        [("site-dropdown", "value"); ("payload-slider", "value")]%string.

(** The callbacks the module registers. *)
Definition app_registrations : list registration :=
  [pie_registration; scatter_registration].

(** A registration fits a page: the property it writes and the properties
    that trigger it belong to components of the page, and it does not
    trigger itself. *)
Definition wired (page : component) (reg : registration) : Prop :=
  reg_output reg ∈ component_properties page ∧
  reg_inputs reg ⊆ component_properties page ∧
  reg_output reg ∉ reg_inputs reg.

#[export] Instance wired_dec page reg : Decision (wired page reg).
Proof. unfold wired. apply _. Defined.

(** The application object (line 28) once the module has run: the layout
    assigned to it and the callbacks registered with it. *)
Record dash_app : Type := mkApp {
  layout : component;
  callback_map : list registration
}.

(** The module run with [__name__ = name] (lines 12-147): start-up, the two
    registrations, and [app.run] when the module is the main program.  The
    result holds the module variables, the application, and whether the
    server was started. *)
Definition run_module (name : string) (read_csv : result DataFrame) :
    result (module_data * dash_app * bool) :=
  '(data, page) ← startup read_csv;
  Ok (data, mkApp page app_registrations, bool_decide (name = "__main__"%string)).

(** What the host calls: the function behind each registration. *)
Record callbacks : Type := mkCallbacks {
  on_pie : pyval → result figure;
  on_scatter : pyval → list pyval → result figure
}.

(** The callbacks of the program, reading the module variables [data]. *)
Definition app_callbacks (data : module_data) : callbacks :=
  mkCallbacks (pie_callback data) (scatter_callback data).

(** Callbacks that agree on every input: the host cannot tell them apart. *)
#[export] Instance callbacks_equiv : Equiv callbacks := λ C C',
  (∀ v, on_pie C v = on_pie C' v) ∧
  (∀ v rng, on_scatter C v rng = on_scatter C' v rng).

(** Callbacks that return a chart for every value of the drop-down and
    every pair of bounds. *)
Class TotalCallbacks (C : callbacks) : Prop := {
  on_pie_ok v : is_ok (on_pie C v) = true;
  on_scatter_ok v low high : is_ok (on_scatter C v [low; high]) = true
}.

(** The selection state and the figures on display. *)
Record page_state : Type := mkPage {
  site_value : pyval;
  range_value : list pyval;
  pie_shown : option figure;
  scatter_shown : option figure
}.

#[export] Instance page_state_eq_dec : EqDecision page_state.
Proof. solve_decision. Defined.

(** A user interaction: a choice in the drop-down ([None] when the selection
    is cleared) or a move of a handle of the slider, which always reports
    both bounds. *)
Inductive event : Type :=
| SelectSite (v : pyval)
| MoveSlider (low high : pyval).

#[export] Instance event_eq_dec : EqDecision event.
Proof. solve_decision. Defined.

(** The component property an interaction changes. *)
Definition changed_property (e : event) : string * string :=
  match e with
  | SelectSite _ => ("site-dropdown", "value")%string
  | MoveSlider _ _ => ("payload-slider", "value")%string
  end.

Definition set_input (e : event) (s : page_state) : page_state :=
  match e with
  | SelectSite v => mkPage v (range_value s) (pie_shown s) (scatter_shown s)
  | MoveSlider low high =>
      mkPage (site_value s) [low; high] (pie_shown s) (scatter_shown s)
  end.

(** A change of [prop] triggers the callbacks that list it as an input. *)
Definition triggers (reg : registration) (prop : string * string) : bool :=
  bool_decide (prop ∈ reg_inputs reg).

(** The figure of a graph after its callback has run; an exception leaves
    the graph as it was (the behaviour of Dash). *)
Definition update (old : option figure) (r : result figure) : option figure :=
  match r with
  | Ok f => Some f
  | Err _ => old
  end.

(** Run the callbacks selected by [fire] on the current inputs.  Each
    callback goes with its registration as the decorators pair them (lines
    77-81 and 106-111): [get_pie_chart] with [pie_registration], called on
    the value of the drop-down, and [get_scatter_chart] with
    [scatter_registration], called on that value and on the value of the
    slider, in the order of the [Input]s. *)
Definition refresh (C : callbacks) (fire : registration → bool)
    (s : page_state) : page_state :=
  mkPage (site_value s) (range_value s)
    (if fire pie_registration
     then update (pie_shown s) (on_pie C (site_value s))
     else pie_shown s)
    (if fire scatter_registration
     then update (scatter_shown s)
            (on_scatter C (site_value s) (range_value s))
     else scatter_shown s).

Definition step (C : callbacks) (s : page_state) (e : event) : page_state :=
  refresh C (λ reg, triggers reg (changed_property e)) (set_input e s).

Definition run (C : callbacks) (s : page_state) (es : list event) : page_state :=
  foldl (step C) s es.

(** Loading the page: the inputs take their initial values and every
    callback is called once. *)
Definition load_page (C : callbacks) (page : component) : option page_state :=
  v ← dropdown_value "site-dropdown" page;
  r ← slider_value_of "payload-slider" page;
  Some (refresh C (λ _, true) (mkPage v r None None)).

(** The state after loading the page that [app_layout] builds. *)
Definition first_state (data : module_data) : page_state :=
  refresh (app_callbacks data) (λ _, true)
    (mkPage (PStr "ALL") (slider_value (min_payload data) (max_payload data))
       None None).

(** The states the host can be in. *)
Inductive reachable (C : callbacks) (page : component) : page_state → Prop :=
| reach_load s : load_page C page = Some s → reachable C page s
| reach_step s e : reachable C page s → reachable C page (step C s e).

(** A graph shows the chart its callback returns. *)
Definition shows (shown : option figure) (r : result figure) : Prop :=
  Some <$> r = Ok shown.

(** Both graphs show the charts of the current selection. *)
Definition consistent (C : callbacks) (s : page_state) : Prop :=
  shows (pie_shown s) (on_pie C (site_value s)) ∧
  shows (scatter_shown s) (on_scatter C (site_value s) (range_value s)).

#[export] Instance consistent_dec C s : Decision (consistent C s).
Proof. unfold consistent, shows. apply _. Defined.

(** The slider reports two bounds. *)
Definition two_bounds (s : page_state) : Prop := length (range_value s) = 2.

(** The worked example as a wider file would give it: a column the program
    does not read, and the four columns in another order. *)
Definition wide_df : DataFrame :=
  mkDF (("Flight Number"%string, [PInt 1; PInt 2; PInt 3])
        :: reverse (df_cols example_df)).

(** ** The transition function *)

Section host_steps.
Context (C : callbacks).
Implicit Types (page : component) (s : page_state).
Implicit Types (e : event) (v low high : pyval) (f : figure).

Lemma update_shows (old : option figure) (r : result figure) :
  is_ok r = true → shows (update old r) r.
Proof. by destruct r. Qed.

Lemma shows_inj (a b : option figure) (r : result figure) :
  shows a r → shows b r → a = b.
Proof. unfold shows. destruct r; simpl; congruence. Qed.

Lemma shows_Err (shown : option figure) (e : pyexc) : ¬ shows shown (Err e).
Proof. done. Qed.

(** The drop-down triggers both callbacks, the slider only the scatter
    chart. *)
Lemma step_select s v :
  step C s (SelectSite v) = refresh C (λ _, true) (set_input (SelectSite v) s).
Proof. done. Qed.

Lemma step_slider s low high :
  step C s (MoveSlider low high)
  = mkPage (site_value s) [low; high] (pie_shown s)
      (update (scatter_shown s) (on_scatter C (site_value s) [low; high])).
Proof. done. Qed.

Lemma step_two_bounds s e : two_bounds s → two_bounds (step C s e).
Proof. by destruct e. Qed.

(** Recomputation is idempotent: an interaction that reports the same value
    again changes nothing, whether the callbacks return or raise. *)
Lemma update_idemp (old : option figure) (r : result figure) :
  update (update old r) r = update old r.
Proof. by destruct r. Qed.

Lemma step_idemp s e : step C (step C s e) e = step C s e.
Proof. destruct e; unfold step, refresh; simpl; by rewrite ?update_idemp. Qed.

Lemma reachable_run page s es : reachable C page s → reachable C page (run C s es).
Proof.
  revert s. induction es as [|e es IH]; intros s Hs; [done |].
  apply IH. by constructor.
Qed.

(** What is on display is determined by the selection. *)
Lemma consistent_inj s1 s2 :
  consistent C s1 → consistent C s2 →
  site_value s1 = site_value s2 → range_value s1 = range_value s2 → s1 = s2.
Proof.
  destruct s1, s2. intros [??] [??]; simpl in *. intros <- <-.
  f_equal; by eapply shows_inj.
Qed.

(** *** Total callbacks keep the page consistent *)

Context `{!TotalCallbacks C}.

Lemma on_scatter_ok_bounds v (r : list pyval) :
  length r = 2 → is_ok (on_scatter C v r) = true.
Proof.
  destruct r as [|low [|high [|??]]]; try done. intros _. apply on_scatter_ok.
Qed.

Lemma refresh_all_consistent s :
  two_bounds s → consistent C (refresh C (λ _, true) s).
Proof.
  intros Hb. split; simpl; apply update_shows;
    [apply on_pie_ok | by apply on_scatter_ok_bounds].
Qed.

Lemma step_inv s e :
  two_bounds s ∧ consistent C s →
  two_bounds (step C s e) ∧ consistent C (step C s e).
Proof.
  intros [Hb [Hpie Hsc]]. split; [by apply step_two_bounds |].
  destruct e as [v | low high].
  - rewrite step_select. by apply refresh_all_consistent.
  - rewrite step_slider. split; [done |]. apply update_shows, on_scatter_ok.
Qed.

(** The invariant, for a page whose slider starts with two bounds. *)
Lemma reachable_inv page s :
  (∀ s0, load_page C page = Some s0 → two_bounds s0) →
  reachable C page s → two_bounds s ∧ consistent C s.
Proof.
  intros Hpage. induction 1 as [s Hload | s e _ IH]; [|by apply step_inv].
  pose proof (Hpage _ Hload) as Hb. split; [done |].
  unfold load_page in Hload. simplify_option_eq. by apply refresh_all_consistent.
Qed.

End host_steps.

(** ** Callbacks that agree *)

#[export] Instance callbacks_equivalence : Equivalence (≡@{callbacks}).
Proof.
  split; [by intros C | by intros C C' [??] |].
  intros C1 C2 C3 [Hp Hs] [Hp' Hs']. split; intros; [rewrite Hp | rewrite Hs]; done.
Qed.

#[export] Instance refresh_proper : Proper ((≡) ==> (=) ==> (=) ==> (=)) refresh.
Proof. intros C C' [Hp Hs] ? fire -> ? s ->. unfold refresh. by rewrite Hp, Hs. Qed.

#[export] Instance step_proper : Proper ((≡) ==> (=) ==> (=) ==> (=)) step.
Proof. intros C C' HC ? s -> ? e ->. unfold step. by rewrite HC. Qed.

#[export] Instance run_proper : Proper ((≡) ==> (=) ==> (=) ==> (=)) run.
Proof.
  intros C C' HC ? s -> ? es ->. revert s.
  induction es as [|e es IH]; intros s; simpl; [done |].
  rewrite IH. f_equal. by apply step_proper.
Qed.

#[export] Instance load_page_proper : Proper ((≡) ==> (=) ==> (=)) load_page.
Proof.
  intros C C' HC ? page ->. unfold load_page.
  destruct (dropdown_value _ page) as [v|]; [simpl | done].
  destruct (slider_value_of _ page) as [r|]; [simpl | done].
  f_equal. by apply refresh_proper.
Qed.

#[export] Instance consistent_proper : Proper ((≡) ==> (=) ==> iff) consistent.
Proof. intros C C' [Hp Hs] ? s ->. unfold consistent. by rewrite Hp, Hs. Qed.

#[export] Instance TotalCallbacks_proper : Proper ((≡) ==> iff) TotalCallbacks.
Proof.
  assert (∀ C C', C ≡ C' → TotalCallbacks C → TotalCallbacks C') as Himp.
  { intros C C' [Hp Hs] [H1 H2]. split; intros; [rewrite <- Hp | rewrite <- Hs]; done. }
  intros C C' HC. split; apply Himp; done.
Qed.

(** ** The module *)

(** Start-up fails exactly when the module fails, whether imported or run. *)
Lemma run_module_Err name read_csv e :
  run_module name read_csv = Err e ↔ startup read_csv = Err e.
Proof.
  unfold run_module. destruct (startup read_csv) as [[data page]|]; simpl;
    [done | naive_solver].
Qed.

(** ** The callbacks of the program *)

Section app_host.
Context (read_csv : result DataFrame) (data : module_data) (page : component).
Context (d : list launch).
Context (Hstart : startup read_csv = Ok (data, page)).
Context (Hd : represents (spacex_df data) d).

(** The page built at start-up gives the inputs their initial values. *)
Lemma startup_inputs :
  dropdown_value "site-dropdown" page = Some (PStr "ALL") ∧
  slider_value_of "payload-slider" page
  = Some (slider_value (min_payload data) (max_payload data)).
Proof.
  apply startup_Ok in Hstart as [_ Hpage]. unfold app_layout in Hpage.
  destruct (site_options (spacex_df data)); [|done]. by injection Hpage as <-.
Qed.

Lemma load_page_startup :
  load_page (app_callbacks data) page = Some (first_state data).
Proof. unfold load_page. by destruct startup_inputs as [-> ->]. Qed.

Lemma pie_callback_ok v : is_ok (pie_callback data v) = true.
Proof.
  pose proof (get_pie_chart_cases (spacex_df data) v) as H.
  destruct Hd as (_ & Hs & Hc & _).
  rewrite <- !df_get_has_column, Hs, Hc in H.
  unfold pie_callback. by destruct H as [f ->].
Qed.

Lemma scatter_callback_ok v low high :
  numeric_payload d → is_ok (scatter_callback data v [low; high]) = true.
Proof.
  intros Hnum. unfold scatter_callback.
  destruct (is_number low && is_number high) eqn:E.
  - apply andb_true_iff in E as [??]. by rewrite (scatter_figure _ d).
  - by rewrite (scatter_figure_invalid _ d).
Qed.

(** On launch records with numeric payloads the callbacks of the program
    are total. *)
Lemma app_callbacks_total : numeric_payload d → TotalCallbacks (app_callbacks data).
Proof.
  intros Hnum. split; [apply pie_callback_ok |].
  intros. by apply scatter_callback_ok.
Qed.

End app_host.

(** ** The dashboard depends on the frame through its records *)

Section records.
Implicit Types (df : DataFrame) (data : module_data) (d : list launch).
Implicit Types (page : component).

(** The callbacks over two frames that hold the same records agree. *)
Lemma app_callbacks_records data data' d :
  represents (spacex_df data) d → represents (spacex_df data') d →
  app_callbacks data ≡ app_callbacks data'.
Proof.
  intros Hd Hd'. split; simpl; intros; unfold pie_callback, scatter_callback.
  - by rewrite !(get_pie_chart_records _ d).
  - by rewrite !(get_scatter_chart_records _ d).
Qed.

(** Start-up on two frames that hold the same records: the same bounds and
    the same page. *)
Lemma startup_records df df' d data page :
  represents df d → represents df' d → startup (Ok df) = Ok (data, page) →
  startup (Ok df')
  = Ok (mkData df' (max_payload data) (min_payload data) [], page).
Proof.
  intros (Hp & Hs & _) (Hp' & Hs' & _). unfold startup, init_data. simpl.
  rewrite Hp, Hp'. simpl.
  destruct (series_max _) as [mx|]; [simpl | done].
  destruct (series_min _) as [mn|]; [simpl | done].
  unfold app_layout, site_options. simpl. rewrite Hs, Hs'. simpl.
  by intros [= <- <-].
Qed.

Lemma first_state_records data data' d :
  represents (spacex_df data) d → represents (spacex_df data') d →
  min_payload data' = min_payload data → max_payload data' = max_payload data →
  first_state data' = first_state data.
Proof.
  intros Hd Hd' Hmin Hmax. unfold first_state. rewrite Hmin, Hmax.
  by apply refresh_proper; [apply app_callbacks_records with d | |].
Qed.

End records.

(** ** The page and the selection *)

Section host_claims.
Implicit Types (data : module_data) (page : component) (s : page_state).
Implicit Types (d : list launch) (r : launch) (low high : pyval).

(** C22. The decorators and the layout agree: every property a callback
    writes or listens to is a property of a component of the page that
    [app.layout] builds, no callback is triggered by its own output, and no
    two callbacks write the same property. *)
Theorem registrations_wired data page :
  app_layout data = Ok page →
  Forall (wired page) app_registrations ∧
  NoDup (reg_output <$> app_registrations).
Proof.
  intros (options & _ & ->)%app_layout_Ok.
  split; by apply (bool_decide_unpack _).
Qed.

Lemma registrations_wired_witness :
  Forall (wired example_page) app_registrations ∧
  NoDup (reg_output <$> app_registrations).
Proof. apply (registrations_wired example_data). reflexivity. Defined.

(** C5. After a successful start-up on a dataset of launch records with
    numeric payloads, every state the host can reach is consistent: whatever
    the user has done, the pie chart and the scatter chart on display are the
    ones the callbacks return for the current value of the drop-down and of
    the slider.  In particular what is shown depends on the current selection
    only, not on the interactions that led to it. *)
Theorem host_consistent read_csv data page d s :
  startup read_csv = Ok (data, page) →
  represents (spacex_df data) d → numeric_payload d →
  reachable (app_callbacks data) page s → consistent (app_callbacks data) s.
Proof.
  intros Hstart Hd Hnum Hs.
  pose proof (app_callbacks_total data d Hd Hnum) as Htotal.
  eapply reachable_inv; [done | | done].
  intros s0. rewrite (load_page_startup _ _ _ Hstart). by intros [= <-].
Qed.

Lemma host_consistent_witness :
  consistent (app_callbacks example_data)
    (run (app_callbacks example_data) (first_state example_data)
       [SelectSite (PStr "A"); MoveSlider (PInt 0) (PInt 1000)]).
Proof.
  eapply (host_consistent (Ok example_df) example_data _ example_launches);
    [reflexivity | apply represents_frame_of | repeat constructor |].
  apply reachable_run, reach_load. reflexivity.
Defined.

(** C17. The dashboard depends on the CSV only through the launch records it
    holds: columns the program does not read, and the order of the columns,
    change nothing.  If two frames hold the same records in their four named
    columns and start-up succeeds on one, it succeeds on the other with the
    same page, and after any sequence of interactions the two hosts show the
    same charts for the same selection. *)
Theorem dashboard_of_records df df' d data page :
  represents df d → represents df' d → startup (Ok df) = Ok (data, page) →
  ∃ data', startup (Ok df') = Ok (data', page) ∧
           spacex_df data' = df' ∧
           ∀ es, run (app_callbacks data') (first_state data') es
                 = run (app_callbacks data) (first_state data) es.
Proof.
  intros Hd Hd' Hstart. eexists.
  split; [by apply (startup_records df df' d) |].
  split; [done |]. intros es.
  assert (spacex_df data = df) as Hdf.
  { apply startup_Ok in Hstart as [Hinit _]. unfold init_data in Hinit.
    simplify_result. by subst. }
  rewrite <- Hdf in Hd.
  rewrite (first_state_records data _ d) by done.
  by apply run_proper; [apply app_callbacks_records with d | |].
Qed.

Lemma dashboard_of_records_witness :
  ∃ data', startup (Ok wide_df) = Ok (data', example_page) ∧
           spacex_df data' = wide_df ∧
           ∀ es, run (app_callbacks data') (first_state data') es
                 = run (app_callbacks example_data) (first_state example_data) es.
Proof.
  apply (dashboard_of_records example_df wide_df example_launches);
    [apply represents_frame_of | by vm_compute | reflexivity].
Defined.

End host_claims.
