(* ===== verification/AsyncHost.v ===== *)
(** * The host with requests in flight

    The concurrency model of the specification: an interaction does not run
    a callback on the spot; the page sends a request for every callback the
    changed property triggers and goes on accepting interactions.  The
    answers arrive later and in any order.  An answer is put on display only
    if no newer request has been sent for the same graph in the meantime;
    otherwise it is discarded.  The callbacks only read the frame, so the
    answer to a request depends on the inputs the request carries and on
    nothing else.

    [async_state] extends the page of [Host] with the requests in flight;
    [interact] and [deliver] are the two kinds of step, [async_run] executes
    a list of labels.  The theorems relate this host to the synchronous one
    of [Host]: when no request is in flight both show the same page. *)

From S2P Require Import Prelude PyValue Frame Dataset Plotly Loader Layout Pie Scatter App Host.


(** The graph a callback writes. *)
Inductive target : Type := PieChart | ScatterChart.

#[export] Instance target_eq_dec : EqDecision target.
Proof. solve_decision. Defined.

Definition registration_of (t : target) : registration :=
  match t with
  | PieChart => pie_registration
  | ScatterChart => scatter_registration
  end.

(** The callback behind a graph, on given inputs. *)
Definition call (C : callbacks) (t : target) (site : pyval) (range : list pyval) :
    result figure :=
  match t with
  | PieChart => on_pie C site
  | ScatterChart => on_scatter C site range
  end.

Definition shown (p : page_state) (t : target) : option figure :=
  match t with
  | PieChart => pie_shown p
  | ScatterChart => scatter_shown p
  end.

Definition set_shown (t : target) (f : option figure) (p : page_state) : page_state :=
  match t with
  | PieChart => mkPage (site_value p) (range_value p) f (scatter_shown p)
  | ScatterChart => mkPage (site_value p) (range_value p) (pie_shown p) f
  end.

(** What the graph [t] should show for the current selection. *)
Definition current (C : callbacks) (p : page_state) (t : target) : result figure :=
  call C t (site_value p) (range_value p).

(** A request in flight: its sequence number, the graph it is for, and the
    inputs at the time it was sent. *)
Record request : Type := mkReq {
  rq_id : nat;
  rq_target : target;
  rq_site : pyval;
  rq_range : list pyval
}.

#[export] Instance request_eq_dec : EqDecision request.
Proof. solve_decision. Defined.

Definition answer (C : callbacks) (r : request) : result figure :=
  call C (rq_target r) (rq_site r) (rq_range r).

(** The page, the next sequence number, the number of the latest request
    sent for each graph, and the requests not yet answered. *)
Record async_state : Type := mkAsync {
  a_page : page_state;
  a_next : nat;
  a_latest_pie : nat;
  a_latest_scatter : nat;
  a_pending : list request
}.

Definition latest (s : async_state) (t : target) : nat :=
  match t with
  | PieChart => a_latest_pie s
  | ScatterChart => a_latest_scatter s
  end.

(** A request that has not been superseded. *)
Definition fresh (s : async_state) (r : request) : Prop :=
  rq_id r = latest s (rq_target r).

#[export] Instance fresh_dec s r : Decision (fresh s r).
Proof. unfold fresh. apply _. Defined.

Definition with_page (p : page_state) (s : async_state) : async_state :=
  mkAsync p (a_next s) (a_latest_pie s) (a_latest_scatter s) (a_pending s).

(** Send a request for [t] with the current inputs. *)
Definition issue (s : async_state) (t : target) : async_state :=
  mkAsync (a_page s) (S (a_next s))
    (if decide (t = PieChart) then a_next s else a_latest_pie s)
    (if decide (t = ScatterChart) then a_next s else a_latest_scatter s)
    (a_pending s
       ++ [mkReq (a_next s) t (site_value (a_page s)) (range_value (a_page s))]).

(** The graphs whose callback a change of [prop] triggers. *)
Definition triggered (prop : string * string) : list target :=
  filter (λ t, triggers (registration_of t) prop = true) [PieChart; ScatterChart].

(** An interaction: the input takes its new value and a request is sent for
    every callback it triggers. *)
Definition interact (e : event) (s : async_state) : async_state :=
  foldl issue (with_page (set_input e (a_page s)) s)
    (triggered (changed_property e)).

(** The answer to request [id] arrives: it is displayed if the request is
    still the latest for its graph, and dropped otherwise. *)
Definition deliver (C : callbacks) (id : nat) (s : async_state) : option async_state :=
  '(_, r) ← list_find (λ r, rq_id r = id) (a_pending s);
  let page :=
    if decide (fresh s r)
    then set_shown (rq_target r)
           (update (shown (a_page s) (rq_target r)) (answer C r)) (a_page s)
    else a_page s in
  Some (mkAsync page (a_next s) (a_latest_pie s) (a_latest_scatter s)
          (filter (λ r', rq_id r' ≠ id) (a_pending s))).

Inductive label : Type :=
| Interact (e : event)
| Deliver (id : nat).

Definition async_step (C : callbacks) (s : async_state) (l : label) :
    option async_state :=
  match l with
  | Interact e => Some (interact e s)
  | Deliver id => deliver C id s
  end.

Fixpoint async_run (C : callbacks) (s : async_state) (ls : list label) :
    option async_state :=
  match ls with
  | [] => Some s
  | l :: ls => s' ← async_step C s l; async_run C s' ls
  end.

(** The interactions of a run. *)
Definition events (ls : list label) : list event :=
  omap (λ l, match l with Interact e => Some e | Deliver _ => None end) ls.

(** Loading the page sends one request per callback. *)
Definition async_load (page : component) : option async_state :=
  v ← dropdown_value "site-dropdown" page;
  r ← slider_value_of "payload-slider" page;
  Some (foldl issue (mkAsync (mkPage v r None None) 0 0 0 [])
          [PieChart; ScatterChart]).

(** The states the host can be in. *)
Inductive async_reachable (C : callbacks) (page : component) : async_state → Prop :=
| areach_load s : async_load page = Some s → async_reachable C page s
| areach_step s l s' :
    async_reachable C page s → async_step C s l = Some s' →
    async_reachable C page s'.

(** Two pages with the same selection. *)
Definition same_inputs (p q : page_state) : Prop :=
  site_value p = site_value q ∧ range_value p = range_value q.

(** The state after loading the page that [app_layout] builds. *)
Definition first_async (data : module_data) : async_state :=
  foldl issue
    (mkAsync
       (mkPage (PStr "ALL") (slider_value (min_payload data) (max_payload data))
          None None) 0 0 0 [])
    [PieChart; ScatterChart].

(** A run on the worked example: the user picks site A and then moves the
    slider; the answer to the second scatter request overtakes the first. *)
Definition example_labels : list label :=
  [Interact (SelectSite (PStr "A")); Deliver 3; Deliver 1; Deliver 0;
   Interact (MoveSlider (PInt 0) (PInt 1000)); Deliver 2; Deliver 4].

(** No request is in flight. *)
Definition quiescent (s : async_state) : Prop := a_pending s = [].

(** One answer arrives. *)
Definition delivers (C : callbacks) : relation async_state :=
  λ s s', ∃ id, deliver C id s = Some s'.

(** Sequence numbers are distinct and below the next one. *)
Definition ids_inv (s : async_state) : Prop :=
  NoDup (rq_id <$> a_pending s) ∧ ∀ r, r ∈ a_pending s → rq_id r < a_next s.

(** For the graph [t]: a request that is still the latest carries the
    current inputs, and once the latest request has been answered the graph
    shows the chart of the current selection. *)
Definition target_inv (C : callbacks) (s : async_state) (t : target) : Prop :=
  (∀ r, r ∈ a_pending s → rq_target r = t → fresh s r →
        answer C r = current C (a_page s) t) ∧
  ((∀ r, r ∈ a_pending s → rq_target r = t → ¬ fresh s r) →
   shows (shown (a_page s) t) (current C (a_page s) t)).

Definition async_inv (C : callbacks) (s : async_state) : Prop :=
  ids_inv s ∧ two_bounds (a_page s) ∧ ∀ t, target_inv C s t.

(** ** Requests *)

Section async_steps.
Context (C : callbacks).
Implicit Types (s : async_state) (p : page_state) (t : target) (r : request).
Implicit Types (e : event) (id : nat) (ls : list label).

Lemma latest_issue s t t' :
  latest (issue s t) t' = if decide (t = t') then a_next s else latest s t'.
Proof. by destruct t, t'. Qed.

Lemma issue_ids s t : ids_inv s → ids_inv (issue s t).
Proof.
  intros [Hnd Hlt]. split; simpl.
  - rewrite fmap_app. apply NoDup_app. split; [done |].
    split; [|apply NoDup_singleton].
    intros x (r & -> & Hr%Hlt)%list_elem_of_fmap ?%list_elem_of_singleton.
    simpl in *. lia.
  - intros r [Hr%Hlt | ->%list_elem_of_singleton]%elem_of_app; simpl; lia.
Qed.

(** The request just sent is the latest for its graph and carries the
    current inputs. *)
Lemma issue_target_same s t : ids_inv s → target_inv C (issue s t) t.
Proof.
  intros [_ Hlt]. split.
  - intros r [Hr%Hlt | ->%list_elem_of_singleton]%elem_of_app Ht Hf; [|done].
    unfold fresh in Hf. rewrite Ht, latest_issue, decide_True in Hf by done.
    lia.
  - intros H. exfalso. eapply H; [apply elem_of_app; right; by left | done |].
    unfold fresh. simpl. by rewrite latest_issue, decide_True.
Qed.

Lemma issue_target_other s t t' :
  t' ≠ t → target_inv C s t' → target_inv C (issue s t) t'.
Proof.
  intros Hne [Hfresh Hshown].
  assert (∀ r, rq_target r = t' → fresh (issue s t) r ↔ fresh s r) as Hf.
  { intros r Hr. unfold fresh. by rewrite Hr, latest_issue, decide_False. }
  split.
  - intros r [Hr | ->%list_elem_of_singleton]%elem_of_app Ht; [|done].
    rewrite Hf by done. by apply Hfresh.
  - intros H. apply Hshown. intros r Hr Ht. rewrite <- Hf by done.
    apply H; [apply elem_of_app; by left | done].
Qed.

(** Sending requests for the graphs [ts] establishes the invariant when it
    held for the other graphs. *)
Lemma foldl_issue_inv (ts : list target) s :
  ids_inv s → two_bounds (a_page s) → (∀ t, t ∉ ts → target_inv C s t) →
  async_inv C (foldl issue s ts).
Proof.
  revert s. induction ts as [|t ts IH]; intros s Hids Hb Hts; simpl.
  - split; [done |]. split; [done |]. intros t. apply Hts. set_solver.
  - apply IH; [by apply issue_ids | done |]. intros t' Ht'.
    destruct (decide (t' = t)) as [-> | Hne]; [by apply issue_target_same |].
    apply issue_target_other; [done |]. apply Hts. set_solver.
Qed.

Lemma page_foldl_issue (ts : list target) s : a_page (foldl issue s ts) = a_page s.
Proof. revert s. induction ts as [|t ts IH]; intros s; simpl; [done | by rewrite IH]. Qed.

(** A change of an input leaves alone the graphs it does not trigger. *)
Lemma set_input_target e s t :
  t ∉ triggered (changed_property e) → target_inv C s t →
  target_inv C (with_page (set_input e (a_page s)) s) t.
Proof.
  destruct e as [v | low high], t; try (intros []; set_solver); done.
Qed.

Lemma interact_inv e s : async_inv C s → async_inv C (interact e s).
Proof.
  intros (Hids & Hb & Hts). apply foldl_issue_inv; [done | by destruct e |].
  intros t Ht. by apply set_input_target.
Qed.

Lemma async_load_inv (page : component) s :
  async_load page = Some s →
  (∀ rng, slider_value_of "payload-slider" page = Some rng → length rng = 2) →
  async_inv C s.
Proof.
  unfold async_load. intros Hload Hr.
  destruct (dropdown_value _ page) as [v|]; [|done]. simpl in Hload.
  destruct (slider_value_of _ page) as [rng|] eqn:E; [|done].
  injection Hload as <-.
  apply (foldl_issue_inv [PieChart; ScatterChart]);
    [split; [constructor | set_solver] | by apply Hr |].
  intros []; set_solver.
Qed.

(** ** Answers *)

Lemma deliver_Some id s s' :
  deliver C id s = Some s' →
  ∃ r, r ∈ a_pending s ∧ rq_id r = id ∧
       a_pending s' = filter (λ r', rq_id r' ≠ id) (a_pending s) ∧
       a_next s' = a_next s ∧ (∀ t, latest s' t = latest s t) ∧
       a_page s'
       = if decide (fresh s r)
         then set_shown (rq_target r)
                (update (shown (a_page s) (rq_target r)) (answer C r)) (a_page s)
         else a_page s.
Proof.
  unfold deliver. destruct (list_find _ _) as [[i r]|] eqn:E; [|done].
  simpl. intros [= <-]. apply list_find_Some in E as (Hi & Hid & _).
  exists r. split; [by eapply list_elem_of_lookup_2 |].
  repeat split; try done; by intros [].
Qed.

Lemma deliver_is_Some r s : r ∈ a_pending s → is_Some (deliver C (rq_id r) s).
Proof.
  intros Hr. unfold deliver.
  destruct (list_find_elem_of (λ r', rq_id r' = rq_id r) _ r Hr eq_refl)
    as [[i r'] ->]. simpl. eauto.
Qed.

Lemma shown_set_shown t t' (f : option figure) p :
  shown (set_shown t f p) t' = if decide (t = t') then f else shown p t'.
Proof. by destruct t, t'. Qed.

Lemma current_set_shown t t' (f : option figure) p :
  current C (set_shown t f p) t' = current C p t'.
Proof. by destruct t, t'. Qed.

Lemma current_ok `{!TotalCallbacks C} p t : two_bounds p → is_ok (current C p t) = true.
Proof.
  intros Hb. destruct t; [apply on_pie_ok | by apply on_scatter_ok_bounds].
Qed.

Lemma deliver_ids id s s' : ids_inv s → deliver C id s = Some s' → ids_inv s'.
Proof.
  intros [Hnd Hlt] (r & _ & _ & Hp & Hn & _)%deliver_Some.
  unfold ids_inv. rewrite Hp, Hn. split.
  - eapply sublist_NoDup; [done | apply fmap_sublist, sublist_filter].
  - intros r' [_ Hr']%list_elem_of_filter. by apply Hlt.
Qed.

Lemma deliver_inputs id s s' :
  deliver C id s = Some s' →
  site_value (a_page s') = site_value (a_page s) ∧
  range_value (a_page s') = range_value (a_page s).
Proof.
  intros (r & _ & _ & _ & _ & _ & ->)%deliver_Some.
  destruct (decide _); [by destruct (rq_target r) | done].
Qed.

Lemma deliver_target `{!TotalCallbacks C} id s s' t :
  ids_inv s → two_bounds (a_page s) → target_inv C s t →
  deliver C id s = Some s' → target_inv C s' t.
Proof.
  intros [Hnd _] Hb [Hfresh Hshown] (r & Hr & Hid & Hpend & _ & Hlat & Hpage)%deliver_Some.
  assert (∀ r', fresh s' r' ↔ fresh s r') as Hf
    by (intros r'; unfold fresh; by rewrite Hlat).
  assert (current C (a_page s') t = current C (a_page s) t) as Hcur.
  { rewrite Hpage. destruct (decide _); [apply current_set_shown | done]. }
  assert (∀ r', r' ∈ a_pending s → r' ≠ r → r' ∈ a_pending s') as Hkeep.
  { intros r' Hr' Hne. rewrite Hpend. apply list_elem_of_filter.
    split; [|done]. intros Heq. apply Hne.
    apply (NoDup_fmap_elem_inj rq_id (a_pending s)); congruence. }
  split.
  - intros r' Hr' Ht ?%Hf. rewrite Hpend in Hr'.
    apply list_elem_of_filter in Hr' as [_ Hr']. rewrite Hcur. by apply Hfresh.
  - intros Hnone. rewrite Hcur, Hpage. destruct (decide (fresh s r)) as [Hfr | Hfr].
    + rewrite shown_set_shown. destruct (decide (rq_target r = t)) as [Ht | Ht].
      * rewrite <- (Hfresh r Hr Ht Hfr). apply update_shows.
        rewrite (Hfresh r Hr Ht Hfr). by apply current_ok.
      * apply Hshown. intros r' Hr' Ht' Hfr'.
        apply (Hnone r'); [apply Hkeep; [done | congruence] | done | by apply Hf].
    + apply Hshown. intros r' Hr' Ht' Hfr'.
      destruct (decide (r' = r)) as [-> | Hne]; [done |].
      apply (Hnone r'); [by apply Hkeep | done | by apply Hf].
Qed.

Lemma deliver_inv `{!TotalCallbacks C} id s s' :
  async_inv C s → deliver C id s = Some s' → async_inv C s'.
Proof.
  intros (Hids & Hb & Hts) Hdel. split; [by eapply deliver_ids |].
  destruct (deliver_inputs _ _ _ Hdel) as [_ Hrange].
  split; [unfold two_bounds; by rewrite Hrange |].
  intros t. by eapply deliver_target.
Qed.

Lemma async_step_inv `{!TotalCallbacks C} s l s' :
  async_inv C s → async_step C s l = Some s' → async_inv C s'.
Proof.
  destruct l as [e | id]; simpl; [intros ? [= <-]; by apply interact_inv |].
  apply deliver_inv.
Qed.

Lemma async_run_inv `{!TotalCallbacks C} ls s s' :
  async_inv C s → async_run C s ls = Some s' → async_inv C s'.
Proof.
  revert s. induction ls as [|l ls IH]; intros s Hinv; simpl; [by intros [= <-] |].
  destruct (async_step C s l) as [s1|] eqn:E; [|done]. simpl.
  apply IH. by eapply async_step_inv.
Qed.

(** With no request in flight both graphs show the charts of the current
    selection. *)
Lemma quiescent_consistent s :
  async_inv C s → quiescent s → consistent C (a_page s).
Proof.
  intros (_ & _ & Hts) Hq.
  split; [apply (Hts PieChart) | apply (Hts ScatterChart)];
    intros r Hr; rewrite Hq in Hr; by apply elem_of_nil in Hr.
Qed.

(** ** The selection along a run *)

Lemma interact_page e s : a_page (interact e s) = set_input e (a_page s).
Proof. unfold interact. by rewrite page_foldl_issue. Qed.

Lemma step_same_inputs e p q :
  same_inputs p q → same_inputs (step C p e) (set_input e q).
Proof. intros [Hs Hr]. destruct e; split; simpl; congruence. Qed.

Lemma async_step_inputs s l s' p :
  async_step C s l = Some s' → same_inputs p (a_page s) →
  same_inputs (run C p (events [l])) (a_page s').
Proof.
  destruct l as [e | id]; simpl.
  - intros [= <-] Hp. rewrite interact_page. by apply step_same_inputs.
  - intros [Hs Hr]%deliver_inputs [??]. split; congruence.
Qed.

Lemma events_cons l ls : events (l :: ls) = events [l] ++ events ls.
Proof. by destruct l. Qed.

Lemma async_run_inputs ls s s' p :
  async_run C s ls = Some s' → same_inputs p (a_page s) →
  same_inputs (run C p (events ls)) (a_page s').
Proof.
  revert s p. induction ls as [|l ls IH]; intros s p Hrun Hp; simpl in Hrun.
  - by injection Hrun as <-.
  - destruct (async_step C s l) as [s1|] eqn:E; [|done]. simpl in Hrun.
    rewrite events_cons. unfold run. rewrite foldl_app. eapply IH; [done |].
    by eapply async_step_inputs.
Qed.

Lemma async_reachable_run (page : component) ls s s' :
  async_reachable C page s → async_run C s ls = Some s' →
  async_reachable C page s'.
Proof.
  revert s. induction ls as [|l ls IH]; intros s Hs; simpl; [by intros [= <-] |].
  destruct (async_step C s l) as [s1|] eqn:E; [|done]. simpl.
  apply IH. by econstructor.
Qed.

(** ** Answers arrive in any order, and not for ever *)

Lemma deliver_length id s s' :
  deliver C id s = Some s' → length (a_pending s') < length (a_pending s).
Proof.
  intros (r & Hr & Hid & -> & _)%deliver_Some.
  apply (length_filter_lt _ _ r); [done | naive_solver].
Qed.

Context `{!TotalCallbacks C}.

Lemma async_reachable_inv (page : component) s :
  (∀ rng, slider_value_of "payload-slider" page = Some rng → length rng = 2) →
  async_reachable C page s → async_inv C s.
Proof.
  intros Hpage. induction 1 as [s Hload | s l s' _ IH Hstep].
  - by eapply async_load_inv.
  - by eapply async_step_inv.
Qed.

(** Whatever the order in which the pending answers arrive, they all
    arrive, and the page is then quiescent. *)
Lemma drain (ids : list nat) s :
  async_inv C s → ids ≡ₚ rq_id <$> a_pending s →
  ∃ s', async_run C s (Deliver <$> ids) = Some s' ∧ quiescent s' ∧
        async_inv C s' ∧ same_inputs (a_page s) (a_page s').
Proof.
  revert s. induction ids as [|id ids IH]; intros s Hinv Hperm.
  - apply Permutation_nil_l, eq_sym, fmap_nil_inv in Hperm. by exists s.
  - assert (id ∈ rq_id <$> a_pending s) as (r & -> & Hr)%list_elem_of_fmap
      by (rewrite <- Hperm; by left).
    destruct (deliver_is_Some r s Hr) as [s1 Hdel].
    destruct (IH s1) as (s' & Hrun & Hq & Hinv' & Hs & Hrg).
    { by eapply deliver_inv. }
    { destruct (deliver_Some _ _ _ Hdel) as (_ & _ & _ & -> & _).
      apply Permutation_cons_filter_fmap; [apply Hinv | done]. }
    exists s'. csimpl. rewrite Hdel. simpl. split; [done |].
    destruct (deliver_inputs _ _ _ Hdel) as [??].
    split; [done |]. split; [done |]. split; congruence.
Qed.

(** When no request is in flight the page is the one the synchronous host
    shows after the same interactions. *)
Lemma async_refines (page : component) s0 p0 ls s :
  async_load page = Some s0 → load_page C page = Some p0 → two_bounds p0 →
  async_run C s0 ls = Some s → quiescent s →
  a_page s = run C p0 (events ls).
Proof.
  intros Hload Hload' Hb Hrun Hq.
  assert (same_inputs p0 (a_page s0) ∧ async_inv C s0) as [Hin Hinv].
  { split; [|eapply async_load_inv; [done |]];
      unfold load_page, async_load in *;
      destruct (dropdown_value _ page) as [v|]; try done;
      destruct (slider_value_of _ page) as [rng|]; try done.
    - injection Hload as <-. by injection Hload' as <-.
    - injection Hload' as <-. by intros ? [= <-]. }
  destruct (async_run_inputs ls s0 s p0 Hrun Hin) as [Hsite Hrange].
  symmetry. apply (consistent_inj C); [| | done..].
  - eapply proj2, (reachable_inv C page).
    + intros p Hp. congruence.
    + by apply (reachable_run C page p0 (events ls)), reach_load.
  - apply quiescent_consistent; [by eapply async_run_inv | done].
Qed.

End async_steps.

(** ** The dashboard with requests in flight *)

Section async_claims.
Implicit Types (data : module_data) (page : component) (d : list launch).
Implicit Types (s : async_state) (ls : list label) (ids : list nat).

Lemma async_load_startup read_csv data page :
  startup read_csv = Ok (data, page) → async_load page = Some (first_async data).
Proof.
  intros Hstart. unfold async_load.
  by destruct (startup_inputs _ _ _ Hstart) as [-> ->].
Qed.

(** C6. After a successful start-up on launch records with numeric payloads,
    take any run of the host in which answers arrive late and out of order.
    If no request is left in flight at its end, the page is exactly the one
    the synchronous host shows after the same interactions: delaying,
    reordering and dropping superseded answers changes nothing that the user
    can see once the page has settled. *)
Theorem async_refines_host read_csv data page d ls s :
  startup read_csv = Ok (data, page) →
  represents (spacex_df data) d → numeric_payload d →
  async_run (app_callbacks data) (first_async data) ls = Some s → quiescent s →
  a_page s = run (app_callbacks data) (first_state data) (events ls).
Proof.
  intros Hstart Hd Hnum Hrun Hq.
  pose proof (app_callbacks_total data d Hd Hnum) as Htotal.
  eapply (async_refines (app_callbacks data) page);
    [by eapply async_load_startup | by eapply load_page_startup | done..].
Qed.

Lemma async_refines_host_witness :
  a_page (default (first_async example_data)
            (async_run (app_callbacks example_data) (first_async example_data)
               example_labels))
  = run (app_callbacks example_data) (first_state example_data)
      (events example_labels).
Proof.
  eapply (async_refines_host (Ok example_df) example_data _ example_launches);
    [reflexivity | apply represents_frame_of | repeat constructor
     | by vm_compute | by vm_compute].
Defined.

(** C8. After a successful start-up on launch records with numeric payloads,
    from every state the host can reach, once the user stops interacting the
    pending answers can arrive in any order: each one is accepted, none is
    left, the selection is untouched, and both graphs then show the charts of
    the current selection. *)
Theorem async_eventually_consistent read_csv data page d s ids :
  startup read_csv = Ok (data, page) →
  represents (spacex_df data) d → numeric_payload d →
  async_reachable (app_callbacks data) page s →
  ids ≡ₚ rq_id <$> a_pending s →
  ∃ s', async_run (app_callbacks data) s (Deliver <$> ids) = Some s' ∧
        quiescent s' ∧ same_inputs (a_page s) (a_page s') ∧
        consistent (app_callbacks data) (a_page s').
Proof.
  intros Hstart Hd Hnum Hs Hperm.
  pose proof (app_callbacks_total data d Hd Hnum) as Htotal.
  destruct (drain (app_callbacks data) ids s) as (s' & Hrun & Hq & Hinv & Hin);
    [|done |].
  - eapply (async_reachable_inv _ page); [|done].
    destruct (startup_inputs _ _ _ Hstart) as [_ ->]. by intros rng [= <-].
  - exists s'. split; [done |]. split; [done |]. split; [done |].
    by apply quiescent_consistent.
Qed.

Lemma async_eventually_consistent_witness :
  ∃ s', async_run (app_callbacks example_data)
          (interact (SelectSite (PStr "B")) (first_async example_data))
          (Deliver <$> [3; 0; 2; 1])
        = Some s' ∧
        quiescent s' ∧
        same_inputs
          (a_page (interact (SelectSite (PStr "B")) (first_async example_data)))
          (a_page s') ∧
        consistent (app_callbacks example_data) (a_page s').
Proof.
  eapply (async_eventually_consistent (Ok example_df) example_data _
            example_launches);
    [reflexivity | apply represents_frame_of | repeat constructor | |].
  - apply (areach_step _ _ (first_async example_data)
             (Interact (SelectSite (PStr "B"))));
      [apply areach_load; reflexivity | reflexivity].
  - apply (bool_decide_unpack _). by vm_compute.
Defined.

(** Answers cannot keep arriving for ever: every delivery removes a request
    from flight, so from any state the deliveries come to an end. *)
Lemma delivers_sn (C : callbacks) s : sn (delivers C) s.
Proof.
  remember (length (a_pending s)) as n eqn:Hn. revert s Hn.
  induction (lt_wf n) as [n _ IH]. intros s ->. constructor.
  intros s' [id Hdel]. eapply IH; [by eapply deliver_length | done].
Qed.

End async_claims.
