(* ===== verification/Examples.v ===== *)
(** * The worked examples

    The example of the specification (three launches: a success and a
    failure of 500 kg at site A, a success of 9000 kg at site B) and the
    dashboard on the placeholder dataset, evaluated on the definitions of the
    development.  Every statement here is closed and proved by computation:
    the definitions run. *)

From S2P Require Import Prelude PyValue Frame Dataset Plotly Loader Layout Pie Scatter App Host AsyncHost.

(** ** The example of the specification *)

Example example_pie_all :
  slices <$> get_pie_chart example_df (PStr "ALL")
  = Ok [(PStr "A", 1%Z); (PStr "B", 1%Z)].
Proof. reflexivity. Qed.

Example example_pie_site :
  slices <$> get_pie_chart example_df (PStr "A")
  = Ok [(PStr "Success", 1%Z); (PStr "Failure", 1%Z)].
Proof. reflexivity. Qed.

Example example_scatter :
  fig_points <$> get_scatter_chart example_df (PStr "ALL") [PInt 0; PInt 1000]
  = Ok [mkPoint (PInt 500) (PInt 1) (PStr "B1");
        mkPoint (PInt 500) (PInt 0) (PStr "B2")].
Proof. reflexivity. Qed.

Example example_scatter_site :
  fig_points <$> get_scatter_chart example_df (PStr "B") [PInt 0; PInt 10000]
  = Ok [mkPoint (PInt 9000) (PInt 1) (PStr "B1")].
Proof. reflexivity. Qed.

(** A site that is not in the dataset, and the cleared drop-down: a chart
    without slices. *)
Example example_pie_unknown_site :
  slices <$> get_pie_chart example_df (PStr "C") = Ok [] ∧
  slices <$> get_pie_chart example_df PNone = Ok [].
Proof. split; reflexivity. Qed.

(** ** Start-up *)

Example example_startup :
  startup (Ok example_df) = Ok (example_data, example_page) ∧
  dropdown_options "site-dropdown" example_page
  = Some [mkOption (PStr "All Sites") (PStr "ALL");
          mkOption (PStr "A") (PStr "A"); mkOption (PStr "B") (PStr "B")] ∧
  slider_value_of "payload-slider" example_page = Some [PInt 500; PInt 9000].
Proof. repeat split; reflexivity. Qed.

(** The dashboard on the placeholder dataset: the drop-down offers the site
    ['Default'], the pie chart of all sites is empty (the only launch is a
    failure) and the scatter chart has the placeholder as its only point. *)
Example example_missing_file :
  ∃ data page,
    startup (Err FileNotFoundError) = Ok (data, page) ∧
    stdout data = [missing_file_message] ∧
    option_values <$> dropdown_options "site-dropdown" page
    = Some [PStr "ALL"; PStr "Default"] ∧
    slider_value_of "payload-slider" page = Some [PInt 0; PInt 0] ∧
    slices <$> initial_pie data = Ok [] ∧
    fig_points <$> initial_scatter data
    = Ok [mkPoint (PInt 0) (PInt 0) (PStr "Default")].
Proof. do 2 eexists. repeat split; reflexivity. Qed.

(** A dataset with a payload above the scale of the slider: the slider
    starts on the interval of the dataset, whose upper end lies outside the
    fixed scale 0-10000, and the first scatter chart shows the launch. *)
Example example_heavy_payload :
  let df := frame_of [mkLaunch (PInt 15600) (PStr "A") (PInt 1) (PStr "B5")] in
  ∃ data page,
    startup (Ok df) = Ok (data, page) ∧
    slider_value_of "payload-slider" page = Some [PInt 15600; PInt 15600] ∧
    fig_points <$> initial_scatter data
    = Ok [mkPoint (PInt 15600) (PInt 1) (PStr "B5")].
Proof. do 2 eexists. split; [reflexivity |]. split; reflexivity. Qed.

(** The same dataset with a column the program does not read and the columns
    in another order ([wide_df]): the same page. *)
Example example_wide_file :
  snd <$> startup (Ok wide_df) = Ok example_page.
Proof. reflexivity. Qed.

(** A launch whose site is missing: the drop-down offers an option for
    the missing value, and selecting it shows no launch, because a missing
    value is not equal to itself. *)
Example example_missing_site :
  let df := frame_of [mkLaunch (PInt 500) PNaN (PInt 1) (PStr "B1")] in
  option_values <$> site_options df = Ok [PStr "ALL"; PNaN] ∧
  slices <$> get_pie_chart df PNaN = Ok [] ∧
  fig_points <$> get_scatter_chart df PNaN [PInt 0; PInt 1000] = Ok [].
Proof. repeat split; reflexivity. Qed.

(** ** Irregular payload cells *)

(** A payload column read as text ([text_df]): every interval the slider can
    send makes the scatter callback raise. *)
Example example_text_payload :
  get_scatter_chart text_df (PStr "ALL") [PInt 0; PInt 1000] = Err TypeError.
Proof. reflexivity. Qed.

(** Missing payload cells, [None] and [nan]: the comparison does not raise
    and the launches without a payload are not plotted. *)
Example example_missing_payload :
  let df := frame_of [mkLaunch PNone (PStr "A") (PInt 1) (PStr "B1");
                      mkLaunch PNaN (PStr "A") (PInt 0) (PStr "B1");
                      mkLaunch (PInt 500) (PStr "A") (PInt 0) (PStr "B2")] in
  fig_points <$> get_scatter_chart df (PStr "ALL") [PInt 0; PInt 1000]
  = Ok [mkPoint (PInt 500) (PInt 0) (PStr "B2")].
Proof. reflexivity. Qed.

(** ** The hosts *)

(** The user selects site A and then narrows the slider to [0, 1000]. *)
Example example_run :
  let s := run (app_callbacks example_data) (first_state example_data)
             [SelectSite (PStr "A"); MoveSlider (PInt 0) (PInt 1000)] in
  slices <$> pie_shown s = Some [(PStr "Success", 1%Z); (PStr "Failure", 1%Z)] ∧
  length ∘ fig_points <$> scatter_shown s = Some 2.
Proof. split; reflexivity. Qed.

(** The same interactions with answers that arrive out of order
    ([example_labels]): the late answers to superseded requests are dropped
    and the page ends as in [example_run]. *)
Example example_async_run :
  a_page <$> async_run (app_callbacks example_data) (first_async example_data)
               example_labels
  = Some (run (app_callbacks example_data) (first_state example_data)
            [SelectSite (PStr "A"); MoveSlider (PInt 0) (PInt 1000)]).
Proof. by vm_compute. Qed.
